(** * Sales-lead CRM: lead scoring and the audit trail of edits

    A shallow embedding of the logic-bearing code of the repository:

    - [sales_lead.py]: the constants, [lead_score_weighted] and
      [random_lead_status_and_pipeline_stage];
    - [update_sales_lead.py]: [update_document], the batch refresh of a
      stored lead;
    - [streamlit_app.py]: the submission block of [edit_lead_page], the
      interactive edit of a stored lead.

    Modelling conventions.

    - Python scalars stored in a lead are the type [value]; [==] and
      truthiness are [py_eqb] and [truthy] ([True == 1] holds in Python,
      and so it does here).
    - Dictionaries with string keys are [gmap string _].
    - Every call into [random] takes its draw as an explicit argument, and
      the clock reading is the argument [now].
    - The score is accumulated in a Python float once the deal-size
      quotient has been added.  Floats are modelled by exact rationals
      ([Q]); deal sizes are integers (every caller passes the result of
      [random.randint], of an integer [st.number_input], or a stored
      integer).  On integers the rounding of binary64 cannot move the
      truncated total: a quotient by 166666 that is not a whole number is
      at least 1/166666 away from one, and the rounding errors of the
      division and of the few additions stay below 1e-12 wherever the
      total is not clamped anyway.  (True division raises
      [OverflowError] above about 3e313, far beyond the integers a number
      input or a stored document can hold; the model has no such bound.)
    - A Python exception is the [Raise] case of [result]. *)

From Stdlib Require Import ZArith QArith Qround Qminmax String List Lia.
From Stdlib Require Import SpecFloat DecimalString.
From stdpp Require Import gmap strings list fin_maps sorting.

Local Open Scope string_scope.
Local Open Scope Z_scope.

(** ** Python values *)

Inductive value : Type :=
  | VNone
  | VBool (b : bool)
  | VInt (n : Z)
  | VStr (s : string).

#[global] Instance value_eq_dec : EqDecision value.
Proof. solve_decision. Defined.

(** [bool] is a subclass of [int]: [True] counts as 1 in comparisons and
    arithmetic. *)
Definition numeric (v : value) : option Z :=
  match v with
  | VBool b => Some (Z.b2z b)
  | VInt n => Some n
  | VNone | VStr _ => None
  end.

(** [a == b] *)
Definition py_eqb (a b : value) : bool :=
  match a, b with
  | VNone, VNone => true
  | VStr s, VStr t => bool_decide (s = t)
  | VNone, _ | _, VNone | VStr _, _ | _, VStr _ => false
  | _, _ => bool_decide (numeric a = numeric b)
  end.

(** [a != b] *)
Definition py_neb (a b : value) : bool := negb (py_eqb a b).

(** [bool(v)], the test of [if v:] *)
Definition truthy (v : value) : bool :=
  match v with
  | VNone => false
  | VBool b => b
  | VInt n => negb (Z.eqb n 0)
  | VStr s => negb (bool_decide (s = ""))
  end.

(** [d.get(k, dflt)] on a dictionary with string keys, for a key that may
    be any scalar: only a string can be equal to a string key. *)
Definition dict_get {A} (d : gmap string A) (k : value) (dflt : A) : A :=
  match k with
  | VStr s => default dflt (d !! s)
  | _ => dflt
  end.

(** ** Exceptions *)

Inductive exn : Type :=
  | KeyError (k : string)
  | TypeError
  | IndexError.

Inductive result (A : Type) : Type :=
  | Ok (a : A)
  | Raise (e : exn).
Arguments Ok {A} a.
Arguments Raise {A} e.

#[global] Instance result_ret : MRet result := λ A a, Ok a.

#[global] Instance result_bind : MBind result := λ A B k m,
  match m with
  | Ok a => k a
  | Raise e => Raise e
  end.

(** ** sales_lead.py: constants *)

Module LeadStatus.
Definition PROSPECT := "Prospect".
Definition QUALIFIED := "Qualified".
Definition NEGOTIATION := "Negotiation".
Definition WON := "Won".
Definition LOST := "Lost".
End LeadStatus.

Module PipelineStage.
Definition DISCOVERY := "Discovery".
Definition PROPOSAL_SENT := "Proposal Sent".
Definition CONTRACT_SENT := "Contract Sent".
Definition NEGOTIATION := "Negotiation".
Definition CLOSED_WON := "Closed Won".
Definition CLOSED_LOST := "Closed Lost".
End PipelineStage.

Definition LEAD_STATUSES : list string :=
  [ LeadStatus.PROSPECT; LeadStatus.QUALIFIED; LeadStatus.NEGOTIATION;
    LeadStatus.WON; LeadStatus.LOST ].

Definition STATUS_PIPELINE_MAPPING : gmap string (list string) :=
  list_to_map
    [ (LeadStatus.PROSPECT,
        [ PipelineStage.DISCOVERY; PipelineStage.PROPOSAL_SENT;
          PipelineStage.CONTRACT_SENT; PipelineStage.NEGOTIATION ]);
      (LeadStatus.QUALIFIED,
        [ PipelineStage.DISCOVERY; PipelineStage.PROPOSAL_SENT;
          PipelineStage.CONTRACT_SENT; PipelineStage.NEGOTIATION ]);
      (LeadStatus.NEGOTIATION,
        [ PipelineStage.PROPOSAL_SENT; PipelineStage.CONTRACT_SENT;
          PipelineStage.NEGOTIATION ]);
      (LeadStatus.WON, [ PipelineStage.CLOSED_WON ]);
      (LeadStatus.LOST, [ PipelineStage.CLOSED_LOST ]) ].

Definition STATUS_SCORES : gmap string Z :=
  list_to_map
    [ (LeadStatus.WON, 25);
      (LeadStatus.NEGOTIATION, 15);
      (LeadStatus.QUALIFIED, 10);
      (LeadStatus.PROSPECT, 5);
      (LeadStatus.LOST, -10) ].

Definition PIPELINE_SCORES : gmap string Z :=
  list_to_map
    [ (PipelineStage.CLOSED_WON, 25);
      (PipelineStage.CONTRACT_SENT, 15);
      (PipelineStage.PROPOSAL_SENT, 10);
      (PipelineStage.DISCOVERY, 5);
      (PipelineStage.CLOSED_LOST, -10);
      (PipelineStage.NEGOTIATION, 20) ].

(** ** sales_lead.py: lead_score_weighted *)

(** [int(x)] on a float: truncation toward zero. *)
Definition int_of_float (x : Q) : Z := Z.quot (Qnum x) (Z.pos (Qden x)).

(** [x in (LeadStatus.WON, LeadStatus.LOST)] *)
Definition is_won_or_lost (lead_status : value) : bool :=
  py_eqb lead_status (VStr LeadStatus.WON)
  || py_eqb lead_status (VStr LeadStatus.LOST).

(** [min(last_deal_size / 166666, 30)]: true division, then the smaller
    of the quotient and 30. *)
Definition deal_score (last_deal_size : Z) : Q :=
  Qmin (last_deal_size # 166666) (inject_Z 30).

(** [base] is the value of [random.randint(20, 50)]. *)
Definition lead_score_weighted (base : Z) (last_deal_size : Z)
    (lead_status pipeline_stage crm_active : value) : Z :=
  let score := inject_Z base in
  let score := Qplus score (deal_score last_deal_size) in
  if is_won_or_lost lead_status then 0
  else
    let score :=
      Qplus score (inject_Z (dict_get STATUS_SCORES lead_status 0)) in
    let score :=
      Qplus score (inject_Z (dict_get PIPELINE_SCORES pipeline_stage 0)) in
    let score := if truthy crm_active then Qplus score (inject_Z 10) else score in
    Z.min (Z.max (int_of_float score) 0) 100.

(** ** lead_score_weighted in binary64 arithmetic

    The same function with the floats of the interpreter, IEEE 754
    binary64 with rounding to nearest even, kept beside the rational model
    to compare the two by evaluation.  The conversion of the operands
    before the division is exact below 2^53. *)

(** A Python number: an [int], or a [float]. *)
Inductive number : Type :=
  | NInt (n : Z)
  | NFloat (x : spec_float).

(** [float(n)] *)
Definition binary64_of_Z (n : Z) : spec_float :=
  binary_normalize 53 1024 n 0 false.

Definition float_of_number (a : number) : spec_float :=
  match a with
  | NInt n => binary64_of_Z n
  | NFloat x => x
  end.

(** [a + b]: integer addition on two integers, float addition otherwise. *)
Definition number_add (a b : number) : number :=
  match a, b with
  | NInt n, NInt m => NInt (n + m)
  | _, _ => NFloat (SFadd 53 1024 (float_of_number a) (float_of_number b))
  end.

(** [min(x, 30)], which is the integer 30 only when [30 < x]. *)
Definition number_min_30 (x : spec_float) : number :=
  if SFltb (binary64_of_Z 30) x then NInt 30 else NFloat x.

(** [int(a)]: truncation toward zero; not defined on infinities and NaN. *)
Definition int_of_number (a : number) : option Z :=
  match a with
  | NInt n => Some n
  | NFloat (S754_zero _) => Some 0
  | NFloat (S754_finite s m e) =>
    let magnitude :=
      match e with
      | Z.neg p => Z.pos m / 2 ^ Z.pos p
      | _ => Z.pos m * 2 ^ e
      end in
    Some (if s then - magnitude else magnitude)
  | NFloat _ => None
  end.

Definition lead_score_weighted_binary64 (base : Z) (last_deal_size : Z)
    (lead_status pipeline_stage crm_active : value) : option Z :=
  let score := NInt base in
  let deal_score :=
    number_min_30
      (SFdiv 53 1024 (binary64_of_Z last_deal_size) (binary64_of_Z 166666)) in
  let score := number_add score deal_score in
  if is_won_or_lost lead_status then Some 0
  else
    let score :=
      number_add score (NInt (dict_get STATUS_SCORES lead_status 0)) in
    let score :=
      number_add score (NInt (dict_get PIPELINE_SCORES pipeline_stage 0)) in
    let score := if truthy crm_active then number_add score (NInt 10) else score in
    n ← int_of_number score;
    Some (Z.min (Z.max n 0) 100).

(** Deal sizes around every multiple of 166666 up to the saturation
    point, and a few others. *)
Definition sample_deal_sizes : list Z :=
  flat_map (λ k, [ 166666 * k - 1; 166666 * k; 166666 * k + 1 ])
    (Z.of_nat <$> seq 1 31)
  ++ [ 0; 1; 25000; 250000; 1234567; 5000000; 2 ^ 53 - 1 ].

(** (status, stage, CRM flag) triples that reach every entry of the two
    tables. *)
Definition sample_leads : list (value * value * value) :=
  [ (VStr "Prospect", VStr "Discovery", VBool false);
    (VStr "Qualified", VStr "Proposal Sent", VBool true);
    (VStr "Negotiation", VStr "Contract Sent", VBool false);
    (VStr "Negotiation", VStr "Negotiation", VBool true);
    (VStr "Prospect", VStr "Closed Lost", VBool false);
    (VStr "Qualified", VStr "Closed Won", VBool true);
    (VStr "Won", VStr "Closed Won", VBool true);
    (VStr "Lost", VStr "Closed Lost", VBool false);
    (VNone, VNone, VNone) ].

(** The two models give the same score on a sample. *)
Definition models_agree (base deal_size : Z)
    (lead : value * value * value) : bool :=
  let '(status, stage, crm) := lead in
  bool_decide
    (lead_score_weighted_binary64 base deal_size status stage crm
     = Some (lead_score_weighted base deal_size status stage crm)).

(** [min(max(n, 0), 100)], the last line of [lead_score_weighted]. *)
Definition clamp (n : Z) : Z := Z.min (Z.max n 0) 100.

(** The points the two tables and the CRM flag add for a lead that is
    neither won nor lost. *)
Definition bonus_points (lead_status pipeline_stage crm_active : value) : Z :=
  dict_get STATUS_SCORES lead_status 0
  + dict_get PIPELINE_SCORES pipeline_stage 0
  + (if truthy crm_active then 10 else 0).

(** ** sales_lead.py: the random generators *)

(** [d[k]] on a dictionary with string keys. *)
Definition dict_index {A} (d : gmap string A) (k : string) : result A :=
  match d !! k with
  | Some a => Ok a
  | None => Raise (KeyError k)
  end.

(** [random.choice(seq)] is [seq[k]], where [k] is the draw of
    [_randbelow(len(seq))]; an index outside the sequence is an
    [IndexError], as on an empty sequence. *)
Definition random_choice {A} (seq : list A) (k : nat) : result A :=
  match seq !! k with
  | Some a => Ok a
  | None => Raise IndexError
  end.

(** The list [choices] built by the two nested loops of
    [random_lead_status_and_pipeline_stage]. *)
Definition status_stage_choices : result (list (string * string)) :=
  foldl
    (λ acc status,
       choices ← acc;
       stages ← dict_index STATUS_PIPELINE_MAPPING status;
       Ok (foldl (λ choices stage, (choices ++ [(status, stage)])%list)
             choices stages))
    (Ok []) LEAD_STATUSES.

Definition random_lead_status_and_pipeline_stage (k : nat)
    : result (string * string) :=
  choices ← status_stage_choices;
  random_choice choices k.

Definition notes_samples : list string :=
  [ "Contacted client, awaiting response.";
    "Sent proposal, pending approval.";
    "Negotiations ongoing, positive signs.";
    "Lost contact, follow-up needed.";
    "Client requested revised pricing." ].

Definition random_notes (k : nat) : result string :=
  random_choice notes_samples k.

(** ** Stored documents *)

(** One entry of the [old_data] dictionary. *)
Record audit_entry : Type := AuditEntry {
  old_value : value;
  audit_date : string
}.

#[global] Instance audit_entry_eq_dec : EqDecision audit_entry.
Proof. solve_decision. Defined.

(** A document of the bucket: the [sales_lead] dictionary and the
    [old_data] dictionary, either of which may be missing, and the other
    top-level keys. *)
Record document : Type := Document {
  sales_lead : option (gmap string value);
  old_data : option (gmap string audit_entry);
  other_keys : gmap string value
}.

(** [d.get(k)], which is [None] for a missing key. *)
Definition py_get (d : gmap string value) (k : string) : value :=
  default VNone (d !! k).

(** [v >= n] against an integer: defined on numbers only. *)
Definition py_ge (v : value) (n : Z) : result bool :=
  match numeric v with
  | Some m => Ok (n <=? m)
  | None => Raise TypeError
  end.

(** The operand of [last_deal_size / 166666] has to be a number. *)
Definition as_number (v : value) : result Z :=
  match numeric v with
  | Some m => Ok m
  | None => Raise TypeError
  end.

(** ** update_sales_lead.py: update_document *)

(** The three draws one call makes: the index of the (status, stage)
    pair, the index of the note, and the base of the score. *)
Record draws : Type := Draws {
  pair_draw : nat;
  notes_draw : nat;
  base_draw : Z
}.

Definition update_document (rnd : draws) (now : string) (doc : document)
    : result (document * bool) :=
  match sales_lead doc with
  | None => Ok (doc, false)
  | Some sl =>
    let od := default ∅ (old_data doc) in
    let changed := false in
    (* lead_status and pipeline_stage *)
    let current_pipeline := py_get sl "pipeline_stage" in
    let current_status := py_get sl "lead_status" in
    '(new_status, new_pipeline) ←
      random_lead_status_and_pipeline_stage (pair_draw rnd);
    let '(od, sl, changed) :=
      if py_neb (VStr new_status) current_status
         || py_neb (VStr new_pipeline) current_pipeline
      then
        let od := <["lead_status" := AuditEntry current_status now]> od in
        let od := <["pipeline_stage" := AuditEntry current_pipeline now]> od in
        let sl := <["lead_status" := VStr new_status]> sl in
        let sl := <["pipeline_stage" := VStr new_pipeline]> sl in
        (od, sl, true)
      else (od, sl, changed) in
    (* notes *)
    let current_note := py_get sl "notes" in
    new_note ← random_notes (notes_draw rnd);
    let '(od, sl, changed) :=
      if py_neb (VStr new_note) current_note
      then (<["notes" := AuditEntry current_note now]> od,
            <["notes" := VStr new_note]> sl, true)
      else (od, sl, changed) in
    (* lead_score *)
    let current_score := default (VInt 0) (sl !! "lead_score") in
    last_deal_size ← as_number (default (VInt 0) (sl !! "last_deal_size_usd"));
    let new_score :=
      lead_score_weighted (base_draw rnd) last_deal_size
        (VStr new_status) (VStr new_pipeline)
        (default (VBool false) (sl !! "crm_activity_flag")) in
    let '(od, sl, changed) :=
      if py_neb (VInt new_score) current_score
      then (<["lead_score" := AuditEntry current_score now]> od,
            <["lead_score" := VInt new_score]> sl, true)
      else (od, sl, changed) in
    (* high_priority_flag based on lead_score *)
    lead_score ← dict_index sl "lead_score";
    flag ← py_ge lead_score 80;
    let sl := <["high_priority_flag" := VBool flag]> sl in
    if changed
    then Ok (Document (Some sl) (Some od) (other_keys doc), true)
    else Ok (Document (Some sl) (old_data doc) (other_keys doc), false)
  end.

(** ** streamlit_app.py: the submission block of edit_lead_page *)

(** The values the widgets of the edit form return.  The number inputs
    are integer inputs; the date is kept in the form
    [strftime("%Y-%m-%d")] gives it, the only way the code reads it. *)
Record edit_form : Type := EditForm {
  new_company_name : string;
  new_market_region : string;
  new_market_cap : Z;
  new_annual_sales : Z;
  new_num_customers : Z;
  new_sales_contact_name : string;
  new_sales_contact_email : string;
  new_last_contact_date : string;
  new_lead_source : string;
  new_crm_activity : bool;
  new_lead_status : string;
  new_pipeline_stage : string;
  new_last_deal_size : Z;
  new_notes : string;
  new_quarter : string
}.

(** The dictionary [fields_to_check], in insertion order:
    field name, then (new value, old value). *)
Definition fields_to_check (f : edit_form) (new_lead_score : Z)
    (sl : gmap string value) : list (string * (value * value)) :=
  [ ("company_name", (VStr (new_company_name f), py_get sl "company_name"));
    ("primary_market_region",
       (VStr (new_market_region f), py_get sl "primary_market_region"));
    ("market_cap_usd", (VInt (new_market_cap f), py_get sl "market_cap_usd"));
    ("annual_sales_usd",
       (VInt (new_annual_sales f), py_get sl "annual_sales_usd"));
    ("number_of_customers",
       (VInt (new_num_customers f), py_get sl "number_of_customers"));
    ("sales_contact_name",
       (VStr (new_sales_contact_name f), py_get sl "sales_contact_name"));
    ("sales_contact_email",
       (VStr (new_sales_contact_email f), py_get sl "sales_contact_email"));
    ("date_of_last_contact",
       (VStr (new_last_contact_date f), py_get sl "date_of_last_contact"));
    ("lead_source", (VStr (new_lead_source f), py_get sl "lead_source"));
    ("crm_activity_flag",
       (VBool (new_crm_activity f), py_get sl "crm_activity_flag"));
    ("lead_status", (VStr (new_lead_status f), py_get sl "lead_status"));
    ("pipeline_stage",
       (VStr (new_pipeline_stage f), py_get sl "pipeline_stage"));
    ("last_deal_size_usd",
       (VInt (new_last_deal_size f), py_get sl "last_deal_size_usd"));
    ("lead_score", (VInt new_lead_score, py_get sl "lead_score"));
    ("notes", (VStr (new_notes f), py_get sl "notes"));
    ("quarter", (VStr (new_quarter f), py_get sl "quarter")) ].

(** One turn of the loop over [fields_to_check.items()]. *)
Definition check_field (now : string)
    (st : gmap string audit_entry * bool)
    (item : string * (value * value)) : gmap string audit_entry * bool :=
  let '(od, changed) := st in
  let '(field_name, (new_value, old_value)) := item in
  if py_neb new_value old_value
  then (<[field_name := AuditEntry old_value now]> od, true)
  else (od, changed).

(** The whole loop, from the history and flag it starts with. *)
Definition check_fields (now : string)
    (fields : list (string * (value * value)))
    (od : gmap string audit_entry) (changed : bool)
    : gmap string audit_entry * bool :=
  foldl (check_field now) (od, changed) fields.

(** What a submission does: it is turned down by the check of the
    required fields, or it finds nothing changed, or it hands a document
    to [collection.upsert]. *)
Inductive submit_outcome : Type :=
  | Rejected
  | NoChanges
  | Upserted (updated_doc : document).

(** [all([new_company_name, new_sales_contact_name,
    new_sales_contact_email])] *)
Definition required_fields_filled (f : edit_form) : bool :=
  forallb truthy
    [ VStr (new_company_name f); VStr (new_sales_contact_name f);
      VStr (new_sales_contact_email f) ].

(** The assignments to [updated_doc["sales_lead"]]: every field of the
    form, the new score, and the flag derived from the new score. *)
Definition updated_sales_lead (f : edit_form) (new_lead_score : Z)
    (sl : gmap string value) : gmap string value :=
  let sl := <["company_name" := VStr (new_company_name f)]> sl in
  let sl := <["primary_market_region" := VStr (new_market_region f)]> sl in
  let sl := <["market_cap_usd" := VInt (new_market_cap f)]> sl in
  let sl := <["annual_sales_usd" := VInt (new_annual_sales f)]> sl in
  let sl := <["number_of_customers" := VInt (new_num_customers f)]> sl in
  let sl := <["sales_contact_name" := VStr (new_sales_contact_name f)]> sl in
  let sl := <["sales_contact_email" := VStr (new_sales_contact_email f)]> sl in
  let sl := <["date_of_last_contact" := VStr (new_last_contact_date f)]> sl in
  let sl := <["lead_source" := VStr (new_lead_source f)]> sl in
  let sl := <["crm_activity_flag" := VBool (new_crm_activity f)]> sl in
  let sl := <["lead_status" := VStr (new_lead_status f)]> sl in
  let sl := <["pipeline_stage" := VStr (new_pipeline_stage f)]> sl in
  let sl := <["last_deal_size_usd" := VInt (new_last_deal_size f)]> sl in
  let sl := <["lead_score" := VInt new_lead_score]> sl in
  let sl := <["notes" := VStr (new_notes f)]> sl in
  let sl := <["quarter" := VStr (new_quarter f)]> sl in
  (* new_lead_score is not None and new_lead_score >= 80 *)
  <["high_priority_flag" := VBool (80 <=? new_lead_score)]> sl.

(** The score the form proposes. *)
Definition form_lead_score (base : Z) (f : edit_form) : Z :=
  lead_score_weighted base (new_last_deal_size f)
    (VStr (new_lead_status f)) (VStr (new_pipeline_stage f))
    (VBool (new_crm_activity f)).

(** The block under [if submitted:].  [data] is
    [selected_lead["data"]], [base] the draw inside
    [lead_score_weighted]. *)
Definition edit_lead_page (base : Z) (now : string) (data : document)
    (f : edit_form) : result submit_outcome :=
  let sl0 := default ∅ (sales_lead data) in
  if negb (required_fields_filled f) then Ok Rejected
  else
    let od := default ∅ (old_data data) in
    let changed := false in
    let new_lead_score := form_lead_score base f in
    let '(od, changed) :=
      check_fields now (fields_to_check f new_lead_score sl0) od changed in
    if changed then
      (* updated_doc = selected_lead["data"].copy() *)
      sl ← match sales_lead data with
           | Some sl => Ok sl
           | None => Raise (KeyError "sales_lead")
           end;
      let sl := updated_sales_lead f new_lead_score sl in
      Ok (Upserted (Document (Some sl) (Some od) (other_keys data)))
    else Ok NoChanges.


(** ** The scoring rule and the pair table as the specification words them *)

(** Status contribution: Negotiation +15, Qualified +10, Prospect +5,
    nothing otherwise. *)
Definition status_points_spec (status : value) : Z :=
  if bool_decide (status = VStr "Negotiation") then 15
  else if bool_decide (status = VStr "Qualified") then 10
  else if bool_decide (status = VStr "Prospect") then 5
  else 0.

(** Stage contribution: Closed Won +25, Contract Sent +15, Negotiation
    +20, Proposal Sent +10, Discovery +5, Closed Lost -10, nothing
    otherwise. *)
Definition stage_points_spec (stage : value) : Z :=
  if bool_decide (stage = VStr "Closed Won") then 25
  else if bool_decide (stage = VStr "Contract Sent") then 15
  else if bool_decide (stage = VStr "Negotiation") then 20
  else if bool_decide (stage = VStr "Proposal Sent") then 10
  else if bool_decide (stage = VStr "Discovery") then 5
  else if bool_decide (stage = VStr "Closed Lost") then -10
  else 0.

(** The clamp to [0, 100] of the truncation of
    base + min(deal_size / 166666, 30) + status + stage + CRM points. *)
Definition compute_score_spec (base deal_size : Z) (status stage : value)
    (crm_active : bool) : Z :=
  clamp (int_of_float
    (Qplus (Qplus (Qplus (Qplus (inject_Z base)
       (Qmin (deal_size # 166666) (inject_Z 30)))
       (inject_Z (status_points_spec status)))
       (inject_Z (stage_points_spec stage)))
       (inject_Z (if crm_active then 10 else 0)))).

(** The stages a status permits. *)
Definition permitted_stages_spec (status : string) : list string :=
  if bool_decide (status = "Prospect") || bool_decide (status = "Qualified")
  then [ "Discovery"; "Proposal Sent"; "Contract Sent"; "Negotiation" ]
  else if bool_decide (status = "Negotiation")
  then [ "Proposal Sent"; "Contract Sent"; "Negotiation" ]
  else if bool_decide (status = "Won") then [ "Closed Won" ]
  else if bool_decide (status = "Lost") then [ "Closed Lost" ]
  else [].

Definition valid_pair (status stage : string) : Prop :=
  stage ∈ permitted_stages_spec status.

#[global] Instance valid_pair_dec status stage :
  Decision (valid_pair status stage).
Proof. unfold valid_pair. apply _. Defined.

(** ** Notions the properties of the audit trail are stated with *)

(** The history of a document, empty when [old_data] is missing. *)
Definition history (doc : document) : gmap string audit_entry :=
  default ∅ (old_data doc).

(** The value of a field of the lead of a document, [None] when the
    field, or the lead, is missing. *)
Definition field (doc : document) (k : string) : value :=
  py_get (default ∅ (sales_lead doc)) k.

(** The keys of [fields_to_check]: the fields the edit form audits. *)
Definition tracked_fields : list string :=
  [ "company_name"; "primary_market_region"; "market_cap_usd";
    "annual_sales_usd"; "number_of_customers"; "sales_contact_name";
    "sales_contact_email"; "date_of_last_contact"; "lead_source";
    "crm_activity_flag"; "lead_status"; "pipeline_stage";
    "last_deal_size_usd"; "lead_score"; "notes"; "quarter" ].

(** The fields [update_document] audits. *)
Definition refreshed_fields : list string :=
  [ "lead_status"; "pipeline_stage"; "notes"; "lead_score" ].

(** The comparisons of [update_document], in the shape of
    [fields_to_check]: field name, then (new value, old value), for the
    pair and the note it has drawn and the deal size it has read. *)
Definition update_document_items (rnd : draws) (sl : gmap string value)
    (new_status new_pipeline new_note : string) (deal : Z)
    : list (string * (value * value)) :=
  [ ("lead_status", (VStr new_status, py_get sl "lead_status"));
    ("pipeline_stage", (VStr new_pipeline, py_get sl "pipeline_stage"));
    ("notes", (VStr new_note, py_get sl "notes"));
    ("lead_score",
       (VInt (lead_score_weighted (base_draw rnd) deal (VStr new_status)
                (VStr new_pipeline)
                (default (VBool false) (sl !! "crm_activity_flag"))),
        default (VInt 0) (sl !! "lead_score"))) ].

(** [new_status != current_status or new_pipeline != current_pipeline] *)
Definition pair_differs (sl : gmap string value)
    (new_status new_pipeline : string) : bool :=
  py_neb (VStr new_status) (py_get sl "lead_status")
  || py_neb (VStr new_pipeline) (py_get sl "pipeline_stage").

(** Some item has a new value that differs from the old one. *)
Definition some_field_differs (items : list (string * (value * value)))
    : bool :=
  existsb (λ item, py_neb item.2.1 item.2.2) items.

(** The history [after] an edit made at [now] is the history [before]
    where the items that satisfy [written] have got a fresh entry, made
    of their old value and [now], and the other items have kept theirs. *)
Definition entries_written (now : string)
    (written : string → value → value → bool)
    (items : list (string * (value * value)))
    (before after : gmap string audit_entry) : Prop :=
  ∀ k nv ov, (k, (nv, ov)) ∈ items →
    after !! k = if written k nv ov then Some (AuditEntry ov now)
                 else before !! k.

(** An entry is due for a field exactly when its new value differs. *)
Definition when_field_differs (k : string) (nv ov : value) : bool :=
  py_neb nv ov.

(** The rule of [update_document]: as above, but the status and the
    stage go together. *)
Definition when_field_or_partner_differs (pair_differs : bool)
    (k : string) (nv ov : value) : bool :=
  py_neb nv ov
  || bool_decide (k ∈ [ "lead_status"; "pipeline_stage" ]) && pair_differs.

(** [lead_score is not null and lead_score >= 80] *)
Definition score_is_high (lead_score : option value) : bool :=
  match lead_score with
  | Some v =>
    match numeric v with
    | Some n => 80 <=? n
    | None => false
    end
  | None => false
  end.

(** The invariant of the high-priority flag, on a document that holds a
    lead: the score is a number and the flag is the comparison of it
    with 80. *)
Definition flag_invariant (doc : document) : Prop :=
  ∀ sl, sales_lead doc = Some sl →
    (∃ n, (sl !! "lead_score") ≫= numeric = Some n)
    ∧ sl !! "high_priority_flag"
      = Some (VBool (score_is_high (sl !! "lead_score"))).

(** The documents the two edit operations produce: the document the
    edit form hands to [collection.upsert], and the document
    [update_document] returns. *)
Inductive produced : document → Prop :=
  | produced_by_edit_form base now data f d :
      edit_lead_page base now data f = Ok (Upserted d) → produced d
  | produced_by_update_document rnd now doc d changed :
      update_document rnd now doc = Ok (d, changed) → produced d.

(** ** Example documents *)

(** A stored lead as [insert_sales_lead.py] writes them; its score is
    the one base 20 gives. *)
Definition lead_a_fields : gmap string value :=
  list_to_map
    [ ("company_name", VStr "Acme Holdings");
      ("quarter", VStr "Q1 2025");
      ("market_cap_usd", VInt 50000000);
      ("annual_sales_usd", VInt 5000000);
      ("number_of_customers", VInt 500);
      ("primary_market_region", VStr "Europe");
      ("sales_contact_name", VStr "Ann Lee");
      ("sales_contact_email", VStr "ann@acme.example");
      ("date_of_last_contact", VStr "2025-02-03");
      ("lead_status", VStr "Prospect");
      ("pipeline_stage", VStr "Discovery");
      ("last_deal_size_usd", VInt 250000);
      ("lead_source", VStr "Referral");
      ("notes", VStr "A");
      ("crm_activity_flag", VBool true);
      ("lead_score", VInt 41);
      ("high_priority_flag", VBool false) ].

Definition lead_a : document :=
  Document (Some lead_a_fields) None {[ "lead_id" := VStr "7f0c" ]}.

(** The edit form filled with the values of [lead_a], but for the notes. *)
Definition form_a (notes : string) : edit_form :=
  {| new_company_name := "Acme Holdings";
     new_market_region := "Europe";
     new_market_cap := 50000000;
     new_annual_sales := 5000000;
     new_num_customers := 500;
     new_sales_contact_name := "Ann Lee";
     new_sales_contact_email := "ann@acme.example";
     new_last_contact_date := "2025-02-03";
     new_lead_source := "Referral";
     new_crm_activity := true;
     new_lead_status := "Prospect";
     new_pipeline_stage := "Discovery";
     new_last_deal_size := 250000;
     new_notes := notes;
     new_quarter := "Q1 2025" |}.

(** The fields of a lead whose note is the first of [notes_samples],
    but for its [high_priority_flag]. *)
Definition lead_r_fields : gmap string value :=
  list_to_map
    [ ("company_name", VStr "Borel Systems");
      ("lead_status", VStr "Prospect");
      ("pipeline_stage", VStr "Discovery");
      ("last_deal_size_usd", VInt 250000);
      ("notes", VStr "Contacted client, awaiting response.");
      ("crm_activity_flag", VBool true);
      ("lead_score", VInt 41) ].

(** That lead with the flag its score calls for. *)
Definition lead_r_flagged : document :=
  Document (Some (<["high_priority_flag" := VBool false]> lead_r_fields))
    None {[ "lead_id" := VStr "03b1" ]}.

(** [lead_a] after [update_document] has drawn (Qualified, Discovery),
    the first note and base 20. *)
Definition lead_a_refreshed (now : string) : document :=
  Document
    (Some (<["high_priority_flag" := VBool false]>
             (<["lead_score" := VInt 46]>
                (<["notes" := VStr "Contacted client, awaiting response."]>
                   (<["pipeline_stage" := VStr "Discovery"]>
                      (<["lead_status" := VStr "Qualified"]>
                         lead_a_fields))))))
    (Some (list_to_map
             [ ("lead_status", AuditEntry (VStr "Prospect") now);
               ("pipeline_stage", AuditEntry (VStr "Discovery") now);
               ("notes", AuditEntry (VStr "A") now);
               ("lead_score", AuditEntry (VInt 41) now) ]))
    {[ "lead_id" := VStr "7f0c" ]}.

(** [lead_a] with other notes, and the single history entry an edit of
    the notes leaves. *)
Definition lead_a_edited (notes old_notes now : string) : document :=
  Document (Some (<["notes" := VStr notes]> lead_a_fields))
    (Some {[ "notes" := AuditEntry (VStr old_notes) now ]})
    {[ "lead_id" := VStr "7f0c" ]}.

(** [lead_r_flagged] with another note and the history entry for it. *)
Definition lead_r_refreshed (notes old_notes now : string) : document :=
  Document
    (Some (<["notes" := VStr notes]>
             (<["high_priority_flag" := VBool false]> lead_r_fields)))
    (Some {[ "notes" := AuditEntry (VStr old_notes) now ]})
    {[ "lead_id" := VStr "03b1" ]}.

(** ** Auxiliary definitions and tactics of the proofs *)

(** The value of [choices] once the loops have run. *)
Definition all_choices : list (string * string) :=
  [ ("Prospect", "Discovery"); ("Prospect", "Proposal Sent");
    ("Prospect", "Contract Sent"); ("Prospect", "Negotiation");
    ("Qualified", "Discovery"); ("Qualified", "Proposal Sent");
    ("Qualified", "Contract Sent"); ("Qualified", "Negotiation");
    ("Negotiation", "Proposal Sent"); ("Negotiation", "Contract Sent");
    ("Negotiation", "Negotiation"); ("Won", "Closed Won");
    ("Lost", "Closed Lost") ].

(** Closed decidable facts are settled by evaluating their decision
    procedure. *)
Ltac by_evaluation := apply (bool_decide_unpack _); vm_compute; exact I.

(** Closed equations are settled by evaluating both sides; the check
    itself is made when the proof is closed. *)
Ltac by_computation :=
  lazymatch goal with
  | |- ?a = ?b => vm_cast_no_check (@eq_refl _ b)
  end.

(** A membership hypothesis in a literal list, split into its cases. *)
Ltac cases_of_membership H :=
  repeat (apply elem_of_cons in H as [H | H]); [.. | by apply elem_of_nil in H].


(** An assignment [m[k] = a] under a condition. *)
Definition insert_if {A} (b : bool) (k : string) (a : A)
    (m : gmap string A) : gmap string A :=
  if b then <[k := a]> m else m.

(** The proofs unfold these by name only. *)
Arguments lead_score_weighted : simpl never.
Arguments form_lead_score : simpl never.
Arguments required_fields_filled : simpl never.
Arguments fields_to_check : simpl never.
Arguments updated_sales_lead : simpl never.
Arguments check_fields : simpl never.
Arguments random_lead_status_and_pipeline_stage : simpl never.
Arguments random_notes : simpl never.

(** Decisions on closed strings are replaced by their values. *)
Ltac evaluate_decisions :=
  repeat match goal with
    | |- context [bool_decide ?P] =>
        let b := eval vm_compute in (bool_decide P) in
        change (bool_decide P) with b
    end.

(** Case analysis on every comparison of values left in the goal. *)
Ltac cases_of_comparisons :=
  repeat match goal with
    | |- context [py_neb ?a ?b] => destruct (py_neb a b) eqn:?
    end.

(** ** streamlit_app.py: the submission block of create_new_lead_form *)

(** What a submission of the create form does: it is turned down by
    the check of the required fields, or it hands a key and a document to
    [collection.insert]. *)
Inductive create_outcome : Type :=
  | CreateRejected
  | Inserted (doc_key : string) (lead_doc : document).

(** The dictionary under ["sales_lead"] in [lead_doc]. *)
Definition created_sales_lead (f : edit_form) (lead_score : Z)
    : gmap string value :=
  list_to_map
    [ ("company_name", VStr (new_company_name f));
      ("quarter", VStr (new_quarter f));
      ("market_cap_usd", VInt (new_market_cap f));
      ("annual_sales_usd", VInt (new_annual_sales f));
      ("number_of_customers", VInt (new_num_customers f));
      ("primary_market_region", VStr (new_market_region f));
      ("sales_contact_name", VStr (new_sales_contact_name f));
      ("sales_contact_email", VStr (new_sales_contact_email f));
      ("date_of_last_contact", VStr (new_last_contact_date f));
      ("lead_status", VStr (new_lead_status f));
      ("pipeline_stage", VStr (new_pipeline_stage f));
      ("last_deal_size_usd", VInt (new_last_deal_size f));
      ("lead_source", VStr (new_lead_source f));
      ("notes", VStr (new_notes f));
      ("crm_activity_flag", VBool (new_crm_activity f));
      ("lead_score", VInt lead_score);
      (* lead_score is not None and lead_score >= 80 *)
      ("high_priority_flag", VBool (80 <=? lead_score)) ].

(** The block under [if submitted:].  The create form has the widgets
    of the edit form, and its values are held in the same record;
    [lead_id] is the value of [str(uuid.uuid4())] and [base] the draw
    inside [lead_score_weighted]. *)
Definition create_new_lead_form (base : Z) (lead_id : string)
    (f : edit_form) : create_outcome :=
  if negb (required_fields_filled f) then CreateRejected
  else
    let lead_score :=
      lead_score_weighted base (new_last_deal_size f)
        (VStr (new_lead_status f)) (VStr (new_pipeline_stage f))
        (VBool (new_crm_activity f)) in
    let doc_key := "lead::" +:+ lead_id in
    let lead_doc :=
      Document (Some (created_sales_lead f lead_score)) None
        {[ "lead_id" := VStr lead_id ]} in
    Inserted doc_key lead_doc.

Arguments created_sales_lead : simpl never.

(** ** streamlit_app.py: the display of a score *)

(** [v < n] against an integer: defined on numbers only. *)
Definition py_lt (v : value) (n : Z) : result bool :=
  match numeric v with
  | Some m => Ok (m <? n)
  | None => Raise TypeError
  end.

(** [score is None or score < 0] *)
Definition score_is_none_or_negative (score : value) : result bool :=
  if bool_decide (score = VNone) then Ok true else py_lt score 0.

(** [str(n)] of an integer. *)
Definition str_of_int (n : Z) : string :=
  NilZero.string_of_int (Z.to_int n).

Definition format_lead_score (score : value) : result string :=
  closed ← score_is_none_or_negative score;
  if (closed : bool) then Ok "N/A"
  else
    (* int(score), on a score that has just been compared with 0 *)
    n ← as_number score;
    Ok (str_of_int n +:+ "/100").

Definition get_priority_badge_class (score : value) : result string :=
  closed ← score_is_none_or_negative score;
  if (closed : bool) then Ok "priority-badge-closed"
  else
    high ← py_ge score 80;
    if (high : bool) then Ok "priority-badge-high"
    else
      medium ← py_ge score 50;
      if (medium : bool) then Ok "priority-badge-medium"
      else Ok "priority-badge-low".

Definition get_priority_text (score : value) : result string :=
  closed ← score_is_none_or_negative score;
  if (closed : bool) then Ok "CLOSED"
  else
    high ← py_ge score 80;
    if (high : bool) then Ok "HIGH"
    else
      medium ← py_ge score 50;
      if (medium : bool) then Ok "MEDIUM"
      else Ok "LOW".

(** ** sales_lead.py: random_lead_score *)

(** [k] is the draw of [random.choice([-5, 5])]. *)
Definition random_lead_score (k : nat) (current_score : Z) : result Z :=
  delta ← random_choice [ -5; 5 ] k;
  Ok (Z.max 0 (Z.min 100 (current_score + delta))).

(** ** update_sales_lead.py: main *)

(** The state of the loop of [main]: the collection and the two
    counters. *)
Record refresh_state : Type := RefreshState {
  collection : gmap string document;
  total : Z;
  updated : Z
}.

(** One turn of [for row in result]: [doc_id] is [row["id"]], [rnd] the
    draws [update_document] makes on this turn and [now] its clock
    reading.  [collection.get] on a missing key raises
    [DocumentNotFoundException], and the loop goes on to the next row. *)
Definition refresh_row (st : refresh_state)
    (row : string * draws * string) : result refresh_state :=
  let '(doc_id, rnd, now) := row in
  match collection st !! doc_id with
  | None => Ok st
  | Some doc =>
    '(updated_doc, changed) ← update_document rnd now doc;
    let st :=
      if (changed : bool)
      then RefreshState (<[doc_id := updated_doc]> (collection st))
             (total st) (updated st + 1)
      else st in
    Ok (RefreshState (collection st) (total st + 1) (updated st))
  end.

(** The loop of [main], from the counters at 0. *)
Definition refresh_all (coll : gmap string document)
    (rows : list (string * draws * string)) : result refresh_state :=
  foldl (λ acc row, st ← acc; refresh_row st row)
    (Ok (RefreshState coll 0 0)) rows.

(** ** More example documents *)

(** The lead the create form inserts for [form_a "A"], base 20 and the
    id ["4d1e"]. *)
Definition lead_a_created : document :=
  Document (Some (<["quarter" := VStr "Q1 2025"]> lead_a_fields)) None
    {[ "lead_id" := VStr "4d1e" ]}.

(** That lead after an edit of its notes. *)
Definition lead_a_created_edited (notes now : string) : document :=
  Document (Some (<["notes" := VStr notes]> lead_a_fields))
    (Some {[ "notes" := AuditEntry (VStr "A") now ]})
    {[ "lead_id" := VStr "4d1e" ]}.

(** A lead stored without a score. *)
Definition lead_unscored : document :=
  Document (Some (delete "lead_score" lead_r_fields)) None
    {[ "lead_id" := VStr "03b1" ]}.

(** The fields of [lead_a_refreshed]. *)
Definition lead_a_refreshed_fields : gmap string value :=
  <["high_priority_flag" := VBool false]>
    (<["lead_score" := VInt 46]>
       (<["notes" := VStr "Contacted client, awaiting response."]>
          (<["pipeline_stage" := VStr "Discovery"]>
             (<["lead_status" := VStr "Qualified"]> lead_a_fields)))).

(** A collection of three documents: two leads and a document that is
    not a lead. *)
Definition example_store : gmap string document :=
  list_to_map
    [ ("lead::7f0c", lead_a);
      ("lead::03b1", lead_r_flagged);
      ("config", Document None None {[ "version" := VInt 3 ]}) ].

(** The rows of a run of [main] on it: the three keys and a key whose
    document is gone, with the draws and clock reading of each turn. *)
Definition refresh_rows : list (string * draws * string) :=
  [ ("lead::7f0c", Draws 4 0 20, "2025-06-01T09:30:00Z");
    ("gone", Draws 1 1 30, "2025-06-01T09:30:01Z");
    ("config", Draws 2 2 40, "2025-06-01T09:30:01Z");
    ("lead::03b1", Draws 0 0 20, "2025-06-01T09:30:02Z") ].

(** The state that run ends in: one document rewritten out of three
    that were found. *)
Definition refreshed_store : refresh_state :=
  RefreshState
    (<["lead::7f0c" := lead_a_refreshed "2025-06-01T09:30:00Z"]>
       example_store)
    3 1.

(** ** streamlit_app.py: the metrics and filters of view_all_leads *)

(** A row of [leads]: [lead["id"]] and [lead["data"]]. *)
Definition lead_row : Type := string * document.

(** [lead["data"].get("sales_lead", {})] *)
Definition row_sales_lead (lead : lead_row) : gmap string value :=
  default ∅ (sales_lead lead.2).

(** [lo <= v < hi] against integers: defined on numbers only. *)
Definition py_between (lo : Z) (v : value) (hi : Z) : result bool :=
  match numeric v with
  | Some m => Ok ((lo <=? m) && (m <? hi))
  | None => Raise TypeError
  end.

(** [[x for x in l if keep(x)]], where the test may raise. *)
Fixpoint keep_if {A} (keep : A → result bool) (l : list A)
    : result (list A) :=
  match l with
  | [] => Ok []
  | x :: l =>
    b ← keep x;
    kept ← keep_if keep l;
    Ok (if (b : bool) then x :: kept else kept)
  end.

(** [sum(l)] of stored values, from the integer 0. *)
Fixpoint sum_values (l : list value) : result Z :=
  match l with
  | [] => Ok 0
  | v :: l =>
    n ← as_number v;
    total ← sum_values l;
    Ok (n + total)
  end.

(** [t in s] on strings. *)
Fixpoint is_substring (t s : string) : bool :=
  String.prefix t s
  || match s with
     | EmptyString => false
     | String _ s' => is_substring t s'
     end.

(** The four figures of the dashboard; the average is the quotient
    before it is formatted. *)
Record dashboard_metrics : Type := DashboardMetrics {
  total_leads : Z;
  high_priority : Z;
  avg_score : Q;
  total_value : Z
}.

(** [lead["data"].get("sales_lead", {}).get("high_priority_flag", False)] *)
Definition row_flag (lead : lead_row) : bool :=
  truthy (default (VBool false) (row_sales_lead lead !! "high_priority_flag")).

(** [lead["data"].get("sales_lead", {}).get("lead_score", 0)] *)
Definition row_score (lead : lead_row) : value :=
  default (VInt 0) (row_sales_lead lead !! "lead_score").

(** [lead["data"].get("sales_lead", {}).get("last_deal_size_usd", 0)] *)
Definition row_deal_size (lead : lead_row) : value :=
  default (VInt 0) (row_sales_lead lead !! "last_deal_size_usd").

(** The section of [view_all_leads] that computes the metrics. *)
Definition view_metrics (leads : list lead_row) : result dashboard_metrics :=
  let total_leads := Z.of_nat (length leads) in
  let high_priority := Z.of_nat (length (filter (λ lead, row_flag lead) leads)) in
  valid ← keep_if (λ lead, py_ge (row_score lead) 0) leads;
  let valid_scores := row_score <$> valid in
  avg_score ←
    match valid_scores with
    | [] => Ok (inject_Z 0)
    | _ =>
      total ← sum_values valid_scores;
      Ok (total # Pos.of_nat (length valid_scores))
    end;
  total_value ←
    sum_values (row_deal_size <$> leads);
  Ok (DashboardMetrics total_leads high_priority avg_score total_value).

(** What the filters give: the leads to show, or the exception of a
    comparison, or the [AttributeError] of [.lower()] on a company name
    that is not a string. *)
Inductive filter_outcome : Type :=
  | Shown (filtered_leads : list lead_row)
  | FilterRaised (e : exn)
  | FilterAttributeError.

Section ViewFilters.

(** [str.lower], of which the filters use nothing but the name. *)
Variable lower : string → string.

(** The search by company name; [None] stands for [AttributeError]. *)
Fixpoint search_leads (search_term : string) (leads : list lead_row)
    : option (list lead_row) :=
  match leads with
  | [] => Some []
  | lead :: leads =>
    match default (VStr "") (row_sales_lead lead !! "company_name") with
    | VStr company =>
      kept ← search_leads search_term leads;
      Some (if is_substring (lower search_term) (lower company)
            then lead :: kept else kept)
    | _ => None
    end
  end.

(** The filter on the priority. *)
Definition priority_leads (priority_filter : string)
    (leads : list lead_row) : result (list lead_row) :=
  if bool_decide (priority_filter = "High Priority")
  then Ok (filter (λ lead, row_flag lead) leads)
  else if bool_decide (priority_filter = "Medium Priority")
  then keep_if (λ lead, py_between 50 (row_score lead) 80) leads
  else if bool_decide (priority_filter = "Low Priority")
  then keep_if (λ lead, py_between 0 (row_score lead) 50) leads
  else if bool_decide (priority_filter = "Closed Leads")
  then keep_if (λ lead, py_lt (row_score lead) 0) leads
  else Ok leads.

(** The section of [view_all_leads] that filters the leads. *)
Definition view_filters (search_term status_filter priority_filter : string)
    (leads : list lead_row) : filter_outcome :=
  let filtered_leads := Some leads in
  let filtered_leads :=
    if truthy (VStr search_term) then search_leads search_term leads
    else filtered_leads in
  match filtered_leads with
  | None => FilterAttributeError
  | Some filtered_leads =>
    let filtered_leads :=
      if negb (bool_decide (status_filter = "All"))
      then filter
             (λ lead,
                py_eqb (py_get (row_sales_lead lead) "lead_status")
                  (VStr status_filter))
             filtered_leads
      else filtered_leads in
    match priority_leads priority_filter filtered_leads with
    | Ok filtered_leads => Shown filtered_leads
    | Raise e => FilterRaised e
    end
  end.

End ViewFilters.

(** A row whose score is a number that is not negative, with the flag
    that number calls for (the score and the flag missing count as 0 and
    [False], as in the code). *)
Definition row_well_scored (lead : lead_row) : Prop :=
  ∃ n, numeric (row_score lead) = Some n ∧ 0 ≤ n
       ∧ row_flag lead = (80 <=? n).

(** Example rows: the two example leads and a document that is not a
    lead. *)
Definition example_rows : list lead_row :=
  [ ("lead::7f0c", lead_a);
    ("lead::03b1", lead_r_flagged);
    ("config", Document None None {[ "version" := VInt 3 ]}) ].

(** The score of a lead as a number, 0 if it is none. *)
Local Abbreviation score_number lead := (default 0 (numeric (row_score lead))).

(** ** streamlit_app.py: get_all_sales_leads *)

(** [a < b] on stored values, the one comparison [sorted] makes on its
    keys: numbers with numbers and strings with strings. *)
Definition py_lt_values (a b : value) : result bool :=
  match numeric a, numeric b with
  | Some m, Some n => Ok (m <? n)
  | _, _ =>
    match a, b with
    | VStr s, VStr t => Ok (String.ltb s t)
    | _, _ => Raise TypeError
    end
  end.

(** The key of the sort, [x["data"]["sales_lead"]["lead_score"]]. *)
Definition lead_score_key (lead : lead_row) : result value :=
  match sales_lead lead.2 with
  | None => Raise (KeyError "sales_lead")
  | Some fields =>
    match fields !! "lead_score" with
    | None => Raise (KeyError "lead_score")
    | Some score => Ok score
    end
  end.

(** [sorted] computes the key of every element before it compares any. *)
Fixpoint keyed_leads (leads : list lead_row)
    : result (list (value * lead_row)) :=
  match leads with
  | [] => Ok []
  | lead :: leads =>
    key ← lead_score_key lead;
    keyed ← keyed_leads leads;
    Ok ((key, lead) :: keyed)
  end.

(** [sorted(..., reverse=True)] is stable, elements with equal keys keep
    their order, and it raises what [<] raises on two keys: an element
    goes in front of the sorted elements that follow it, past those with
    a greater key. *)
Fixpoint insert_descending (x : value * lead_row)
    (sorted : list (value * lead_row)) : result (list (value * lead_row)) :=
  match sorted with
  | [] => Ok [x]
  | y :: rest =>
    below ← py_lt_values x.1 y.1;
    if (below : bool)
    then rest ← insert_descending x rest; Ok (y :: rest)
    else Ok (x :: sorted)
  end.

Fixpoint sorted_descending (keyed : list (value * lead_row))
    : result (list (value * lead_row)) :=
  match keyed with
  | [] => Ok []
  | x :: keyed =>
    sorted ← sorted_descending keyed;
    insert_descending x sorted
  end.

(** [query_result] is the rows of the query, [(row["id"],
    row[COUCHBASE_COLLECTION])], or [None] when the query raised. *)
Definition get_all_sales_leads (query_result : option (list lead_row))
    : result (list lead_row) :=
  match query_result with
  | None => Ok []
  | Some leads =>
    keyed ← keyed_leads leads;
    sorted ← sorted_descending keyed;
    Ok (sorted.*2)
  end.

(** A lead that has a score, and the score is a number. *)
Definition has_numeric_score (lead : lead_row) : Prop :=
  ∃ score n, lead_score_key lead = Ok score ∧ numeric score = Some n.

(** [lead_a] with a score of 86 and its flag. *)
Definition lead_a_high : document :=
  Document
    (Some (<["high_priority_flag" := VBool true]>
             (<["lead_score" := VInt 86]> lead_a_fields)))
    None {[ "lead_id" := VStr "a2d9" ]}.

(** Rows as the query gives them, not in the order of the scores. *)
Definition example_query : list lead_row :=
  [ ("lead::03b1", lead_r_flagged);
    ("lead::a2d9", lead_a_high);
    ("lead::7f0c", lead_a) ].

(** [lead_a] with a score that is [None]. *)
Definition lead_a_null : document :=
  Document (Some (<["lead_score" := VNone]> lead_a_fields)) None
    {[ "lead_id" := VStr "55e0" ]}.

(** ** sales_lead.py: get_quarter_dates and random_date *)

(** A [datetime] at midnight, the only time of day the program makes;
    the arithmetic below is that of [datetime] on the proleptic
    Gregorian calendar. *)
Record datetime : Type := Datetime { year : Z; month : Z; day : Z }.

#[global] Instance datetime_eq_dec : EqDecision datetime.
Proof. solve_decision. Defined.

(** The days of the months 1 to 12 of a common year. *)
Definition DAYS_IN_MONTH : list Z :=
  [ 31; 28; 31; 30; 31; 30; 31; 31; 30; 31; 30; 31 ].

Definition is_leap (year : Z) : bool :=
  (year mod 4 =? 0) && (negb (year mod 100 =? 0) || (year mod 400 =? 0)).

(** The days before January 1st of [year]. *)
Definition days_before_year (year : Z) : Z :=
  let y := year - 1 in y * 365 + y / 4 - y / 100 + y / 400.

(** The days of a year before the first of [month]. *)
Definition days_before_month (leap : bool) (month : Z) : Z :=
  foldr Z.add 0 (take (Z.to_nat (month - 1)) DAYS_IN_MONTH)
  + (if (2 <? month) && leap then 1 else 0).

(** [d.toordinal()]: January 1st of year 1 is day 1. *)
Definition toordinal (d : datetime) : Z :=
  days_before_year (year d)
  + days_before_month (is_leap (year d)) (month d)
  + day d.

(** [date.fromordinal(n)]: cycles of 400, 100 and 4 years, then the
    year, and the month from an estimate that is at most one too far. *)
Definition fromordinal (n : Z) : datetime :=
  let n := n - 1 in
  let n400 := n / 146097 in
  let n := n mod 146097 in
  let n100 := n / 36524 in
  let n := n mod 36524 in
  let n4 := n / 1461 in
  let n := n mod 1461 in
  let n1 := n / 365 in
  let n := n mod 365 in
  let year := n400 * 400 + 1 + n100 * 100 + n4 * 4 + n1 in
  if (n1 =? 4) || (n100 =? 4) then Datetime (year - 1) 12 31
  else
    let leap := (n1 =? 3) && (negb (n4 =? 24) || (n100 =? 3)) in
    let month := Z.shiftr (n + 50) 5 in
    let month :=
      if n <? days_before_month leap month then month - 1 else month in
    Datetime year month (n - days_before_month leap month + 1).

(** [(end - start).days] *)
Definition days_between (start finish : datetime) : Z :=
  toordinal finish - toordinal start.

(** [start + timedelta(days=k)] *)
Definition add_days (start : datetime) (k : Z) : datetime :=
  fromordinal (toordinal start + k).

(** A number in at least [width] digits, as [%m], [%d] and, from the
    year 1000 on, [%Y] print it. *)
Definition zero_padded (width : nat) (n : Z) : string :=
  let digits := str_of_int n in
  String.concat "" (replicate (width - String.length digits) "0") +:+ digits.

(** [d.strftime("%Y-%m-%d")] *)
Definition strftime_ymd (d : datetime) : string :=
  zero_padded 4 (year d) +:+ "-" +:+ zero_padded 2 (month d)
  +:+ "-" +:+ zero_padded 2 (day d).

(** [k] is the draw of [random.randint(0, (end - start).days)]. *)
Definition random_date (start finish : datetime) (k : Z) : string :=
  strftime_ymd (add_days start k).

Definition quarter_dates : gmap string (datetime * datetime) :=
  list_to_map
    [ ("Q1 2025", (Datetime 2025 1 1, Datetime 2025 3 31));
      ("Q2 2025", (Datetime 2025 4 1, Datetime 2025 6 30));
      ("Q3 2025", (Datetime 2025 7 1, Datetime 2025 9 30));
      ("Q4 2025", (Datetime 2025 10 1, Datetime 2025 12 31)) ].

Definition get_quarter_dates (quarter : string) : datetime * datetime :=
  default (Datetime 2025 1 1, Datetime 2025 3 31) (quarter_dates !! quarter).

(** ** sales_lead.py: generate_company_name *)

Definition company_suffixes : list string :=
  [ "Inc."; "LLC"; "Corp."; "Holdings"; "Ventures"; "Systems"; "Solutions";
    "Partners"; "Group" ].

(** [company] is the value of [fake.company()] and [k] the draw of
    [random.choice(suffixes)]. *)
Definition generate_company_name (company : string) (k : nat)
    : result string :=
  suffix ← random_choice company_suffixes k;
  Ok (company +:+ " " +:+ suffix).

Definition MARKET_REGIONS : list string :=
  [ "North America"; "Europe"; "Southeast Asia"; "South America";
    "Middle East"; "Africa" ].

Definition LEAD_SOURCES : list string :=
  [ "Referral"; "Cold Call"; "Inbound Web Lead"; "Trade Show";
    "Partner Referral"; "Ad Campaign" ].

(** ** insert_sales_lead.py: generate_random_record *)

(** What one call draws: the values of [uuid.uuid4()], of [random] and
    of [fake], in the order of the calls. *)
Record record_draws : Type := RecordDraws {
  uuid_draw : string;
  deal_size_draw : Z;
  quarter_draw : nat;
  date_draw : Z;
  status_stage_draw : nat;
  crm_draw : nat;
  score_draw : Z;
  company_draw : string;
  suffix_draw : nat;
  market_cap_draw : Z;
  annual_sales_draw : Z;
  customers_draw : Z;
  region_draw : nat;
  contact_name_draw : string;
  contact_email_draw : string;
  source_draw : nat;
  sentence_draw : string
}.

Definition quarters : list string :=
  [ "Q1 2025"; "Q2 2025"; "Q3 2025"; "Q4 2025" ].

(** The dictionary under ["sales_lead"] in the record returned. *)
Definition random_sales_lead (r : record_draws)
    (company_name quarter region last_contact_date lead_status
       pipeline_stage source : string)
    (crm_activity : bool) (score : Z) : gmap string value :=
  list_to_map
    [ ("company_name", VStr company_name);
      ("quarter", VStr quarter);
      ("market_cap_usd", VInt (market_cap_draw r));
      ("annual_sales_usd", VInt (annual_sales_draw r));
      ("number_of_customers", VInt (customers_draw r));
      ("primary_market_region", VStr region);
      ("sales_contact_name", VStr (contact_name_draw r));
      ("sales_contact_email", VStr (contact_email_draw r));
      ("date_of_last_contact", VStr last_contact_date);
      ("lead_status", VStr lead_status);
      ("pipeline_stage", VStr pipeline_stage);
      ("last_deal_size_usd", VInt (deal_size_draw r));
      ("lead_source", VStr source);
      ("notes", VStr (sentence_draw r));
      ("crm_activity_flag", VBool crm_activity);
      ("lead_score", VInt score);
      ("high_priority_flag", VBool (80 <=? score)) ].

Definition generate_random_record (r : record_draws) : result document :=
  let lead_id := uuid_draw r in
  let last_deal_size := deal_size_draw r in
  quarter ← random_choice quarters (quarter_draw r);
  let start_date := (get_quarter_dates quarter).1 in
  let end_date := (get_quarter_dates quarter).2 in
  let last_contact_date := random_date start_date end_date (date_draw r) in
  pair ← random_lead_status_and_pipeline_stage (status_stage_draw r);
  let lead_status := (pair : string * string).1 in
  let pipeline_stage := pair.2 in
  crm_activity ← random_choice [ true; false ] (crm_draw r);
  let score :=
    lead_score_weighted (score_draw r) last_deal_size (VStr lead_status)
      (VStr pipeline_stage) (VBool crm_activity) in
  company_name ← generate_company_name (company_draw r) (suffix_draw r);
  region ← random_choice MARKET_REGIONS (region_draw r);
  source ← random_choice LEAD_SOURCES (source_draw r);
  Ok (Document
        (Some
           (random_sales_lead r company_name quarter region
              last_contact_date lead_status pipeline_stage source
              crm_activity score))
        None
        {[ "lead_id" := VStr lead_id ]}).

Arguments random_sales_lead : simpl never.

(** The draws [random] can make: each index within its list and each
    integer within the bounds of its [randint]. *)
Definition draws_in_range (r : record_draws) : Prop :=
  25000 ≤ deal_size_draw r ≤ 5000000
  ∧ (quarter_draw r < 4)%nat
  ∧ (∀ quarter,
       quarters !! quarter_draw r = Some quarter →
       0 ≤ date_draw r
         ≤ days_between (get_quarter_dates quarter).1
             (get_quarter_dates quarter).2)
  ∧ (status_stage_draw r < 13)%nat
  ∧ (crm_draw r < 2)%nat
  ∧ 20 ≤ score_draw r ≤ 50
  ∧ (suffix_draw r < 9)%nat
  ∧ 50000000 ≤ market_cap_draw r ≤ 10000000000
  ∧ 5000000 ≤ annual_sales_draw r ≤ 2000000000
  ∧ 500 ≤ customers_draw r ≤ 100000
  ∧ (region_draw r < 6)%nat
  ∧ (source_draw r < 6)%nat.

(** ** insert_sales_lead.py: main *)

(** [str(v)], as an f-string prints a stored value. *)
Definition py_str (v : value) : string :=
  match v with
  | VNone => "None"
  | VBool true => "True"
  | VBool false => "False"
  | VInt n => str_of_int n
  | VStr s => s
  end.

(** The state of the loop of [main]: the collection and the two
    counters. *)
Record insert_state : Type := InsertState {
  inserted_into : gmap string document;
  success_count : Z;
  error_count : Z
}.

Definition num_records : nat := 5.

(** One turn of the loop.  [collection.insert] raises on a key the
    collection holds, and the turn counts the error. *)
Definition insert_record (st : insert_state) (r : record_draws)
    : result insert_state :=
  doc ← generate_random_record r;
  lead_id ← dict_index (other_keys doc) "lead_id";
  let doc_key := "lead::" +:+ py_str lead_id in
  match inserted_into st !! doc_key with
  | None =>
    Ok (InsertState (<[doc_key := doc]> (inserted_into st))
          (success_count st + 1) (error_count st))
  | Some _ =>
    Ok (InsertState (inserted_into st) (success_count st)
          (error_count st + 1))
  end.

(** [draw i] is what turn [i] of [for _ in range(num_records)] draws. *)
Definition insert_main (stored : gmap string document)
    (draw : nat → record_draws) : result insert_state :=
  foldl (λ st i, st ← st; insert_record st (draw i))
    (Ok (InsertState stored 0 0)) (seq 0 num_records).

(** ** streamlit_app.py: the lead the edit page opens *)

(** The loop of [edit_lead_page] that looks for the lead whose id is
    [st.session_state["edit_lead_id"]]: the first one, or [None]. *)
Fixpoint selected_lead (edit_lead_id : string) (leads : list lead_row)
    : option lead_row :=
  match leads with
  | [] => None
  | lead :: leads =>
    if bool_decide (lead.1 = edit_lead_id) then Some lead
    else selected_lead edit_lead_id leads
  end.

(** ** Auxiliary definitions of the proofs about dates *)

(** A date in 2025 between the months of [start] and [finish], [k]
    days after [start], printed in ten characters. *)
Definition date_in_months (start finish : datetime) (k : Z)
    (d : datetime) : Prop :=
  year d = 2025
  ∧ month start ≤ month d ≤ month finish
  ∧ 1 ≤ day d ≤ default 0 (DAYS_IN_MONTH !! Z.to_nat (month d - 1))
  ∧ toordinal d = toordinal start + k
  ∧ String.length (strftime_ymd d) = 10%nat.

#[global] Instance date_in_months_dec start finish k d :
  Decision (date_in_months start finish k d).
Proof. unfold date_in_months. apply _. Defined.

(** The four entries of [quarter_dates]. *)
Definition quarter_ranges : list (datetime * datetime) :=
  [ (Datetime 2025 1 1, Datetime 2025 3 31);
    (Datetime 2025 4 1, Datetime 2025 6 30);
    (Datetime 2025 7 1, Datetime 2025 9 30);
    (Datetime 2025 10 1, Datetime 2025 12 31) ].

(** Draws of one record, and of a second one with the same id. *)
Definition example_draws : record_draws :=
  RecordDraws "9c1d" 480000 1 45 5 0 33 "Hartwell" 3 750000000 90000000
    12000 1 "Dana Reyes" "dana@hartwell.example" 2
    "Asked for a call after the trade show.".

Definition example_draws_again : record_draws :=
  RecordDraws "9c1d" 2600000 3 10 11 1 20 "Hartwell" 0 750000000 90000000
    12000 4 "Dana Reyes" "dana@hartwell.example" 0
    "Signed last week.".

(** The key of a keyed lead as a number. *)
Local Abbreviation key_number x := (default 0 (numeric (x : value * lead_row).1)).

(** * Properties of the score *)

Section ScoreArithmetic.

Lemma clamp_bounds n : 0 ≤ clamp n ≤ 100.
Proof. unfold clamp. lia. Qed.

Lemma clamp_mono n m : n ≤ m → clamp n ≤ clamp m.
Proof. unfold clamp. lia. Qed.

(** Truncation and floor differ only on negative numbers, which the
    clamp sends to 0 either way. *)
Lemma clamp_int_of_float x : clamp (int_of_float x) = clamp (Qfloor x).
Proof.
  destruct x as [n d]. unfold int_of_float, Qfloor, clamp. simpl.
  destruct (Z_lt_le_dec n 0) as [Hneg | Hpos].
  - assert (n / Z.pos d < 0) by (apply Z.div_lt_upper_bound; lia).
    assert (n ÷ Z.pos d ≤ 0).
    { replace n with (- - n) by lia. rewrite Z.quot_opp_l by lia.
      assert (0 ≤ - n ÷ Z.pos d) by (apply Z.quot_pos; lia). lia. }
    lia.
  - rewrite Z.quot_div_nonneg by lia. reflexivity.
Qed.

Lemma Qfloor_add_int (a : Z) (q : Q) :
  Qfloor (Qplus (inject_Z a) q) = a + Qfloor q.
Proof.
  destruct q as [n d]. unfold Qfloor, Qplus, inject_Z. simpl.
  rewrite Z.mul_1_r. rewrite Z.div_add_l by lia. reflexivity.
Qed.

Lemma Qfloor_deal_score d : Qfloor (deal_score d) = Z.min (d / 166666) 30.
Proof.
  unfold deal_score, Qmin, GenericMinMax.gmin, Qcompare. simpl.
  rewrite Z.mul_1_r. change (30 * 166666) with 4999980.
  destruct (Z.compare_spec d 4999980) as [Heq | Hlt | Hgt].
  - subst d. reflexivity.
  - unfold Qfloor.
    assert (d / 166666 < 30) by (apply Z.div_lt_upper_bound; lia).
    lia.
  - change (Qfloor (inject_Z 30)) with 30.
    assert (30 ≤ d / 166666) by (apply Z.div_le_lower_bound; lia).
    lia.
Qed.

(** The floor of an integer plus the deal score plus three integers. *)
Lemma Qfloor_running_total (b s p c d : Z) :
  Qfloor (Qplus (Qplus (Qplus (Qplus (inject_Z b) (deal_score d))
            (inject_Z s)) (inject_Z p)) (inject_Z c))
  = b + Z.min (d / 166666) 30 + s + p + c.
Proof.
  transitivity (Qfloor (Qplus (inject_Z (b + s + p + c)) (deal_score d))).
  - apply Qfloor_comp. rewrite !inject_Z_plus. ring.
  - rewrite Qfloor_add_int, Qfloor_deal_score. lia.
Qed.

Lemma Qfloor_running_total_no_crm (b s p d : Z) :
  Qfloor (Qplus (Qplus (Qplus (inject_Z b) (deal_score d))
            (inject_Z s)) (inject_Z p))
  = b + Z.min (d / 166666) 30 + s + p.
Proof.
  transitivity (Qfloor (Qplus (inject_Z (b + s + p)) (deal_score d))).
  - apply Qfloor_comp. rewrite !inject_Z_plus. ring.
  - rewrite Qfloor_add_int, Qfloor_deal_score. lia.
Qed.

End ScoreArithmetic.

(** The score in integer arithmetic: the floor of the quotient is all
    that survives the truncation. *)
Lemma lead_score_weighted_closed_form b d st sg crm :
  lead_score_weighted b d st sg crm =
  if is_won_or_lost st then 0
  else clamp (b + Z.min (d / 166666) 30 + bonus_points st sg crm).
Proof.
  unfold lead_score_weighted. destruct (is_won_or_lost st); [reflexivity |].
  unfold bonus_points. destruct (truthy crm).
  - fold (clamp (int_of_float
      (Qplus (Qplus (Qplus (Qplus (inject_Z b) (deal_score d))
         (inject_Z (dict_get STATUS_SCORES st 0)))
         (inject_Z (dict_get PIPELINE_SCORES sg 0))) (inject_Z 10)))).
    rewrite clamp_int_of_float, Qfloor_running_total. f_equal. lia.
  - fold (clamp (int_of_float
      (Qplus (Qplus (Qplus (inject_Z b) (deal_score d))
         (inject_Z (dict_get STATUS_SCORES st 0)))
         (inject_Z (dict_get PIPELINE_SCORES sg 0))))).
    rewrite clamp_int_of_float, Qfloor_running_total_no_crm. f_equal. lia.
Qed.

Lemma is_won_or_lost_spec st :
  is_won_or_lost st = true ↔ st = VStr "Won" ∨ st = VStr "Lost".
Proof.
  unfold is_won_or_lost, LeadStatus.WON, LeadStatus.LOST.
  destruct st as [ | b | n | s]; simpl;
    try (split; [discriminate | intros [H | H]; discriminate]).
  rewrite orb_true_iff, !bool_decide_eq_true.
  split; (intros [H | H]; [left | right]); congruence.
Qed.

(** The status table of the code gives the points the specification
    lists, away from Won and Lost. *)
Lemma status_scores_spec st :
  is_won_or_lost st = false →
  dict_get STATUS_SCORES st 0 = status_points_spec st.
Proof.
  intros Hnt.
  assert (st ≠ VStr "Won" ∧ st ≠ VStr "Lost") as [Hw Hl].
  { split; intros ->; discriminate. }
  unfold status_points_spec, dict_get.
  destruct st as [ | b | n | s]; try reflexivity.
  unfold STATUS_SCORES, LeadStatus.WON, LeadStatus.NEGOTIATION,
    LeadStatus.QUALIFIED, LeadStatus.PROSPECT, LeadStatus.LOST. simpl.
  repeat case_bool_decide; simplify_eq; simplify_map_eq; try reflexivity.
  rewrite !lookup_insert_ne by congruence. reflexivity.
Qed.

Lemma pipeline_scores_spec sg :
  dict_get PIPELINE_SCORES sg 0 = stage_points_spec sg.
Proof.
  unfold stage_points_spec, dict_get.
  destruct sg as [ | b | n | s]; try reflexivity.
  unfold PIPELINE_SCORES, PipelineStage.CLOSED_WON,
    PipelineStage.CONTRACT_SENT, PipelineStage.PROPOSAL_SENT,
    PipelineStage.DISCOVERY, PipelineStage.CLOSED_LOST,
    PipelineStage.NEGOTIATION. simpl.
  repeat case_bool_decide; simplify_eq; simplify_map_eq; try reflexivity.
  rewrite !lookup_insert_ne by congruence. reflexivity.
Qed.

(** On every sample the rational model and the binary64 model agree:
    the bases 20, 27, 35, 42 and 50, with 100 deal sizes and 9 leads
    each. *)
Lemma binary64_agrees_on_samples :
  forallb
    (λ base,
       forallb
         (λ deal_size, forallb (models_agree base deal_size) sample_leads)
         sample_deal_sizes)
    [ 20; 27; 35; 42; 50 ]
  = true.
Proof. by_computation. Qed.

(** ** Claims about the score *)

(** C1. Whatever the base draw, the deal size, the stage and the CRM
    flag, a lead whose status is Won or Lost scores exactly 0: the test
    on the status returns before the status and stage tables are read
    (the entries Won +25 and Lost -10 of [STATUS_SCORES] never count). *)
Theorem won_or_lost_scores_zero (base deal_size : Z) (stage crm : value) :
  lead_score_weighted base deal_size (VStr LeadStatus.WON) stage crm = 0
  ∧ lead_score_weighted base deal_size (VStr LeadStatus.LOST) stage crm = 0.
Proof. split; reflexivity. Qed.

(** C2. The score is an integer between 0 and 100, for every base draw,
    deal size, status, stage and CRM flag (in particular for the
    well-formed ones: base in 20..50 and a non-negative deal size). *)
Theorem score_within_0_100 (base deal_size : Z) (status stage crm : value) :
  0 ≤ lead_score_weighted base deal_size status stage crm ≤ 100.
Proof.
  rewrite lead_score_weighted_closed_form.
  destruct (is_won_or_lost status); [lia |]. apply clamp_bounds.
Qed.

(** C3. For a status other than Won and Lost the score is the clamp to
    [0, 100] of the truncation of
    base + min(deal_size / 166666, 30) + status points + stage points
    + 10 for an active CRM flag, with the points of the two tables of the
    specification; and a deal of 5,000,000 in Negotiation/Negotiation with
    the CRM flag and base 20 scores 95. *)
Theorem score_formula (base deal_size : Z) (status stage crm : value) :
  status ≠ VStr "Won" →
  status ≠ VStr "Lost" →
  lead_score_weighted base deal_size status stage crm
    = compute_score_spec base deal_size status stage (truthy crm)
  ∧ lead_score_weighted 20 5000000 (VStr "Negotiation") (VStr "Negotiation")
      (VBool true) = 95.
Proof.
  intros Hw Hl. split; [| reflexivity].
  assert (is_won_or_lost status = false) as Hnt.
  { apply not_true_is_false. rewrite is_won_or_lost_spec. tauto. }
  rewrite lead_score_weighted_closed_form, Hnt.
  unfold compute_score_spec, bonus_points.
  fold (deal_score deal_size).
  rewrite clamp_int_of_float, Qfloor_running_total.
  rewrite (status_scores_spec _ Hnt), pipeline_scores_spec.
  f_equal. destruct (truthy crm); lia.
Qed.

Lemma score_formula_witness :
  lead_score_weighted 35 250000 (VStr "Prospect") (VStr "Closed Lost") VNone
    = compute_score_spec 35 250000 (VStr "Prospect") (VStr "Closed Lost") false
  ∧ lead_score_weighted 20 5000000 (VStr "Negotiation") (VStr "Negotiation")
      (VBool true) = 95.
Proof.
  apply (score_formula 35 250000 (VStr "Prospect") (VStr "Closed Lost") VNone);
    discriminate.
Defined.

(** C8. With the base draw, status, stage and CRM flag fixed, a larger
    deal never scores less; the deal-size contribution is below 30
    exactly under 166666 * 30 = 4,999,980 and is 30 from there on, where
    the score no longer moves. *)
Theorem score_monotone_in_deal_size (base : Z) (status stage crm : value)
    (d1 d2 : Z) :
  0 ≤ d1 →
  d1 ≤ d2 →
  lead_score_weighted base d1 status stage crm
    ≤ lead_score_weighted base d2 status stage crm
  ∧ (Qlt (deal_score d1) (inject_Z 30) ↔ d1 < 166666 * 30)
  ∧ Qeq (deal_score (166666 * 30 + d1)) (inject_Z 30)
  ∧ lead_score_weighted base (166666 * 30 + d1) status stage crm
    = lead_score_weighted base (166666 * 30) status stage crm.
Proof.
  intros Hpos Hle. rewrite !lead_score_weighted_closed_form.
  assert (d1 / 166666 ≤ d2 / 166666) by (apply Z.div_le_mono; lia).
  repeat split.
  - destruct (is_won_or_lost status); [lia |]. apply clamp_mono. lia.
  - unfold deal_score. rewrite Q.min_lt_iff. unfold Qlt. simpl. lia.
  - intros Hlt. unfold deal_score.
    apply Q.min_lt_iff. left. unfold Qlt. simpl. lia.
  - unfold deal_score. apply Q.min_r. unfold Qle. simpl. lia.
  - destruct (is_won_or_lost status); [reflexivity |].
    assert (30 ≤ (166666 * 30 + d1) / 166666)
      by (apply Z.div_le_lower_bound; lia).
    change (166666 * 30 / 166666) with 30.
    f_equal. lia.
Qed.

Lemma score_monotone_in_deal_size_witness :
  lead_score_weighted 20 1000000 (VStr "Qualified") (VStr "Discovery") VNone
    ≤ lead_score_weighted 20 6000000 (VStr "Qualified") (VStr "Discovery") VNone
  ∧ (Qlt (deal_score 1000000) (inject_Z 30) ↔ 1000000 < 166666 * 30)
  ∧ Qeq (deal_score (166666 * 30 + 1000000)) (inject_Z 30)
  ∧ lead_score_weighted 20 (166666 * 30 + 1000000) (VStr "Qualified")
      (VStr "Discovery") VNone
    = lead_score_weighted 20 (166666 * 30) (VStr "Qualified")
        (VStr "Discovery") VNone.
Proof.
  apply (score_monotone_in_deal_size 20 (VStr "Qualified") (VStr "Discovery")
           VNone 1000000 6000000); lia.
Defined.

(** * The pair generator *)

Lemma status_stage_choices_eq : status_stage_choices = Ok all_choices.
Proof. reflexivity. Qed.

Lemma random_pair_lookup k p :
  random_lead_status_and_pipeline_stage k = Ok p ↔ all_choices !! k = Some p.
Proof.
  unfold random_lead_status_and_pipeline_stage.
  rewrite status_stage_choices_eq. simpl. unfold random_choice.
  destruct (all_choices !! k); split; congruence.
Qed.

Lemma all_choices_NoDup : NoDup all_choices.
Proof. by_evaluation. Qed.

Lemma all_choices_valid status stage :
  (status, stage) ∈ all_choices ↔ valid_pair status stage.
Proof.
  split.
  - intros Hin. unfold all_choices in Hin.
    cases_of_membership Hin; injection Hin as -> ->; by_evaluation.
  - intros Hv. unfold valid_pair, permitted_stages_spec in Hv.
    repeat case_bool_decide; simpl in Hv; subst;
      cases_of_membership Hv; subst; by_evaluation.
Qed.

(** C9. Each of the 13 possible draws of [random.choice] returns a pair
    of the table of valid pairs; different draws return different pairs,
    and every pair of the table is returned by some draw: the 13 equally
    likely indices are in one-to-one correspondence with the valid pairs.
    (An index of 13 or more, which [random.choice] never draws, returns
    nothing.) *)
Theorem random_pair_is_valid_and_uniform (k : nat) :
  (k < 13)%nat →
  ∃ status stage,
    random_lead_status_and_pipeline_stage k = Ok (status, stage)
    ∧ valid_pair status stage
    ∧ (∀ j, random_lead_status_and_pipeline_stage j = Ok (status, stage) →
            j = k)
    ∧ (∀ s g, valid_pair s g →
         ∃ j, (j < 13)%nat
              ∧ random_lead_status_and_pipeline_stage j = Ok (s, g))
    ∧ (∀ j p, random_lead_status_and_pipeline_stage j = Ok p →
         (j < 13)%nat ∧ valid_pair p.1 p.2).
Proof.
  intros Hk.
  destruct (lookup_lt_is_Some_2 all_choices k) as [[status stage] Hp];
    [exact Hk |].
  exists status, stage. split; [| split; [| split; [| split]]].
  - by apply random_pair_lookup.
  - apply all_choices_valid. by eapply list_elem_of_lookup_2.
  - intros j Hj. apply random_pair_lookup in Hj.
    exact (NoDup_lookup _ _ _ _ all_choices_NoDup Hj Hp).
  - intros s g Hv. apply all_choices_valid in Hv.
    apply list_elem_of_lookup_1 in Hv as [j Hj]. exists j. split.
    + by apply lookup_lt_Some in Hj.
    + by apply random_pair_lookup.
  - intros j [s g] Hj. apply random_pair_lookup in Hj. split.
    + by apply lookup_lt_Some in Hj.
    + apply all_choices_valid. by eapply list_elem_of_lookup_2.
Qed.

Lemma random_pair_is_valid_and_uniform_witness :
  ∃ status stage,
    random_lead_status_and_pipeline_stage 10 = Ok (status, stage)
    ∧ valid_pair status stage
    ∧ (∀ j, random_lead_status_and_pipeline_stage j = Ok (status, stage) →
            j = 10%nat)
    ∧ (∀ s g, valid_pair s g →
         ∃ j, (j < 13)%nat
              ∧ random_lead_status_and_pipeline_stage j = Ok (s, g))
    ∧ (∀ j p, random_lead_status_and_pipeline_stage j = Ok p →
         (j < 13)%nat ∧ valid_pair p.1 p.2).
Proof. apply (random_pair_is_valid_and_uniform 10). lia. Defined.

(** * The audit trail *)

(** ** Exceptions *)

Lemma bind_Ok {A B} (m : result A) (k : A → result B) (b : B) :
  m ≫= k = Ok b → ∃ a, m = Ok a ∧ k a = Ok b.
Proof. destruct m as [a | e]; [eauto | discriminate]. Qed.

(** ** Python equality *)

Lemma py_eqb_refl v : py_eqb v v = true.
Proof. destruct v; simpl; try reflexivity; by apply bool_decide_eq_true. Qed.

Lemma py_eqb_sym a b : py_eqb a b = py_eqb b a.
Proof.
  destruct a, b; simpl; try reflexivity;
    apply bool_decide_ext; split; congruence.
Qed.

Lemma py_neb_false a b : py_neb a b = false ↔ py_eqb a b = true.
Proof. unfold py_neb. destruct (py_eqb a b); simpl; split; congruence. Qed.

(** A value equal to an integer is a number with that value. *)
Lemma py_eqb_VInt n v : py_eqb (VInt n) v = true → numeric v = Some n.
Proof.
  destruct v; simpl; try discriminate;
    intros H; apply bool_decide_eq_true in H; congruence.
Qed.

(** ** The loop over fields_to_check *)

Section CheckFields.

Variable now : string.

Lemma check_fields_cons item fields od changed :
  check_fields now (item :: fields) od changed
  = check_fields now fields (check_field now (od, changed) item).1
      (check_field now (od, changed) item).2.
Proof.
  unfold check_fields. cbn [foldl].
  by destruct (check_field now (od, changed) item).
Qed.

(** A field that is not in the dictionary keeps its history entry. *)
Lemma check_fields_other fields od changed k :
  k ∉ fields.*1 →
  (check_fields now fields od changed).1 !! k = od !! k.
Proof.
  unfold check_fields. revert od changed.
  induction fields as [| [k0 [nv ov]] fields IH]; intros od changed Hk.
  - reflexivity.
  - simpl in Hk. apply not_elem_of_cons in Hk as [Hne Hk]. simpl.
    destruct (py_neb nv ov); rewrite IH by exact Hk; [| reflexivity].
    by apply lookup_insert_ne.
Qed.

(** A field of the dictionary gets an entry, with its old value and
    the date of the call, exactly when its new value differs from the
    old one; otherwise its entry is the one it had. *)
Lemma check_fields_entry fields od changed k nv ov :
  NoDup fields.*1 →
  (k, (nv, ov)) ∈ fields →
  (check_fields now fields od changed).1 !! k
    = if py_neb nv ov then Some (AuditEntry ov now) else od !! k.
Proof.
  revert od changed.
  induction fields as [| [k0 [nv0 ov0]] fields IH];
    intros od changed Hnd Hin.
  - by apply elem_of_nil in Hin.
  - simpl in Hnd. apply NoDup_cons in Hnd as [Hfresh Hnd].
    apply elem_of_cons in Hin as [Heq | Hin].
    + injection Heq as <- <- <-.
      rewrite check_fields_cons, check_fields_other by exact Hfresh. simpl.
      destruct (py_neb nv ov); simpl; [apply lookup_insert_eq | reflexivity].
    + assert (k ≠ k0) as Hne.
      { intros ->. apply Hfresh.
        apply list_elem_of_fmap. by exists (k0, (nv, ov)). }
      rewrite check_fields_cons, (IH _ _ Hnd Hin). simpl.
      destruct (py_neb nv ov); [reflexivity |].
      destruct (py_neb nv0 ov0); simpl; [| reflexivity].
      by apply lookup_insert_ne.
Qed.

(** The flag ends up set exactly when some field differs (or it was
    set to begin with). *)
Lemma check_fields_changed fields od changed :
  (check_fields now fields od changed).2
    = changed || existsb (λ item, py_neb item.2.1 item.2.2) fields.
Proof.
  unfold check_fields. revert od changed.
  induction fields as [| [k0 [nv ov]] fields IH]; intros od changed.
  - simpl. by rewrite orb_false_r.
  - simpl. destruct (py_neb nv ov); rewrite IH; simpl.
    + by rewrite orb_true_r.
    + reflexivity.
Qed.

(** With no differing field the history is not written to. *)
Lemma check_fields_unchanged fields od changed :
  existsb (λ item, py_neb item.2.1 item.2.2) fields = false →
  check_fields now fields od changed = (od, changed).
Proof.
  unfold check_fields. revert od changed.
  induction fields as [| [k0 [nv ov]] fields IH]; intros od changed Hex.
  - reflexivity.
  - simpl in Hex. apply orb_false_iff in Hex as [Hne Hex].
    simpl. rewrite Hne. by apply IH.
Qed.

End CheckFields.

(** ** The edit form *)

Section EditForm.

Variables (f : edit_form) (score : Z) (sl : gmap string value).

Lemma fields_to_check_NoDup : NoDup (fields_to_check f score sl).*1.
Proof. by_evaluation. Qed.

(** The old value of each item is the stored value of its field. *)
Lemma fields_to_check_old k nv ov :
  (k, (nv, ov)) ∈ fields_to_check f score sl → ov = py_get sl k.
Proof.
  intros Hin. unfold fields_to_check in Hin.
  cases_of_membership Hin; by injection Hin as -> -> ->.
Qed.

(** After the assignments each field of the dictionary holds its new
    value, whatever lead they are applied to. *)
Lemma updated_sales_lead_field k nv ov sl' :
  (k, (nv, ov)) ∈ fields_to_check f score sl →
  updated_sales_lead f score sl' !! k = Some nv.
Proof.
  intros Hin. unfold fields_to_check in Hin.
  cases_of_membership Hin; injection Hin as -> -> ->;
    unfold updated_sales_lead; by simplify_map_eq.
Qed.

Lemma updated_sales_lead_flag sl' :
  updated_sales_lead f score sl' !! "high_priority_flag"
    = Some (VBool (80 <=? score)).
Proof. unfold updated_sales_lead. by simplify_map_eq. Qed.

Lemma updated_sales_lead_score sl' :
  updated_sales_lead f score sl' !! "lead_score" = Some (VInt score).
Proof. unfold updated_sales_lead. by simplify_map_eq. Qed.

End EditForm.

(** What a submission that reaches [collection.upsert] has done. *)
Lemma edit_lead_page_upserted base now data f d :
  edit_lead_page base now data f = Ok (Upserted d) →
  ∃ sl,
    sales_lead data = Some sl
    ∧ required_fields_filled f = true
    ∧ (check_fields now (fields_to_check f (form_lead_score base f) sl)
         (history data) false).2 = true
    ∧ d = Document
            (Some (updated_sales_lead f (form_lead_score base f) sl))
            (Some (check_fields now
                     (fields_to_check f (form_lead_score base f) sl)
                     (history data) false).1)
            (other_keys data).
Proof.
  unfold edit_lead_page, history.
  destruct (required_fields_filled f); cbn [negb]; [| discriminate].
  destruct (check_fields now _ (default ∅ (old_data data)) false)
    as [od changed] eqn:Hloop.
  destruct changed; [| discriminate].
  destruct (sales_lead data) as [sl |]; [| discriminate].
  cbn [from_option id mbind result_bind] in *. intros [= <-].
  exists sl. by rewrite Hloop.
Qed.

(** ** update_document *)

Lemma lookup_insert_if {A} (b : bool) (k k' : string) (a : A)
    (m : gmap string A) :
  insert_if b k a m !! k' = if b && bool_decide (k = k') then Some a else m !! k'.
Proof.
  unfold insert_if. destruct b; simpl; [| reflexivity].
  case_bool_decide; subst; [apply lookup_insert_eq | by apply lookup_insert_ne].
Qed.

Lemma update_document_without_lead_aux rnd now doc :
  sales_lead doc = None → update_document rnd now doc = Ok (doc, false).
Proof. intros Hnone. unfold update_document. by rewrite Hnone. Qed.

(** A call on a document with a lead that returns has made its draws,
    and has found a number for the deal size. *)
Lemma update_document_draws rnd now doc sl r :
  sales_lead doc = Some sl →
  update_document rnd now doc = Ok r →
  ∃ new_status new_pipeline new_note deal,
    random_lead_status_and_pipeline_stage (pair_draw rnd)
      = Ok (new_status, new_pipeline)
    ∧ random_notes (notes_draw rnd) = Ok new_note
    ∧ numeric (default (VInt 0) (sl !! "last_deal_size_usd")) = Some deal.
Proof.
  intros Hsl Hrun. unfold update_document in Hrun. rewrite Hsl in Hrun.
  apply bind_Ok in Hrun as ([new_status new_pipeline] & Hpair & Hrun).
  destruct (py_neb (VStr new_status) (py_get sl "lead_status")
            || py_neb (VStr new_pipeline) (py_get sl "pipeline_stage"));
    apply bind_Ok in Hrun as (new_note & Hnote & Hrun);
    exists new_status, new_pipeline, new_note;
    match type of Hrun with
    | context [py_neb (VStr new_note) ?c] =>
        destruct (py_neb (VStr new_note) c)
    end;
    apply bind_Ok in Hrun as (deal & Hdeal & _);
    exists deal; (split; [done |]); (split; [done |]);
    unfold as_number in Hdeal;
    rewrite ?lookup_insert_ne in Hdeal by done;
    by destruct (numeric _); simplify_eq.
Qed.

Section UpdateDocument.

Variables (rnd : draws) (now : string) (doc : document).
Variables (sl : gmap string value).
Variables (new_status new_pipeline new_note : string) (deal : Z).

Hypothesis lead_present : sales_lead doc = Some sl.
Hypothesis pair_drawn :
  random_lead_status_and_pipeline_stage (pair_draw rnd)
    = Ok (new_status, new_pipeline).
Hypothesis note_drawn : random_notes (notes_draw rnd) = Ok new_note.
Hypothesis deal_is_number :
  numeric (default (VInt 0) (sl !! "last_deal_size_usd")) = Some deal.

Local Abbreviation current_status := (py_get sl "lead_status").
Local Abbreviation current_pipeline := (py_get sl "pipeline_stage").
Local Abbreviation current_note := (py_get sl "notes").
Local Abbreviation current_score := (default (VInt 0) (sl !! "lead_score")).
Local Abbreviation new_score :=
  (lead_score_weighted (base_draw rnd) deal (VStr new_status)
     (VStr new_pipeline) (default (VBool false) (sl !! "crm_activity_flag"))).
Local Abbreviation status_or_stage_differs :=
  (pair_differs sl new_status new_pipeline).
Local Abbreviation note_differs := (py_neb (VStr new_note) current_note).
Local Abbreviation score_differs := (py_neb (VInt new_score) current_score).

(** The history and the lead after the three comparisons. *)
Local Abbreviation od_final :=
  (insert_if score_differs "lead_score" (AuditEntry current_score now)
     (insert_if note_differs "notes" (AuditEntry current_note now)
        (insert_if status_or_stage_differs "pipeline_stage"
           (AuditEntry current_pipeline now)
           (insert_if status_or_stage_differs "lead_status"
              (AuditEntry current_status now) (history doc))))).
Local Abbreviation sl_final :=
  (insert_if score_differs "lead_score" (VInt new_score)
     (insert_if note_differs "notes" (VStr new_note)
        (insert_if status_or_stage_differs "pipeline_stage" (VStr new_pipeline)
           (insert_if status_or_stage_differs "lead_status" (VStr new_status) sl)))).

(** The function with its draws made: the three comparisons, then the
    flag. *)
Lemma update_document_unfold :
  update_document rnd now doc =
  lead_score ← dict_index sl_final "lead_score";
  flag ← py_ge lead_score 80;
  let sl := <["high_priority_flag" := VBool flag]> sl_final in
  if status_or_stage_differs || note_differs || score_differs
  then Ok (Document (Some sl) (Some od_final) (other_keys doc), true)
  else Ok (Document (Some sl) (old_data doc) (other_keys doc), false).
Proof.
  unfold update_document. rewrite lead_present, pair_drawn. simpl.
  fold status_or_stage_differs (history doc). rewrite note_drawn. simpl.
  destruct status_or_stage_differs; simpl; unfold py_get;
    rewrite ?lookup_insert_ne by done;
    fold (py_get sl "notes") (py_get sl "lead_status")
      (py_get sl "pipeline_stage");
    (destruct note_differs; simpl; rewrite ?lookup_insert_ne by done;
     unfold as_number; rewrite deal_is_number; simpl;
     destruct score_differs; reflexivity).
Qed.

(** The stored score after the comparison is the new score, as a
    number, whenever the field is there. *)
Lemma final_score_numeric v :
  sl_final !! "lead_score" = Some v → numeric v = Some new_score.
Proof.
  rewrite lookup_insert_if.
  destruct score_differs eqn:Hsd; simpl.
  - by intros [= <-].
  - rewrite !lookup_insert_if, !andb_false_r. intros Hv.
    apply py_neb_false in Hsd. apply py_eqb_VInt in Hsd.
    by rewrite Hv in Hsd.
Qed.

(** What a call that returns has returned. *)
Lemma update_document_result doc' changed :
  update_document rnd now doc = Ok (doc', changed) →
  changed = status_or_stage_differs || note_differs || score_differs
  ∧ history doc' = od_final
  ∧ other_keys doc' = other_keys doc
  ∧ ∃ v, sl_final !! "lead_score" = Some v
         ∧ numeric v = Some new_score
         ∧ sales_lead doc'
           = Some (<["high_priority_flag" := VBool (80 <=? new_score)]>
                     sl_final).
Proof.
  rewrite update_document_unfold. intros Hrun.
  apply bind_Ok in Hrun as (v & Hv & Hrun).
  unfold dict_index in Hv.
  destruct (sl_final !! "lead_score") as [v' |] eqn:Hlook; [| discriminate].
  injection Hv as ->.
  pose proof (final_score_numeric _ Hlook) as Hnum.
  unfold py_ge in Hrun. rewrite Hnum in Hrun. simpl in Hrun.
  destruct status_or_stage_differs eqn:Hpd, note_differs eqn:Hnd,
    score_differs eqn:Hsd; simpl in Hrun; injection Hrun as <- <-;
    (split; [reflexivity |]); (split; [reflexivity |]);
    (split; [reflexivity |]); by exists v.
Qed.

End UpdateDocument.

(** ** Claims about the audit trail *)

(** C10. On a document without a ["sales_lead"] key [update_document]
    returns the very document it was given, with [changed = False]: no
    field, no history entry and no flag is written. *)
Theorem update_document_without_lead (rnd : draws) (now : string)
    (doc : document) :
  sales_lead doc = None →
  update_document rnd now doc = Ok (doc, false).
Proof. intros Hnone. unfold update_document. by rewrite Hnone. Qed.

Lemma update_document_without_lead_witness :
  update_document (Draws 3 1 42) "2025-06-01T09:30:00Z"
    (Document None
       (Some {[ "notes" := AuditEntry (VStr "first call") "2025-01-15T08:00:00Z" ]})
       {[ "lead_id" := VStr "7f0c" ]})
  = Ok (Document None
          (Some {[ "notes" := AuditEntry (VStr "first call") "2025-01-15T08:00:00Z" ]})
          {[ "lead_id" := VStr "7f0c" ]},
        false).
Proof. apply update_document_without_lead. reflexivity. Defined.


(** C5. Every lead the edit form upserts and every lead
    [update_document] returns has a numeric score and carries
    [high_priority_flag = (lead_score is not null and lead_score >= 80)]:
    both operations assign the flag from the score they leave in the
    lead. *)
Theorem produced_lead_flag_invariant (d : document) :
  produced d → flag_invariant d.
Proof.
  intros [base now data f d' Hrun | rnd now doc d' changed Hrun].
  - apply edit_lead_page_upserted in Hrun as (sl & _ & _ & _ & ->).
    intros sl' [= <-].
    rewrite updated_sales_lead_flag, updated_sales_lead_score. simpl. eauto.
  - intros sl' Hsl'.
    destruct (sales_lead doc) as [sl |] eqn:Hsl.
    + destruct (update_document_draws _ _ _ _ _ Hsl Hrun)
        as (st & sg & note & deal & Hpair & Hnote & Hdeal).
      destruct (update_document_result _ _ _ _ _ _ _ _ Hsl Hpair Hnote Hdeal
                  _ _ Hrun) as (_ & _ & _ & v & Hv & Hnum & Hlead).
      rewrite Hlead in Hsl'. injection Hsl' as <-.
      rewrite lookup_insert_eq, lookup_insert_ne by done.
      rewrite Hv. simpl. rewrite Hnum. eauto.
    + rewrite (update_document_without_lead_aux _ _ _ Hsl) in Hrun.
      injection Hrun as <- _. congruence.
Qed.

Lemma produced_lead_flag_invariant_witness :
  produced (lead_a_refreshed "2025-06-01T09:30:00Z")
  ∧ flag_invariant (lead_a_refreshed "2025-06-01T09:30:00Z").
Proof.
  assert (produced (lead_a_refreshed "2025-06-01T09:30:00Z")) as Hprod.
  { apply (produced_by_update_document (Draws 4 0 20) "2025-06-01T09:30:00Z"
             lead_a _ true).
    by_computation. }
  split; [exact Hprod |].
  apply (produced_lead_flag_invariant _ Hprod).
Defined.

(** ** One edit, seen from the stored values *)

Lemma py_neb_irrefl v : py_neb v v = false.
Proof. unfold py_neb. by rewrite py_eqb_refl. Qed.

Lemma tracked_fields_keys f score sl :
  (fields_to_check f score sl).*1 = tracked_fields.
Proof. reflexivity. Qed.

(** Every tracked field has its item in [fields_to_check]. *)
Lemma tracked_field_item f score sl k :
  k ∈ tracked_fields → ∃ nv ov, (k, (nv, ov)) ∈ fields_to_check f score sl.
Proof.
  rewrite <- (tracked_fields_keys f score sl).
  intros Hk. apply list_elem_of_fmap in Hk as ([k' [nv ov]] & -> & Hin).
  by exists nv, ov.
Qed.

(** The history the edit form upserts, field by field. *)
Lemma edit_lead_page_history base now data f d :
  edit_lead_page base now data f = Ok (Upserted d) →
  entries_written now when_field_differs
    (fields_to_check f (form_lead_score base f) (default ∅ (sales_lead data)))
    (history data) (history d)
  ∧ ∀ k, k ∉ tracked_fields → history d !! k = history data !! k.
Proof.
  intros Hrun.
  apply edit_lead_page_upserted in Hrun as (sl & Hsl & _ & _ & ->).
  rewrite Hsl. cbn [from_option id]. split.
  - intros k nv ov Hin. unfold history at 1, when_field_differs.
    cbn [old_data from_option id].
    apply check_fields_entry; [apply fields_to_check_NoDup | exact Hin].
  - intros k Hk. unfold history at 1. cbn [old_data from_option id].
    apply check_fields_other. by rewrite tracked_fields_keys.
Qed.

(** A tracked field whose stored value the edit form has changed has
    got an entry with the value it had. *)
Lemma edit_lead_page_step base now data f d k :
  edit_lead_page base now data f = Ok (Upserted d) →
  k ∈ tracked_fields →
  py_neb (field d k) (field data k) = true →
  history d !! k = Some (AuditEntry (field data k) now).
Proof.
  intros Hrun Hk Hdiff.
  destruct (edit_lead_page_history _ _ _ _ _ Hrun) as [Hent _].
  apply edit_lead_page_upserted in Hrun as (sl & Hsl & _ & _ & ->).
  destruct (tracked_field_item f (form_lead_score base f) sl k Hk)
    as (nv & ov & Hin).
  rewrite Hsl in Hent. cbn [from_option id] in Hent.
  rewrite (Hent _ _ _ Hin). unfold when_field_differs.
  pose proof (fields_to_check_old _ _ _ _ _ _ Hin) as ->.
  unfold field in *. rewrite Hsl in *.
  cbn [sales_lead from_option id] in *.
  unfold py_get at 1 in Hdiff.
  rewrite (updated_sales_lead_field _ _ _ _ _ _ sl Hin) in Hdiff.
  cbn [from_option id] in Hdiff. by rewrite Hdiff.
Qed.

(** The history [update_document] returns, field by field. *)
Lemma update_document_history rnd now doc sl st sg note deal doc' changed :
  sales_lead doc = Some sl →
  random_lead_status_and_pipeline_stage (pair_draw rnd) = Ok (st, sg) →
  random_notes (notes_draw rnd) = Ok note →
  numeric (default (VInt 0) (sl !! "last_deal_size_usd")) = Some deal →
  update_document rnd now doc = Ok (doc', changed) →
  entries_written now
    (when_field_or_partner_differs (pair_differs sl st sg))
    (update_document_items rnd sl st sg note deal)
    (history doc) (history doc')
  ∧ ∀ k, k ∉ refreshed_fields → history doc' !! k = history doc !! k.
Proof.
  intros Hsl Hpair Hnote Hdeal Hrun.
  destruct (update_document_result _ _ _ _ _ _ _ _ Hsl Hpair Hnote Hdeal
              _ _ Hrun) as (_ & -> & _).
  split.
  - intros k nv ov Hin. unfold update_document_items in Hin.
    cases_of_membership Hin; injection Hin as -> -> ->;
      rewrite !lookup_insert_if; unfold when_field_or_partner_differs;
      evaluate_decisions; unfold pair_differs;
      cases_of_comparisons; reflexivity.
  - intros k Hk. rewrite !lookup_insert_if.
    repeat case_bool_decide; subst;
      try (exfalso; apply Hk; by_evaluation).
    by rewrite !andb_false_r.
Qed.

(** A call that returns leaves a score in the lead it was given. *)
Lemma update_document_keeps_score rnd now doc sl d changed :
  sales_lead doc = Some sl →
  update_document rnd now doc = Ok (d, changed) →
  ∃ sl', sales_lead d = Some sl' ∧ is_Some (sl' !! "lead_score").
Proof.
  intros Hsl Hrun.
  destruct (update_document_draws _ _ _ _ _ Hsl Hrun)
    as (st & sg & note & deal & Hpair & Hnote & Hdeal).
  destruct (update_document_result _ _ _ _ _ _ _ _ Hsl Hpair Hnote Hdeal
              _ _ Hrun) as (_ & _ & _ & v & Hv & _ & Hlead).
  eexists. split; [exact Hlead |].
  rewrite lookup_insert_ne by done. by exists v.
Qed.

(** A refreshed field whose stored value [update_document] has changed
    has got an entry with the value it had, on a lead that had a score. *)
Lemma update_document_step rnd now doc sl d changed k :
  sales_lead doc = Some sl →
  is_Some (sl !! "lead_score") →
  update_document rnd now doc = Ok (d, changed) →
  k ∈ refreshed_fields →
  py_neb (field d k) (field doc k) = true →
  history d !! k = Some (AuditEntry (field doc k) now).
Proof.
  intros Hsl [v0 Hscore] Hrun Hk.
  destruct (update_document_draws _ _ _ _ _ Hsl Hrun)
    as (st & sg & note & deal & Hpair & Hnote & Hdeal).
  destruct (update_document_result _ _ _ _ _ _ _ _ Hsl Hpair Hnote Hdeal
              _ _ Hrun) as (_ & -> & _ & v & _ & _ & Hlead).
  unfold field. rewrite Hlead, Hsl. cbn [from_option id].
  unfold py_get. unfold refreshed_fields in Hk.
  cases_of_membership Hk; subst k;
    rewrite lookup_insert_ne by done; rewrite !lookup_insert_if;
    evaluate_decisions; rewrite ?andb_false_r, ?andb_true_r; cbv iota;
    rewrite ?Hscore;
    match goal with
    | |- context [if ?b then _ else _] => destruct b
    end;
    cbn [from_option id]; intros Hdiff;
    solve [ reflexivity | by rewrite py_neb_irrefl in Hdiff ].
Qed.

(** What the two operations write to the history. In the edit form a
    tracked field gets a history entry (its stored value, dated now)
    exactly when its proposed value differs from its stored value, and no
    other entry is touched. In [update_document] the same holds for the
    note and the score, but the status and the stage are compared as a
    pair: both get an entry as soon as one of the two differs. *)
Theorem history_entries_follow_comparisons :
  (∀ base now data f d,
     edit_lead_page base now data f = Ok (Upserted d) →
     entries_written now when_field_differs
       (fields_to_check f (form_lead_score base f)
          (default ∅ (sales_lead data)))
       (history data) (history d)
     ∧ ∀ k, k ∉ tracked_fields → history d !! k = history data !! k)
  ∧ (∀ rnd now doc sl new_status new_pipeline new_note deal doc' changed,
     sales_lead doc = Some sl →
     random_lead_status_and_pipeline_stage (pair_draw rnd)
       = Ok (new_status, new_pipeline) →
     random_notes (notes_draw rnd) = Ok new_note →
     numeric (default (VInt 0) (sl !! "last_deal_size_usd")) = Some deal →
     update_document rnd now doc = Ok (doc', changed) →
     entries_written now
       (when_field_or_partner_differs
          (pair_differs sl new_status new_pipeline))
       (update_document_items rnd sl new_status new_pipeline new_note deal)
       (history doc) (history doc')
     ∧ ∀ k, k ∉ refreshed_fields → history doc' !! k = history doc !! k).
Proof.
  split.
  - intros base now data f d. apply edit_lead_page_history.
  - intros rnd now doc sl new_status new_pipeline new_note deal doc' changed.
    apply update_document_history.
Qed.

Lemma history_entries_follow_comparisons_witness :
  (entries_written "2025-06-01T09:30:00Z" when_field_differs
     (fields_to_check (form_a "B") (form_lead_score 20 (form_a "B"))
        (default ∅ (sales_lead lead_a)))
     (history lead_a)
     (history (lead_a_edited "B" "A" "2025-06-01T09:30:00Z"))
   ∧ ∀ k, k ∉ tracked_fields →
       history (lead_a_edited "B" "A" "2025-06-01T09:30:00Z") !! k
       = history lead_a !! k)
  ∧ (entries_written "2025-06-01T09:30:00Z"
       (when_field_or_partner_differs
          (pair_differs lead_a_fields "Qualified" "Discovery"))
       (update_document_items (Draws 4 0 20) lead_a_fields "Qualified"
          "Discovery" "Contacted client, awaiting response." 250000)
       (history lead_a) (history (lead_a_refreshed "2025-06-01T09:30:00Z"))
     ∧ ∀ k, k ∉ refreshed_fields →
         history (lead_a_refreshed "2025-06-01T09:30:00Z") !! k
         = history lead_a !! k).
Proof.
  destruct history_entries_follow_comparisons as [Hform Hbatch]. split.
  - apply (Hform 20 "2025-06-01T09:30:00Z" lead_a (form_a "B")).
    by_computation.
  - apply (Hbatch (Draws 4 0 20) "2025-06-01T09:30:00Z" lead_a lead_a_fields
             "Qualified" "Discovery" "Contacted client, awaiting response."
             250000 _ true); by_computation.
Defined.

(** C4. The code at the input on which it departs from the claim: on a
    lead in (Prospect, Discovery) the draw (Qualified, Discovery) makes
    [update_document] write a history entry for the stage, whose
    proposed value is its stored value.  The loop of the edit form, and
    the branches of [update_document] for the note and the score, write
    an entry for a field that differs and for no other. *)
Lemma stage_entry_written_without_change :
  random_lead_status_and_pipeline_stage 4 = Ok ("Qualified", "Discovery")
  ∧ field lead_a "pipeline_stage" = VStr "Discovery"
  ∧ history lead_a !! "pipeline_stage" = None
  ∧ update_document (Draws 4 0 20) "2025-06-01T09:30:00Z" lead_a
    = Ok (lead_a_refreshed "2025-06-01T09:30:00Z", true)
  ∧ history (lead_a_refreshed "2025-06-01T09:30:00Z") !! "pipeline_stage"
    = Some (AuditEntry (VStr "Discovery") "2025-06-01T09:30:00Z")
  ∧ ¬ entries_written "2025-06-01T09:30:00Z" when_field_differs
        (update_document_items (Draws 4 0 20) lead_a_fields
           "Qualified" "Discovery"
           "Contacted client, awaiting response." 250000)
        (history lead_a) (history (lead_a_refreshed "2025-06-01T09:30:00Z")).
Proof.
  split; [by_computation |]. split; [by_computation |].
  split; [by_computation |]. split; [by_computation |].
  split; [by_computation |].
  intros Hall.
  specialize (Hall "pipeline_stage" (VStr "Discovery") (VStr "Discovery")).
  assert (("pipeline_stage", (VStr "Discovery", VStr "Discovery"))
            ∈ update_document_items (Draws 4 0 20) lead_a_fields
                "Qualified" "Discovery"
                "Contacted client, awaiting response." 250000) as Hin.
  { by_evaluation. }
  specialize (Hall Hin).
  match type of Hall with
  | ?written = ?kept =>
      assert (written = Some (AuditEntry (VStr "Discovery")
                                "2025-06-01T09:30:00Z")) as Hw
        by by_computation;
      assert (kept = None) as Hk by by_computation
  end.
  congruence.
Qed.

(** ** An edit that finds nothing to change *)

Lemma edit_lead_page_no_difference base now data f :
  some_field_differs
    (fields_to_check f (form_lead_score base f)
       (default ∅ (sales_lead data))) = false →
  edit_lead_page base now data f
    = Ok (if required_fields_filled f then NoChanges else Rejected).
Proof.
  intros Hsame. unfold edit_lead_page.
  destruct (required_fields_filled f); cbn [negb]; [| reflexivity].
  by rewrite (check_fields_unchanged _ _ _ _ Hsame).
Qed.

Lemma update_document_no_difference rnd now doc sl st sg note deal v :
  sales_lead doc = Some sl →
  random_lead_status_and_pipeline_stage (pair_draw rnd) = Ok (st, sg) →
  random_notes (notes_draw rnd) = Ok note →
  numeric (default (VInt 0) (sl !! "last_deal_size_usd")) = Some deal →
  sl !! "lead_score" = Some v →
  some_field_differs (update_document_items rnd sl st sg note deal) = false →
  update_document rnd now doc
    = Ok (Document
            (Some (<["high_priority_flag" := VBool (score_is_high (Some v))]>
                     sl))
            (old_data doc) (other_keys doc),
          false).
Proof.
  intros Hsl Hpair Hnote Hdeal Hscore Hsame.
  unfold some_field_differs, update_document_items in Hsame.
  cbn [existsb fst snd] in Hsame.
  rewrite orb_false_r, !orb_false_iff in Hsame.
  destruct Hsame as (Hst & Hsg & Hn & Hsc).
  rewrite (update_document_unfold _ now _ _ _ _ _ _ Hsl Hpair Hnote Hdeal).
  unfold pair_differs. rewrite Hst, Hsg, Hn, Hsc. cbn [orb insert_if].
  unfold dict_index. rewrite Hscore. cbn [mbind result_bind].
  rewrite Hscore in Hsc. cbn [from_option id] in Hsc.
  apply py_neb_false, py_eqb_VInt in Hsc.
  unfold py_ge, score_is_high. rewrite Hsc. reflexivity.
Qed.

(** C6. An edit that proposes no different value is a no-op. In the
    edit form, when no proposed value (the recomputed score among them)
    differs from the stored one, nothing is upserted: the form reports
    that there are no changes (or turns down an empty required field),
    and the lead and its history stay as they are stored.
    [update_document], on a lead that satisfies the invariant of the flag
    (its score is a number and its flag is the comparison of that score
    with 80), returns the very document it was given, lead and history
    untouched, with [changed = False]. *)
Theorem edit_without_difference :
  (∀ base now data f,
     some_field_differs
       (fields_to_check f (form_lead_score base f)
          (default ∅ (sales_lead data))) = false →
     edit_lead_page base now data f
       = Ok (if required_fields_filled f then NoChanges else Rejected))
  ∧ (∀ rnd now doc sl new_status new_pipeline new_note deal,
     sales_lead doc = Some sl →
     flag_invariant doc →
     random_lead_status_and_pipeline_stage (pair_draw rnd)
       = Ok (new_status, new_pipeline) →
     random_notes (notes_draw rnd) = Ok new_note →
     numeric (default (VInt 0) (sl !! "last_deal_size_usd")) = Some deal →
     some_field_differs
       (update_document_items rnd sl new_status new_pipeline new_note deal)
       = false →
     update_document rnd now doc = Ok (doc, false)).
Proof.
  split.
  - apply edit_lead_page_no_difference.
  - intros rnd now doc sl st sg note deal Hsl Hinv Hpair Hnote Hdeal Hsame.
    destruct (Hinv sl Hsl) as [[n Hn] Hflag].
    destruct (sl !! "lead_score") as [v |] eqn:Hscore; [| discriminate Hn].
    rewrite (update_document_no_difference _ now _ _ _ _ _ _ _
               Hsl Hpair Hnote Hdeal Hscore Hsame).
    rewrite (insert_id _ _ _ Hflag).
    destruct doc as [lead hist rest]. simpl in *. by subst lead.
Qed.

Lemma edit_without_difference_witness :
  edit_lead_page 20 "2025-06-01T09:30:00Z" lead_a (form_a "A") = Ok NoChanges
  ∧ update_document (Draws 0 0 20) "2025-06-01T09:30:00Z" lead_r_flagged
    = Ok (lead_r_flagged, false).
Proof.
  destruct edit_without_difference as [Hform Hbatch]. split.
  - apply (Hform 20 "2025-06-01T09:30:00Z" lead_a (form_a "A")).
    by_computation.
  - apply (Hbatch (Draws 0 0 20) "2025-06-01T09:30:00Z" lead_r_flagged
             (<["high_priority_flag" := VBool false]> lead_r_fields)
             "Prospect" "Discovery"
             "Contacted client, awaiting response." 250000).
    + reflexivity.
    + intros sl [= <-]. split; [exists 41 |]; by_computation.
    + by_computation.
    + by_computation.
    + by_computation.
    + by_computation.
Defined.

(** C7. When two successive edits each change a field, the entry the
    second edit leaves for it holds the value stored between the two
    edits and the date of the second, for every tracked field of the edit
    form and every field [update_document] refreshes (the first edit of
    the form having left the original value and its own date). *)
Theorem second_edit_overwrites_entry :
  (∀ base1 base2 t1 t2 data f1 f2 d1 d2 k,
     edit_lead_page base1 t1 data f1 = Ok (Upserted d1) →
     edit_lead_page base2 t2 d1 f2 = Ok (Upserted d2) →
     k ∈ tracked_fields →
     py_neb (field d1 k) (field data k) = true →
     py_neb (field d2 k) (field d1 k) = true →
     history d1 !! k = Some (AuditEntry (field data k) t1)
     ∧ history d2 !! k = Some (AuditEntry (field d1 k) t2))
  ∧ (∀ rnd1 rnd2 t1 t2 doc d1 c1 d2 c2 k,
     update_document rnd1 t1 doc = Ok (d1, c1) →
     update_document rnd2 t2 d1 = Ok (d2, c2) →
     k ∈ refreshed_fields →
     py_neb (field d1 k) (field doc k) = true →
     py_neb (field d2 k) (field d1 k) = true →
     history d2 !! k = Some (AuditEntry (field d1 k) t2)).
Proof.
  split.
  - intros base1 base2 t1 t2 data f1 f2 d1 d2 k Hrun1 Hrun2 Hk Hch1 Hch2.
    split; eapply edit_lead_page_step; eassumption.
  - intros rnd1 rnd2 t1 t2 doc d1 c1 d2 c2 k Hrun1 Hrun2 Hk Hch1 Hch2.
    destruct (sales_lead doc) as [sl |] eqn:Hsl.
    + destruct (update_document_keeps_score _ _ _ _ _ _ Hsl Hrun1)
        as (sl1 & Hsl1 & Hscore).
      eapply update_document_step; eassumption.
    + rewrite (update_document_without_lead_aux _ _ _ Hsl) in Hrun1.
      injection Hrun1 as <- _.
      rewrite (update_document_without_lead_aux _ _ _ Hsl) in Hrun2.
      injection Hrun2 as <- _.
      by rewrite py_neb_irrefl in Hch2.
Qed.

Lemma second_edit_overwrites_entry_witness :
  (field lead_a "notes" = VStr "A"
   ∧ edit_lead_page 20 "2025-06-01T09:30:00Z" lead_a (form_a "B")
     = Ok (Upserted (lead_a_edited "B" "A" "2025-06-01T09:30:00Z"))
   ∧ edit_lead_page 20 "2025-06-02T17:45:00Z"
       (lead_a_edited "B" "A" "2025-06-01T09:30:00Z") (form_a "C")
     = Ok (Upserted (lead_a_edited "C" "B" "2025-06-02T17:45:00Z"))
   ∧ history (lead_a_edited "C" "B" "2025-06-02T17:45:00Z") !! "notes"
     = Some (AuditEntry (VStr "B") "2025-06-02T17:45:00Z"))
  ∧ history
      (lead_r_refreshed "Negotiations ongoing, positive signs."
         "Sent proposal, pending approval." "2025-06-02T17:45:00Z") !! "notes"
    = Some (AuditEntry (VStr "Sent proposal, pending approval.")
              "2025-06-02T17:45:00Z").
Proof.
  destruct second_edit_overwrites_entry as [Hform Hbatch]. split.
  - split; [by_computation |]. split; [by_computation |].
    split; [by_computation |].
    apply (Hform 20 20 "2025-06-01T09:30:00Z" "2025-06-02T17:45:00Z"
             lead_a (form_a "B") (form_a "C")
             (lead_a_edited "B" "A" "2025-06-01T09:30:00Z")
             (lead_a_edited "C" "B" "2025-06-02T17:45:00Z") "notes");
      solve [ by_computation | by_evaluation ].
  - apply (Hbatch (Draws 0 1 20) (Draws 0 2 20)
             "2025-06-01T09:30:00Z" "2025-06-02T17:45:00Z" lead_r_flagged
             (lead_r_refreshed "Sent proposal, pending approval."
                "Contacted client, awaiting response." "2025-06-01T09:30:00Z")
             true
             (lead_r_refreshed "Negotiations ongoing, positive signs."
                "Sent proposal, pending approval." "2025-06-02T17:45:00Z")
             true "notes");
      solve [ by_computation | by_evaluation ].
Defined.

(** * Beyond the claims: creation, display and the refresh job *)

(** ** Shared facts *)

Lemma lead_score_weighted_range base deal st sg crm :
  0 ≤ lead_score_weighted base deal st sg crm ≤ 100.
Proof.
  rewrite lead_score_weighted_closed_form.
  destruct (is_won_or_lost st); [lia |]. apply clamp_bounds.
Qed.

(** The history the edit form upserts, read off the stored values: it
    differs from the history before exactly at the tracked fields whose
    stored value has changed. *)
Lemma edit_lead_page_history_observed base now data f d k :
  edit_lead_page base now data f = Ok (Upserted d) →
  history d !! k
    = if bool_decide (k ∈ tracked_fields)
         && py_neb (field d k) (field data k)
      then Some (AuditEntry (field data k) now)
      else history data !! k.
Proof.
  intros Hrun.
  destruct (edit_lead_page_history _ _ _ _ _ Hrun) as [Hent Hother].
  case_bool_decide as Hk; cbn [andb]; [| by apply Hother].
  pose proof Hrun as Hup.
  apply edit_lead_page_upserted in Hup as (sl & Hsl & _ & _ & ->).
  destruct (tracked_field_item f (form_lead_score base f) sl k Hk)
    as (nv & ov & Hin).
  rewrite Hsl in Hent. cbn [from_option id] in Hent.
  rewrite (Hent _ _ _ Hin). unfold when_field_differs.
  pose proof (fields_to_check_old _ _ _ _ _ _ Hin) as ->.
  unfold field. rewrite Hsl. cbn [sales_lead from_option id].
  unfold py_get at 3.
  rewrite (updated_sales_lead_field _ _ _ _ _ _ sl Hin).
  reflexivity.
Qed.

(** The fields the create form stores are the values the edit form
    would propose for them. *)
Lemma created_sales_lead_item f score k nv ov :
  (k, (nv, ov)) ∈ fields_to_check f score (created_sales_lead f score) →
  ov = nv.
Proof.
  intros Hin. remember (created_sales_lead f score) as sl eqn:Hsl.
  unfold fields_to_check in Hin.
  cases_of_membership Hin; injection Hin as -> -> ->; subst sl;
    by_computation.
Qed.

(** What a submission of the create form inserts. *)
Lemma create_new_lead_form_inserted base lead_id f doc_key d :
  create_new_lead_form base lead_id f = Inserted doc_key d →
  required_fields_filled f = true
  ∧ doc_key = "lead::" +:+ lead_id
  ∧ d = Document (Some (created_sales_lead f (form_lead_score base f))) None
          {[ "lead_id" := VStr lead_id ]}.
Proof.
  unfold create_new_lead_form, form_lead_score.
  destruct (required_fields_filled f); cbn [negb]; [| discriminate].
  by intros [= <- <-].
Qed.

Lemma created_sales_lead_score f score :
  created_sales_lead f score !! "lead_score" = Some (VInt score).
Proof. by_computation. Qed.

Lemma created_sales_lead_flag f score :
  created_sales_lead f score !! "high_priority_flag"
  = Some (VBool (80 <=? score)).
Proof. by_computation. Qed.

(** ** The create form *)

(** X1. A lead the create form inserts is stored under ["lead::"]
    followed by its id, has no history, holds every field the edit form
    tracks, and has a score between 0 and 100 with the flag that score
    calls for. *)
Theorem created_lead_well_formed (base : Z) (lead_id : string)
    (f : edit_form) (doc_key : string) (d : document) :
  create_new_lead_form base lead_id f = Inserted doc_key d →
  doc_key = "lead::" +:+ lead_id
  ∧ old_data d = None
  ∧ flag_invariant d
  ∧ (∀ k, k ∈ tracked_fields → field d k ≠ VNone)
  ∧ ∃ n, 0 ≤ n ≤ 100 ∧ field d "lead_score" = VInt n
         ∧ field d "high_priority_flag" = VBool (80 <=? n).
Proof.
  intros Hrun.
  destruct (create_new_lead_form_inserted _ _ _ _ _ Hrun) as (_ & Hkey & ->).
  split; [exact Hkey |]. split; [reflexivity |]. split; [| split].
  - intros sl' [= <-].
    rewrite created_sales_lead_score, created_sales_lead_flag. simpl. eauto.
  - intros k Hk.
    destruct (tracked_field_item f (form_lead_score base f)
                (created_sales_lead f (form_lead_score base f)) k Hk)
      as (nv & ov & Hin).
    pose proof (created_sales_lead_item _ _ _ _ _ Hin) as Heq.
    pose proof (fields_to_check_old _ _ _ _ _ _ Hin) as Hold.
    unfold field. cbn [sales_lead from_option id]. rewrite <- Hold, Heq.
    clear Heq Hold.
    remember (created_sales_lead f (form_lead_score base f)) as sl eqn:Hsl.
    unfold fields_to_check in Hin.
    cases_of_membership Hin; by injection Hin as -> -> ->.
  - exists (form_lead_score base f). split; [apply lead_score_weighted_range |].
    unfold field, py_get. cbn [sales_lead from_option id].
    by rewrite created_sales_lead_score, created_sales_lead_flag.
Qed.

Lemma created_lead_well_formed_witness :
  "lead::4d1e" = "lead::" +:+ "4d1e"
  ∧ old_data lead_a_created = None
  ∧ flag_invariant lead_a_created
  ∧ (∀ k, k ∈ tracked_fields → field lead_a_created k ≠ VNone)
  ∧ ∃ n, 0 ≤ n ≤ 100 ∧ field lead_a_created "lead_score" = VInt n
         ∧ field lead_a_created "high_priority_flag" = VBool (80 <=? n).
Proof.
  apply (created_lead_well_formed 20 "4d1e" (form_a "A")). by_computation.
Defined.

(** X2. Creating a lead and then submitting the edit form with the same
    values (and the same base draw) finds nothing changed: no upsert is
    made. *)
Theorem create_then_same_edit_is_noop (base : Z) (lead_id now : string)
    (f : edit_form) (doc_key : string) (d : document) :
  create_new_lead_form base lead_id f = Inserted doc_key d →
  edit_lead_page base now d f = Ok NoChanges.
Proof.
  intros Hrun.
  destruct (create_new_lead_form_inserted _ _ _ _ _ Hrun) as (Hreq & _ & ->).
  rewrite edit_lead_page_no_difference; [by rewrite Hreq |].
  cbn [sales_lead from_option id]. unfold some_field_differs.
  apply not_true_is_false. intros Hex.
  apply existsb_exists in Hex as ([k [nv ov]] & Hin & Hdiff).
  apply list_elem_of_In in Hin.
  rewrite (created_sales_lead_item _ _ _ _ _ Hin) in Hdiff.
  cbn [fst snd] in Hdiff. by rewrite py_neb_irrefl in Hdiff.
Qed.

Lemma create_then_same_edit_is_noop_witness :
  edit_lead_page 20 "2025-06-01T09:30:00Z" lead_a_created (form_a "A")
  = Ok NoChanges.
Proof.
  apply (create_then_same_edit_is_noop 20 "4d1e" "2025-06-01T09:30:00Z"
           (form_a "A") "lead::4d1e").
  by_computation.
Defined.

(** X3. After a lead has been created and edited once through the form,
    its history holds exactly the tracked fields that edit has changed,
    each with the value given at creation and the date of the edit. *)
Theorem first_edit_history (base base' : Z) (lead_id now : string)
    (f f' : edit_form) (doc_key : string) (d d' : document) (k : string) :
  create_new_lead_form base lead_id f = Inserted doc_key d →
  edit_lead_page base' now d f' = Ok (Upserted d') →
  history d' !! k
    = if bool_decide (k ∈ tracked_fields) && py_neb (field d' k) (field d k)
      then Some (AuditEntry (field d k) now)
      else None.
Proof.
  intros Hcreate Hedit.
  destruct (create_new_lead_form_inserted _ _ _ _ _ Hcreate) as (_ & _ & ->).
  by rewrite (edit_lead_page_history_observed _ _ _ _ _ k Hedit).
Qed.

Lemma first_edit_history_witness :
  history (lead_a_created_edited "B" "2025-06-01T09:30:00Z") !! "notes"
    = (if bool_decide ("notes" ∈ tracked_fields)
          && py_neb
               (field (lead_a_created_edited "B" "2025-06-01T09:30:00Z")
                  "notes")
               (field lead_a_created "notes")
       then Some (AuditEntry (field lead_a_created "notes")
                    "2025-06-01T09:30:00Z")
       else None).
Proof.
  apply (first_edit_history 20 20 "4d1e" "2025-06-01T09:30:00Z" (form_a "A")
           (form_a "B") "lead::4d1e"); by_computation.
Defined.

(** ** When update_document fails *)

(** A lead whose deal size is not a number stops [update_document] at
    the division. *)
Lemma update_document_deal_not_number rnd now doc sl st sg note :
  sales_lead doc = Some sl →
  random_lead_status_and_pipeline_stage (pair_draw rnd) = Ok (st, sg) →
  random_notes (notes_draw rnd) = Ok note →
  numeric (default (VInt 0) (sl !! "last_deal_size_usd")) = None →
  update_document rnd now doc = Raise TypeError.
Proof.
  intros Hsl Hpair Hnote Hdeal.
  unfold update_document. rewrite Hsl, Hpair. cbn [mbind result_bind].
  destruct (py_neb (VStr st) (py_get sl "lead_status")
            || py_neb (VStr sg) (py_get sl "pipeline_stage"));
    rewrite Hnote; cbn [mbind result_bind];
    match goal with
    | |- context [py_neb (VStr note) ?c] => destruct (py_neb (VStr note) c)
    end;
    unfold as_number; rewrite ?lookup_insert_ne by done;
    by rewrite Hdeal.
Qed.

(** The score after the comparison is missing exactly when it was
    missing before and the new score is 0, the default it is compared
    with. *)
Lemma final_score_missing (sl : gmap string value) (b1 b2 : bool)
    (x1 x2 x3 : value) (new_score : Z) :
  insert_if (py_neb (VInt new_score) (default (VInt 0) (sl !! "lead_score")))
    "lead_score" (VInt new_score)
    (insert_if b1 "notes" x1
       (insert_if b2 "pipeline_stage" x2
          (insert_if b2 "lead_status" x3 sl))) !! "lead_score" = None
  ↔ sl !! "lead_score" = None ∧ new_score = 0.
Proof.
  rewrite !lookup_insert_if. evaluate_decisions.
  rewrite !andb_false_r, andb_true_r.
  destruct (sl !! "lead_score") as [v |] eqn:Hv; cbn [from_option id].
  - destruct (py_neb (VInt new_score) v); split;
      first [ discriminate | intros [? _]; discriminate ].
  - unfold py_neb, py_eqb, numeric. case_bool_decide as Heq; cbn [negb].
    + injection Heq as ->. by split.
    + split; [discriminate |]. intros [_ ->]. by destruct Heq.
Qed.

(** X4. On a document whose lead is an object of scalar fields and
    whose history is missing or an object, and with its draws made: a
    stored deal size that is not a number ([None] or a string) makes
    [update_document] raise [TypeError]; with a deal size that is an
    integer below 2^53 in absolute value, [update_document] raises
    [KeyError] when the lead has no [lead_score] and the new score is 0,
    and returns in every other such case.  A history or a lead stored as
    [null], and a deal size that is a float or an integer too large for
    the division, are outside this statement. *)
Theorem update_document_failures (rnd : draws) (now : string)
    (doc : document) (sl : gmap string value) (st sg note : string) :
  sales_lead doc = Some sl →
  random_lead_status_and_pipeline_stage (pair_draw rnd) = Ok (st, sg) →
  random_notes (notes_draw rnd) = Ok note →
  (numeric (default (VInt 0) (sl !! "last_deal_size_usd")) = None →
   update_document rnd now doc = Raise TypeError)
  ∧ (∀ deal,
       numeric (default (VInt 0) (sl !! "last_deal_size_usd")) = Some deal →
       Z.abs deal < 2 ^ 53 →
       let new_score :=
         lead_score_weighted (base_draw rnd) deal (VStr st) (VStr sg)
           (default (VBool false) (sl !! "crm_activity_flag")) in
       (sl !! "lead_score" = None ∧ new_score = 0 →
        update_document rnd now doc = Raise (KeyError "lead_score"))
       ∧ (¬ (sl !! "lead_score" = None ∧ new_score = 0) →
          ∃ d changed, update_document rnd now doc = Ok (d, changed))).
Proof.
  intros Hsl Hpair Hnote. split.
  - by apply (update_document_deal_not_number _ _ _ _ st sg note).
  - intros deal Hdeal _ new_score. subst new_score.
    rewrite (update_document_unfold _ now _ _ _ _ _ _ Hsl Hpair Hnote Hdeal).
    unfold dict_index.
    match goal with
    | |- context [match ?m !! "lead_score" with _ => _ end] =>
        destruct (m !! "lead_score") as [v |] eqn:Hlook
    end.
    + split.
      * intros Hmiss. exfalso. revert Hlook.
        by erewrite (proj2 (final_score_missing _ _ _ _ _ _ _) Hmiss).
      * intros _. cbn [mbind result_bind].
        assert (numeric v
                = Some (lead_score_weighted (base_draw rnd) deal (VStr st)
                          (VStr sg)
                          (default (VBool false) (sl !! "crm_activity_flag"))))
          as Hnum.
        { revert Hlook. rewrite lookup_insert_if. evaluate_decisions.
          rewrite andb_true_r.
          destruct (py_neb _ (default (VInt 0) (sl !! "lead_score")))
            eqn:Hsd.
          - by intros [= <-].
          - rewrite !lookup_insert_if. evaluate_decisions.
            rewrite !andb_false_r. intros Hv.
            apply py_neb_false, py_eqb_VInt in Hsd. by rewrite Hv in Hsd. }
        unfold py_ge. rewrite Hnum. cbn [mbind result_bind].
        match goal with
        | |- context [if ?b then Ok _ else Ok _] => destruct b
        end; eauto.
    + split; [reflexivity |].
      intros Hnot. apply final_score_missing in Hlook. by destruct Hnot.
Qed.

Lemma update_document_failures_witness :
  (numeric (default (VInt 0)
              (delete "lead_score" lead_r_fields !! "last_deal_size_usd"))
   = None →
   update_document (Draws 11 0 20) "2025-06-01T09:30:00Z" lead_unscored
   = Raise TypeError)
  ∧ (∀ deal,
       numeric (default (VInt 0)
                  (delete "lead_score" lead_r_fields !! "last_deal_size_usd"))
       = Some deal →
       Z.abs deal < 2 ^ 53 →
       let new_score :=
         lead_score_weighted (base_draw (Draws 11 0 20)) deal (VStr "Won")
           (VStr "Closed Won")
           (default (VBool false)
              (delete "lead_score" lead_r_fields !! "crm_activity_flag")) in
       (delete "lead_score" lead_r_fields !! "lead_score" = None
        ∧ new_score = 0 →
        update_document (Draws 11 0 20) "2025-06-01T09:30:00Z" lead_unscored
        = Raise (KeyError "lead_score"))
       ∧ (¬ (delete "lead_score" lead_r_fields !! "lead_score" = None
             ∧ new_score = 0) →
          ∃ d changed,
            update_document (Draws 11 0 20) "2025-06-01T09:30:00Z"
              lead_unscored
            = Ok (d, changed))).
Proof.
  apply (update_document_failures (Draws 11 0 20) "2025-06-01T09:30:00Z"
           lead_unscored (delete "lead_score" lead_r_fields) "Won"
           "Closed Won" "Contacted client, awaiting response.");
    by_computation.
Defined.

(** Away from Won and Lost, a base of 20 or more and a deal that is not
    negative give a score of at least 10. *)
Lemma active_score_positive base deal st sg crm :
  20 ≤ base → 0 ≤ deal → is_won_or_lost st = false →
  10 ≤ lead_score_weighted base deal st sg crm.
Proof.
  intros Hbase Hdeal Hnt.
  rewrite lead_score_weighted_closed_form, Hnt. unfold bonus_points.
  rewrite (status_scores_spec _ Hnt), pipeline_scores_spec.
  assert (0 ≤ deal / 166666) by (apply Z.div_pos; lia).
  assert (0 ≤ status_points_spec st)
    by (unfold status_points_spec; repeat case_bool_decide; lia).
  assert (-10 ≤ stage_points_spec sg)
    by (unfold stage_points_spec; repeat case_bool_decide; lia).
  unfold clamp. destruct (truthy crm); lia.
Qed.

(** X5. On a lead stored without a [lead_score] (with a deal size that
    is a number and not negative, and a base draw in 20..50),
    [update_document] raises [KeyError] exactly when the status it draws
    is Won or Lost, that is for 2 of the 13 pairs; on every other draw it
    returns. *)
Theorem update_document_key_error (rnd : draws) (now : string)
    (doc : document) (sl : gmap string value) (st sg note : string)
    (deal : Z) :
  sales_lead doc = Some sl →
  sl !! "lead_score" = None →
  numeric (default (VInt 0) (sl !! "last_deal_size_usd")) = Some deal →
  0 ≤ deal →
  20 ≤ base_draw rnd ≤ 50 →
  random_lead_status_and_pipeline_stage (pair_draw rnd) = Ok (st, sg) →
  random_notes (notes_draw rnd) = Ok note →
  (update_document rnd now doc = Raise (KeyError "lead_score")
   ↔ st = "Won" ∨ st = "Lost")
  ∧ (update_document rnd now doc = Raise (KeyError "lead_score")
     ↔ (11 ≤ pair_draw rnd)%nat)
  ∧ ((∃ d changed, update_document rnd now doc = Ok (d, changed))
     ↔ st ≠ "Won" ∧ st ≠ "Lost").
Proof.
  intros Hsl Hmiss Hdeal Hpos Hbase Hpair Hnote.
  rewrite (update_document_unfold _ now _ _ _ _ _ _ Hsl Hpair Hnote Hdeal).
  unfold dict_index.
  assert (st = "Won" ∨ st = "Lost" ↔ (11 ≤ pair_draw rnd)%nat) as Hdraw.
  { apply random_pair_lookup in Hpair.
    pose proof (lookup_lt_Some _ _ _ Hpair) as Hlt. simpl in Hlt.
    destruct (pair_draw rnd) as [| [| [| [| [| [| [| [| [| [| [| [| [| n]]]]]]]]]]]]];
      try (injection Hpair as <- <-); try lia;
      (split; [intros [? | ?]; (discriminate || lia) | intros; try lia; auto]). }
  match goal with
  | |- context [match ?m !! "lead_score" with _ => _ end] =>
      destruct (m !! "lead_score") as [v |] eqn:Hlook
  end.
  - assert (is_won_or_lost (VStr st) = false) as Hnt.
    { apply not_true_is_false. intros Hterm.
      assert (insert_if
         (py_neb (VInt (lead_score_weighted (base_draw rnd) deal (VStr st)
                          (VStr sg)
                          (default (VBool false) (sl !! "crm_activity_flag"))))
            (default (VInt 0) (sl !! "lead_score")))
         "lead_score"
         (VInt (lead_score_weighted (base_draw rnd) deal (VStr st) (VStr sg)
                  (default (VBool false) (sl !! "crm_activity_flag"))))
         (insert_if (py_neb (VStr note) (py_get sl "notes")) "notes"
            (VStr note)
            (insert_if (pair_differs sl st sg) "pipeline_stage" (VStr sg)
               (insert_if (pair_differs sl st sg) "lead_status" (VStr st)
                  sl))) !! "lead_score" = None) as Hnone.
      { apply final_score_missing. split; [exact Hmiss |].
        rewrite lead_score_weighted_closed_form. by rewrite Hterm. }
      congruence. }
    assert (st ≠ "Won" ∧ st ≠ "Lost") as Hne.
    { split; intros ->; discriminate. }
    assert (numeric v
            = Some (lead_score_weighted (base_draw rnd) deal (VStr st)
                      (VStr sg)
                      (default (VBool false) (sl !! "crm_activity_flag"))))
      as Hnum.
    { revert Hlook. rewrite !lookup_insert_if, Hmiss. evaluate_decisions.
      rewrite !andb_false_r, andb_true_r.
      destruct (py_neb _ _); [by intros [= <-] | discriminate]. }
    cbn [mbind result_bind]. unfold py_ge. rewrite Hnum.
    cbn [mbind result_bind].
    split; [| split].
    + split; [| tauto].
      match goal with
      | |- context [if ?b then Ok _ else Ok _] => destruct b
      end; discriminate.
    + rewrite <- Hdraw. split; [| tauto].
      match goal with
      | |- context [if ?b then Ok _ else Ok _] => destruct b
      end; discriminate.
    + split; [done |]. intros _.
      match goal with
      | |- context [if ?b then Ok _ else Ok _] => destruct b
      end; eauto.
  - apply final_score_missing in Hlook as [_ Hzero].
    assert (is_won_or_lost (VStr st) = true) as Hterm.
    { destruct (is_won_or_lost (VStr st)) eqn:Hnt; [reflexivity |].
      pose proof (active_score_positive (base_draw rnd) deal (VStr st)
                    (VStr sg)
                    (default (VBool false) (sl !! "crm_activity_flag"))
                    ltac:(lia) Hpos Hnt). lia. }
    apply is_won_or_lost_spec in Hterm.
    assert (st = "Won" ∨ st = "Lost") as Hst
      by (destruct Hterm as [[= ->] | [= ->]]; auto).
    cbn [mbind result_bind].
    split; [| split].
    + tauto.
    + rewrite <- Hdraw. tauto.
    + split; [intros (d & c & [=]) | intros [? ?]; destruct Hst; done].
Qed.

Lemma update_document_key_error_witness :
  (update_document (Draws 12 0 35) "2025-06-01T09:30:00Z" lead_unscored
   = Raise (KeyError "lead_score")
   ↔ "Lost" = "Won" ∨ "Lost" = "Lost")
  ∧ (update_document (Draws 12 0 35) "2025-06-01T09:30:00Z" lead_unscored
     = Raise (KeyError "lead_score")
     ↔ (11 ≤ pair_draw (Draws 12 0 35))%nat)
  ∧ ((∃ d changed,
        update_document (Draws 12 0 35) "2025-06-01T09:30:00Z" lead_unscored
        = Ok (d, changed))
     ↔ "Lost" ≠ "Won" ∧ "Lost" ≠ "Lost").
Proof.
  apply (update_document_key_error (Draws 12 0 35) "2025-06-01T09:30:00Z"
           lead_unscored (delete "lead_score" lead_r_fields) "Lost"
           "Closed Lost" "Contacted client, awaiting response." 250000);
    first [ by_computation | cbn; lia ].
Defined.

(** ** The display of a score *)

(** On a number the four tests of the display are comparisons of
    integers. *)
Lemma score_is_none_or_negative_numeric v n :
  numeric v = Some n → score_is_none_or_negative v = Ok (n <? 0).
Proof.
  intros Hn. unfold score_is_none_or_negative, py_lt. rewrite Hn.
  case_bool_decide as Hv; [by subst v |]. reflexivity.
Qed.

Lemma get_priority_text_numeric v n :
  numeric v = Some n →
  get_priority_text v
  = Ok (if n <? 0 then "CLOSED" else if 80 <=? n then "HIGH"
        else if 50 <=? n then "MEDIUM" else "LOW").
Proof.
  intros Hn. unfold get_priority_text.
  rewrite (score_is_none_or_negative_numeric _ _ Hn). cbn [mbind result_bind].
  unfold py_ge. rewrite Hn. cbn [mbind result_bind].
  by destruct (n <? 0), (80 <=? n), (50 <=? n).
Qed.

Lemma get_priority_badge_class_numeric v n :
  numeric v = Some n →
  get_priority_badge_class v
  = Ok (if n <? 0 then "priority-badge-closed"
        else if 80 <=? n then "priority-badge-high"
        else if 50 <=? n then "priority-badge-medium"
        else "priority-badge-low").
Proof.
  intros Hn. unfold get_priority_badge_class.
  rewrite (score_is_none_or_negative_numeric _ _ Hn). cbn [mbind result_bind].
  unfold py_ge. rewrite Hn. cbn [mbind result_bind].
  by destruct (n <? 0), (80 <=? n), (50 <=? n).
Qed.

Lemma format_lead_score_numeric v n :
  numeric v = Some n →
  format_lead_score v
  = Ok (if n <? 0 then "N/A" else str_of_int n +:+ "/100").
Proof.
  intros Hn. unfold format_lead_score.
  rewrite (score_is_none_or_negative_numeric _ _ Hn). cbn [mbind result_bind].
  unfold as_number. rewrite Hn. by destruct (n <? 0).
Qed.

(** X6. The badge class and the priority text of a score always go
    together: both are the closed, high, medium or low variant, or both
    fail with [TypeError] (on a string). *)
Theorem badge_class_matches_text (score : value) :
  (get_priority_text score, get_priority_badge_class score)
  ∈ [ (Ok "CLOSED", Ok "priority-badge-closed");
      (Ok "HIGH", Ok "priority-badge-high");
      (Ok "MEDIUM", Ok "priority-badge-medium");
      (Ok "LOW", Ok "priority-badge-low");
      (Raise TypeError, Raise TypeError) ].
Proof.
  destruct (numeric score) as [n |] eqn:Hn.
  - rewrite (get_priority_text_numeric _ _ Hn),
      (get_priority_badge_class_numeric _ _ Hn).
    destruct (n <? 0), (80 <=? n), (50 <=? n); set_solver.
  - destruct score; try discriminate; set_solver.
Qed.

(** X7. A score computed by [lead_score_weighted] is never shown as
    closed: its text is HIGH, MEDIUM or LOW by the thresholds 80 and 50,
    and it is formatted as the number followed by ["/100"].  A lead that
    is Won or Lost is shown as LOW with ["0/100"], not as CLOSED with
    ["N/A"]. *)
Theorem computed_score_never_shown_closed (base deal : Z)
    (status stage crm : value) :
  let score := lead_score_weighted base deal status stage crm in
  get_priority_text (VInt score)
    = Ok (if 80 <=? score then "HIGH"
          else if 50 <=? score then "MEDIUM" else "LOW")
  ∧ format_lead_score (VInt score) = Ok (str_of_int score +:+ "/100")
  ∧ get_priority_text
      (VInt (lead_score_weighted base deal (VStr "Won") stage crm))
    = Ok "LOW"
  ∧ format_lead_score
      (VInt (lead_score_weighted base deal (VStr "Lost") stage crm))
    = Ok "0/100".
Proof.
  intros score.
  pose proof (lead_score_weighted_range base deal status stage crm) as Hr.
  fold score in Hr.
  rewrite (get_priority_text_numeric (VInt score) score eq_refl),
    (format_lead_score_numeric (VInt score) score eq_refl).
  assert ((score <? 0) = false) as -> by lia.
  split; [reflexivity |]. split; [reflexivity |]. split; reflexivity.
Qed.

(** Every produced lead has a number between 0 and 100 for score, and
    the flag that number calls for. *)
Lemma produced_lead_score d sl :
  produced d → sales_lead d = Some sl →
  ∃ v n, sl !! "lead_score" = Some v ∧ numeric v = Some n ∧ (0 ≤ n ≤ 100)
         ∧ sl !! "high_priority_flag" = Some (VBool (80 <=? n)).
Proof.
  intros [base now data f d' Hrun | rnd now doc d' changed Hrun] Hd.
  - apply edit_lead_page_upserted in Hrun as (sl0 & _ & _ & _ & ->).
    injection Hd as <-.
    exists (VInt (form_lead_score base f)), (form_lead_score base f).
    rewrite updated_sales_lead_flag, updated_sales_lead_score.
    repeat split; apply lead_score_weighted_range.
  - destruct (sales_lead doc) as [sl0 |] eqn:Hsl.
    + destruct (update_document_draws _ _ _ _ _ Hsl Hrun)
        as (st & sg & note & deal & Hpair & Hnote & Hdeal).
      destruct (update_document_result _ _ _ _ _ _ _ _ Hsl Hpair Hnote Hdeal
                  _ _ Hrun) as (_ & _ & _ & v & Hv & Hnum & Hlead).
      rewrite Hlead in Hd. injection Hd as <-.
      exists v. eexists.
      rewrite lookup_insert_eq, lookup_insert_ne by done.
      repeat split; [exact Hv | exact Hnum | apply lead_score_weighted_range..].
    + rewrite (update_document_without_lead_aux _ _ _ Hsl) in Hrun.
      injection Hrun as <- _. congruence.
Qed.

(** X8. For every lead the edit form upserts or [update_document]
    returns, the stored score is a number between 0 and 100, its
    priority text is HIGH exactly when the stored [high_priority_flag] is
    set, and it is never CLOSED. *)
Theorem produced_lead_badge_matches_flag (d : document)
    (sl : gmap string value) :
  produced d →
  sales_lead d = Some sl →
  ∃ v n flag,
    sl !! "lead_score" = Some v
    ∧ numeric v = Some n ∧ (0 ≤ n ≤ 100)
    ∧ sl !! "high_priority_flag" = Some (VBool flag)
    ∧ (get_priority_text v = Ok "HIGH" ↔ flag = true)
    ∧ get_priority_text v ≠ Ok "CLOSED".
Proof.
  intros Hprod Hsl.
  destruct (produced_lead_score _ _ Hprod Hsl)
    as (v & n & Hv & Hnum & Hrange & Hflag).
  exists v, n, (80 <=? n).
  rewrite (get_priority_text_numeric _ _ Hnum).
  assert ((n <? 0) = false) as -> by lia.
  repeat split; try done; try lia.
  - destruct (80 <=? n); [done |]. by destruct (50 <=? n).
  - by intros ->.
  - by destruct (80 <=? n), (50 <=? n).
Qed.

Lemma produced_lead_badge_matches_flag_witness :
  ∃ v n flag,
    lead_a_refreshed_fields !! "lead_score" = Some v
    ∧ numeric v = Some n ∧ (0 ≤ n ≤ 100)
    ∧ lead_a_refreshed_fields !! "high_priority_flag" = Some (VBool flag)
    ∧ (get_priority_text v = Ok "HIGH" ↔ flag = true)
    ∧ get_priority_text v ≠ Ok "CLOSED".
Proof.
  apply (produced_lead_badge_matches_flag
           (lead_a_refreshed "2025-06-01T09:30:00Z")).
  - apply (produced_by_update_document (Draws 4 0 20) "2025-06-01T09:30:00Z"
             lead_a _ true).
    by_computation.
  - reflexivity.
Defined.

(** ** random_lead_score *)

(** X9. With either of its two draws, [random_lead_score] returns a
    score between 0 and 100, within 5 of the current score when that is
    itself between 0 and 100, and exactly 5 away from it when it is
    between 5 and 95. *)
Theorem random_lead_score_range (k : nat) (current_score : Z) :
  (k < 2)%nat →
  ∃ score,
    random_lead_score k current_score = Ok score
    ∧ 0 ≤ score ≤ 100
    ∧ (0 ≤ current_score ≤ 100 → Z.abs (score - current_score) ≤ 5)
    ∧ (5 ≤ current_score ≤ 95 → Z.abs (score - current_score) = 5).
Proof.
  intros Hk. unfold random_lead_score, random_choice.
  destruct k as [| [| k]]; [| | lia]; cbn; eexists;
    (split; [reflexivity |]); lia.
Qed.

Lemma random_lead_score_range_witness :
  ∃ score,
    random_lead_score 1 97 = Ok score
    ∧ 0 ≤ score ≤ 100
    ∧ (0 ≤ 97 ≤ 100 → Z.abs (score - 97) ≤ 5)
    ∧ (5 ≤ 97 ≤ 95 → Z.abs (score - 97) = 5).
Proof. apply (random_lead_score_range 1 97). lia. Defined.

(** ** The refresh job *)

Lemma produced_flag_invariant d : produced d → flag_invariant d.
Proof.
  intros Hprod sl Hsl.
  destruct (produced_lead_score _ _ Hprod Hsl)
    as (v & n & Hv & Hnum & _ & Hflag).
  rewrite Hv, Hflag. simpl. rewrite Hnum. eauto.
Qed.

(** What one turn of the loop does to the state. *)
Lemma refresh_row_spec st row st' :
  refresh_row st row = Ok st' →
  (total st ≤ total st' ≤ total st + 1)
  ∧ (updated st ≤ updated st')
  ∧ (updated st' - updated st ≤ total st' - total st)
  ∧ dom (collection st') = dom (collection st)
  ∧ (∀ id, id ≠ row.1.1 → collection st' !! id = collection st !! id)
  ∧ (∀ id doc', collection st' !! id = Some doc' →
       collection st !! id = Some doc'
       ∨ (produced doc' ∧ old_data doc' ≠ None
          ∧ ∃ doc, collection st !! id = Some doc ∧ sales_lead doc ≠ None)).
Proof.
  destruct row as [[doc_id rnd] now]. unfold refresh_row. cbn [fst].
  destruct (collection st !! doc_id) as [doc |] eqn:Hget.
  - intros Hrun. apply bind_Ok in Hrun as ([d changed] & Hupd & Hrun).
    injection Hrun as <-. destruct changed; cbn.
    + split; [lia |]. split; [lia |]. split; [lia |]. split; [| split].
      * rewrite dom_insert_L. apply subseteq_union_1_L, singleton_subseteq_l.
        by apply elem_of_dom_2 in Hget.
      * intros id Hne. by rewrite lookup_insert_ne.
      * intros id doc' Hlook.
        destruct (decide (id = doc_id)) as [-> | Hne].
        -- rewrite lookup_insert_eq in Hlook. injection Hlook as <-. right.
           split; [by eapply produced_by_update_document |].
           destruct (sales_lead doc) as [sl |] eqn:Hsl.
           ++ destruct (update_document_draws _ _ _ _ _ Hsl Hupd)
                as (s1 & s2 & note & deal & Hpair & Hnote & Hdeal).
              pose proof (update_document_unfold _ now _ _ _ _ _ _
                            Hsl Hpair Hnote Hdeal) as Hunf.
              rewrite Hunf in Hupd.
              apply bind_Ok in Hupd as (v & _ & Hupd).
              apply bind_Ok in Hupd as (flag & _ & Hupd).
              cbn zeta in Hupd.
              match type of Hupd with
              | (if ?b then _ else _) = _ => destruct b
              end; [| discriminate].
              injection Hupd as <-. split; [done |].
              exists doc. by rewrite Hsl.
           ++ rewrite (update_document_without_lead_aux _ _ _ Hsl) in Hupd.
              discriminate.
        -- rewrite lookup_insert_ne in Hlook by done. by left.
    + split; [lia |]. split; [lia |]. split; [lia |]. split; [done |].
      split; [done |]. intros id doc' Hlook. by left.
  - intros [= <-]. split; [lia |]. split; [lia |]. split; [lia |].
    split; [done |]. split; [done |]. intros id doc' Hlook. by left.
Qed.

Lemma refresh_fold_raise e rows :
  foldl (λ acc row, st ← acc; refresh_row st row) (Raise e) rows = Raise e.
Proof. induction rows as [| row rows IH]; [reflexivity | exact IH]. Qed.

(** What the whole loop does, from any state. *)
Lemma refresh_fold_spec rows st st' :
  foldl (λ acc row, st ← acc; refresh_row st row) (Ok st) rows = Ok st' →
  (total st ≤ total st' ≤ total st + Z.of_nat (length rows))
  ∧ (updated st ≤ updated st')
  ∧ (updated st' - updated st ≤ total st' - total st)
  ∧ dom (collection st') = dom (collection st)
  ∧ (∀ id, id ∉ rows.*1.*1 → collection st' !! id = collection st !! id)
  ∧ (∀ id doc', collection st' !! id = Some doc' →
       collection st !! id = Some doc'
       ∨ (produced doc' ∧ old_data doc' ≠ None
          ∧ ∃ doc, collection st !! id = Some doc ∧ sales_lead doc ≠ None)).
Proof.
  revert st. induction rows as [| row rows IH]; intros st Hrun.
  - injection Hrun as <-. cbn. split; [lia |]. split; [lia |].
    split; [lia |]. split; [done |]. split; [done |]. by left.
  - cbn [foldl mbind result_bind] in Hrun.
    destruct (refresh_row st row) as [st1 | e] eqn:Hrow;
      [| by rewrite refresh_fold_raise in Hrun].
    destruct (refresh_row_spec _ _ _ Hrow)
      as (Ht & Hu & Hd & Hdom & Hother & Hdocs).
    destruct (IH _ Hrun) as (Ht' & Hu' & Hd' & Hdom' & Hother' & Hdocs').
    cbn [length]. split; [lia |]. split; [lia |]. split; [lia |].
    split; [congruence |]. split.
    + intros id Hid. cbn in Hid. apply not_elem_of_cons in Hid as [Hne Hid].
      rewrite (Hother' _ Hid). by apply Hother.
    + intros id doc' Hlook.
      destruct (Hdocs' _ _ Hlook)
        as [Hsame | (Hprod & Hhist & doc1 & Hdoc1 & Hlead1)].
      * by apply Hdocs.
      * right. split; [done |]. split; [done |].
        destruct (Hdocs _ _ Hdoc1)
          as [Hsame | (Hprod1 & _ & doc & Hdoc & Hlead)].
        -- by exists doc1.
        -- by exists doc.
Qed.

(** X10. When the loop of [main] ends, the counters satisfy
    [0 <= updated <= total <= number of rows], and the collection has
    the keys it had: [main] creates and deletes no document. *)
Theorem refresh_all_counters (coll : gmap string document)
    (rows : list (string * draws * string)) (st : refresh_state) :
  refresh_all coll rows = Ok st →
  (0 ≤ updated st ≤ total st)
  ∧ total st ≤ Z.of_nat (length rows)
  ∧ dom (collection st) = dom coll.
Proof.
  intros Hrun. apply refresh_fold_spec in Hrun as (Ht & Hu & Hd & Hdom & _).
  cbn in *. split; [lia |]. split; [lia | done].
Qed.

Lemma refresh_all_counters_witness :
  (0 ≤ updated refreshed_store ≤ total refreshed_store)
  ∧ total refreshed_store ≤ Z.of_nat (length refresh_rows)
  ∧ dom (collection refreshed_store) = dom example_store.
Proof.
  apply (refresh_all_counters example_store refresh_rows). by_computation.
Defined.

(** X11. When the loop of [main] ends, a document is either the one
    that was stored, or one that [update_document] returned with
    [changed = True]: it then had a lead, carries a history, and
    satisfies the invariant of the flag.  Documents without a lead, and
    documents the query did not list, are the ones that were stored. *)
Theorem refresh_all_documents (coll : gmap string document)
    (rows : list (string * draws * string)) (st : refresh_state) :
  refresh_all coll rows = Ok st →
  (∀ id doc', collection st !! id = Some doc' →
     coll !! id = Some doc'
     ∨ (flag_invariant doc' ∧ old_data doc' ≠ None
        ∧ ∃ doc, coll !! id = Some doc ∧ sales_lead doc ≠ None))
  ∧ (∀ id doc, coll !! id = Some doc → sales_lead doc = None →
       collection st !! id = Some doc)
  ∧ (∀ id, id ∉ rows.*1.*1 → collection st !! id = coll !! id).
Proof.
  intros Hrun.
  apply refresh_fold_spec in Hrun as (_ & _ & _ & Hdom & Hother & Hdocs).
  cbn [collection] in *. split; [| split; [| exact Hother]].
  - intros id doc' Hlook.
    destruct (Hdocs _ _ Hlook) as [Hsame | (Hprod & Hhist & Hdoc)];
      [by left | right].
    split; [by apply produced_flag_invariant | done].
  - intros id doc Hdoc Hnone.
    assert (is_Some (collection st !! id)) as [doc' Hlook].
    { apply elem_of_dom. rewrite Hdom. by apply elem_of_dom_2 in Hdoc. }
    destruct (Hdocs _ _ Hlook) as [Hsame | (_ & _ & doc0 & Hdoc0 & Hlead)].
    + congruence.
    + congruence.
Qed.

Lemma refresh_all_documents_witness :
  (∀ id doc', collection refreshed_store !! id = Some doc' →
     example_store !! id = Some doc'
     ∨ (flag_invariant doc' ∧ old_data doc' ≠ None
        ∧ ∃ doc, example_store !! id = Some doc ∧ sales_lead doc ≠ None))
  ∧ (∀ id doc, example_store !! id = Some doc → sales_lead doc = None →
       collection refreshed_store !! id = Some doc)
  ∧ (∀ id, id ∉ refresh_rows.*1.*1 →
       collection refreshed_store !! id = example_store !! id).
Proof.
  apply (refresh_all_documents example_store refresh_rows). by_computation.
Defined.

(** ** The filters and metrics of the dashboard *)

Lemma keep_if_Ok_filter {A} (keep : A → result bool) (p : A → bool)
    (l : list A) :
  Forall (λ x, keep x = Ok (p x)) l →
  keep_if keep l = Ok (filter (λ x, p x) l).
Proof.
  induction 1 as [| x l Hx _ IH]; [reflexivity |].
  cbn [keep_if]. rewrite Hx, IH. cbn [mbind result_bind].
  rewrite filter_cons. by destruct (p x).
Qed.

Lemma keep_if_sublist {A} (keep : A → result bool) (l kept : list A) :
  keep_if keep l = Ok kept → kept `sublist_of` l.
Proof.
  revert kept. induction l as [| x l IH]; intros kept Hrun.
  - by injection Hrun as <-.
  - cbn [keep_if] in Hrun.
    apply bind_Ok in Hrun as (b & _ & Hrun).
    apply bind_Ok in Hrun as (kept' & Hkept & Hrun).
    injection Hrun as <-.
    destruct b; [apply sublist_skip | apply sublist_cons]; by apply IH.
Qed.

Lemma keep_if_raise {A} (keep : A → result bool) (l : list A) e :
  Forall (λ x, keep x = Raise e ∨ ∃ b, keep x = Ok b) l →
  Exists (λ x, keep x = Raise e) l →
  keep_if keep l = Raise e.
Proof.
  induction 1 as [| x l Hx Hl IH]; intros Hex; [by apply Exists_nil in Hex |].
  cbn [keep_if]. destruct Hx as [Hr | [b Hb]]; [by rewrite Hr |].
  rewrite Hb. cbn [mbind result_bind].
  apply Exists_cons in Hex as [Hx | Hex]; [congruence |].
  by rewrite IH.
Qed.

Lemma Forall_of_sublist {A} (P : A → Prop) (l k : list A) :
  k `sublist_of` l → Forall P l → Forall P k.
Proof.
  induction 1 as [| x k l _ IH | x k l _ IH]; intros Hall.
  - constructor.
  - apply Forall_cons in Hall as [Hx Hall]. constructor; auto.
  - apply Forall_cons in Hall as [_ Hall]. auto.
Qed.

Lemma search_leads_sublist lower term (l kept : list lead_row) :
  search_leads lower term l = Some kept → kept `sublist_of` l.
Proof.
  revert kept. induction l as [| lead l IH]; intros kept Hrun.
  - by injection Hrun as <-.
  - cbn [search_leads] in Hrun.
    destruct (default (VStr "") (row_sales_lead lead !! "company_name"));
      try discriminate.
    destruct (search_leads lower term l) as [kept' |]; [| discriminate].
    cbn in Hrun. injection Hrun as <-.
    destruct (is_substring _ _);
      [apply sublist_skip | apply sublist_cons]; by apply IH.
Qed.

Lemma priority_leads_sublist priority (l kept : list lead_row) :
  priority_leads priority l = Ok kept → kept `sublist_of` l.
Proof.
  unfold priority_leads. repeat case_bool_decide; intros Hrun;
    try (by eapply keep_if_sublist).
  - injection Hrun as <-. apply sublist_filter.
  - by injection Hrun as <-.
Qed.

(** The three stages of the filters. *)
Lemma view_filters_stages (lower : string → string)
    (search_term status_filter priority_filter : string)
    (leads shown : list lead_row) :
  view_filters lower search_term status_filter priority_filter leads
    = Shown shown →
  ∃ searched,
    searched `sublist_of` leads
    ∧ priority_leads priority_filter
        (if negb (bool_decide (status_filter = "All"))
         then filter
                (λ lead,
                   py_eqb (py_get (row_sales_lead lead) "lead_status")
                     (VStr status_filter)) searched
         else searched) = Ok shown.
Proof.
  unfold view_filters. intros Hrun.
  set (searched := if truthy (VStr search_term)
                   then search_leads lower search_term leads
                   else Some leads) in Hrun.
  destruct searched as [l1 |] eqn:Hsearch; [| discriminate].
  exists l1. split.
  - subst searched. destruct (truthy (VStr search_term)).
    + by eapply search_leads_sublist.
    + by injection Hsearch as <-.
  - destruct (priority_leads _ _) as [l3 | e]; [| discriminate].
    by injection Hrun as <-.
Qed.

Lemma view_filters_shown_sublist (lower : string → string)
    (search_term status_filter priority_filter : string)
    (leads shown : list lead_row) :
  view_filters lower search_term status_filter priority_filter leads
    = Shown shown →
  shown `sublist_of` leads.
Proof.
  intros (l1 & Hsub1 & Hprio)%view_filters_stages.
  apply priority_leads_sublist in Hprio.
  etrans; [exact Hprio |]. etrans; [| exact Hsub1].
  destruct (negb _); [apply sublist_filter | done].
Qed.

(** X12. Whatever the search term and the two filters, the leads shown
    are leads of the list, in the order of the list and each at most
    once, so that the page never announces more leads than there are; and
    under a status filter other than All every lead shown has that
    status. *)
Theorem view_filters_sublist (lower : string → string)
    (search_term status_filter priority_filter : string)
    (leads shown : list lead_row) :
  view_filters lower search_term status_filter priority_filter leads
    = Shown shown →
  shown `sublist_of` leads
  ∧ (length shown ≤ length leads)%nat
  ∧ (status_filter ≠ "All" →
     Forall (λ lead, py_get (row_sales_lead lead) "lead_status"
                     = VStr status_filter) shown).
Proof.
  intros Hrun.
  pose proof (view_filters_shown_sublist _ _ _ _ _ _ Hrun) as Hsub.
  split; [exact Hsub |]. split; [by apply sublist_length |].
  intros Hstatus.
  apply view_filters_stages in Hrun as (l1 & _ & Hprio).
  rewrite bool_decide_eq_false_2 in Hprio by done. cbn [negb] in Hprio.
  apply priority_leads_sublist in Hprio.
  eapply Forall_of_sublist; [exact Hprio |].
  apply Forall_forall. intros lead Hin.
  apply list_elem_of_filter in Hin as [Heq _].
  destruct (py_get (row_sales_lead lead) "lead_status");
    try (by destruct Heq).
  cbn in Heq. apply Is_true_true, bool_decide_eq_true in Heq.
  by subst.
Qed.

Lemma view_filters_sublist_witness :
  [ ("lead::7f0c", lead_a) ] `sublist_of` example_rows
  ∧ (length [ ("lead::7f0c", lead_a) ] ≤ length example_rows)%nat
  ∧ ("Prospect" ≠ "All" →
     Forall (λ lead, py_get (row_sales_lead lead) "lead_status"
                     = VStr "Prospect") [ ("lead::7f0c", lead_a) ]).
Proof.
  apply (view_filters_sublist (λ s, s) "Acme" "Prospect" "Low Priority").
  by_computation.
Defined.

(** Three tests of which every element passes exactly one split a list
    into three parts. *)
Lemma filter_three_way {A} (p1 p2 p3 : A → bool) (l : list A) :
  Forall (λ x, (p1 x, p2 x, p3 x)
               ∈ [ (true, false, false); (false, true, false);
                   (false, false, true) ]) l →
  filter (λ x, p1 x) l ++ filter (λ x, p2 x) l ++ filter (λ x, p3 x) l ≡ₚ l.
Proof.
  induction 1 as [| x l Hx _ IH]; [reflexivity |].
  rewrite !filter_cons.
  cases_of_membership Hx; injection Hx as -> -> ->;
    repeat case_decide; try done.
  - cbn [app]. by rewrite IH.
  - rewrite <- app_comm_cons, <- Permutation_middle. by rewrite IH.
  - rewrite app_assoc, <- Permutation_middle, <- app_assoc. by rewrite IH.
Qed.

(** The tests of the filters on a row that is well scored. *)
Lemma row_well_scored_tests lead :
  row_well_scored lead →
  ∃ n, 0 ≤ n
    ∧ row_flag lead = (80 <=? n)
    ∧ py_between 50 (row_score lead) 80 = Ok ((50 <=? n) && (n <? 80))
    ∧ py_between 0 (row_score lead) 50 = Ok (n <? 50)
    ∧ py_lt (row_score lead) 0 = Ok false.
Proof.
  intros (n & Hnum & Hpos & Hflag). exists n.
  unfold py_between, py_lt. rewrite Hnum.
  split; [done |]. split; [done |]. split; [done |].
  split; do 2 f_equal; lia.
Qed.

(** X13. On leads that are well scored (a score that is a number and
    not negative, and the flag it calls for) the three priority filters
    split the list: every lead is shown under exactly one of High, Medium
    and Low Priority, and the Closed Leads filter shows nothing. *)
Theorem priority_filters_partition (lower : string → string)
    (leads : list lead_row) :
  Forall row_well_scored leads →
  ∃ high medium low,
    view_filters lower "" "All" "High Priority" leads = Shown high
    ∧ view_filters lower "" "All" "Medium Priority" leads = Shown medium
    ∧ view_filters lower "" "All" "Low Priority" leads = Shown low
    ∧ view_filters lower "" "All" "Closed Leads" leads = Shown []
    ∧ high ++ medium ++ low ≡ₚ leads.
Proof.
  intros Hall.
  set (n_of := λ lead : lead_row, default 0 (numeric (row_score lead))).
  assert (Forall (λ lead,
            0 ≤ n_of lead
            ∧ row_flag lead = (80 <=? n_of lead)
            ∧ py_between 50 (row_score lead) 80
              = Ok ((50 <=? n_of lead) && (n_of lead <? 80))
            ∧ py_between 0 (row_score lead) 50 = Ok (n_of lead <? 50)
            ∧ py_lt (row_score lead) 0 = Ok false) leads) as Htests.
  { eapply Forall_impl; [exact Hall |]. intros lead Hlead.
    pose proof Hlead as (n & Hnum & _).
    destruct (row_well_scored_tests _ Hlead) as (n' & Hn').
    assert (n_of lead = n) as -> by (unfold n_of; by rewrite Hnum).
    destruct Hlead as (n2 & Hnum2 & Hpos2 & Hflag2).
    assert (n2 = n) as -> by congruence.
    unfold py_between, py_lt. rewrite Hnum.
    repeat split; try done; do 2 f_equal; lia. }
  exists (filter (λ lead, row_flag lead) leads),
    (filter (λ lead, (50 <=? n_of lead) && (n_of lead <? 80)) leads),
    (filter (λ lead, n_of lead <? 50) leads).
  unfold view_filters, priority_leads. cbn [truthy]. evaluate_decisions.
  cbn [negb].
  rewrite (keep_if_Ok_filter _
             (λ lead, (50 <=? n_of lead) && (n_of lead <? 80)))
    by (eapply Forall_impl; [exact Htests |]; by intros lead (_ & _ & ? & _)).
  rewrite (keep_if_Ok_filter _ (λ lead, n_of lead <? 50))
    by (eapply Forall_impl; [exact Htests |];
        by intros lead (_ & _ & _ & ? & _)).
  rewrite (keep_if_Ok_filter _ (λ _, false))
    by (eapply Forall_impl; [exact Htests |];
        by intros lead (_ & _ & _ & _ & ?)).
  split; [reflexivity |]. split; [reflexivity |]. split; [reflexivity |].
  split.
  - f_equal. induction leads as [| lead leads IH]; [reflexivity |].
    rewrite filter_cons. cbn. apply IH.
    + by apply Forall_cons in Hall as [_ ?].
    + by apply Forall_cons in Htests as [_ ?].
  - apply filter_three_way.
    eapply Forall_impl; [exact Htests |].
    intros lead (Hpos & -> & _).
    destruct (80 <=? n_of lead) eqn:H80, (50 <=? n_of lead) eqn:H50,
      (n_of lead <? 80) eqn:Hlt80, (n_of lead <? 50) eqn:Hlt50;
      cbn; try lia; set_solver.
Qed.

Lemma priority_filters_partition_witness :
  ∃ high medium low,
    view_filters (λ s, s) "" "All" "High Priority" example_rows = Shown high
    ∧ view_filters (λ s, s) "" "All" "Medium Priority" example_rows
      = Shown medium
    ∧ view_filters (λ s, s) "" "All" "Low Priority" example_rows = Shown low
    ∧ view_filters (λ s, s) "" "All" "Closed Leads" example_rows = Shown []
    ∧ high ++ medium ++ low ≡ₚ example_rows.
Proof.
  apply (priority_filters_partition (λ s, s) example_rows).
  repeat constructor.
  - exists 41. split; [by_computation |]. split; [lia | by_computation].
  - exists 41. split; [by_computation |]. split; [lia | by_computation].
  - exists 0. split; [by_computation |]. split; [lia | by_computation].
Defined.

(** ** The metrics of the dashboard *)

Lemma sum_values_bounds (lo hi : Z) (l : list value) :
  Forall (λ v, ∃ n, numeric v = Some n ∧ lo ≤ n ≤ hi) l →
  ∃ total, sum_values l = Ok total
    ∧ lo * Z.of_nat (length l) ≤ total ≤ hi * Z.of_nat (length l).
Proof.
  induction 1 as [| v l (n & Hn & Hbounds) _ (total & Hsum & IH)].
  - exists 0. cbn. split; [done | lia].
  - exists (n + total). cbn [sum_values]. unfold as_number.
    rewrite Hn, Hsum. cbn [mbind result_bind]. split; [done |].
    rewrite length_cons. lia.
Qed.

Lemma sum_values_numeric (l : list value) :
  Forall (λ v, is_Some (numeric v)) l → ∃ total, sum_values l = Ok total.
Proof.
  induction 1 as [| v l [n Hn] _ (total & Hsum)]; [by exists 0 |].
  exists (n + total). cbn [sum_values]. unfold as_number.
  by rewrite Hn, Hsum.
Qed.

Lemma sum_values_raise (l : list value) :
  Exists (λ v, numeric v = None) l → sum_values l = Raise TypeError.
Proof.
  induction 1 as [v l Hv | v l _ IH]; cbn [sum_values]; unfold as_number.
  - by rewrite Hv.
  - destruct (numeric v); [| done]. cbn [mbind result_bind]. by rewrite IH.
Qed.

Lemma Zpos_of_nat (n : nat) : n ≠ 0%nat → Z.pos (Pos.of_nat n) = Z.of_nat n.
Proof.
  destruct n as [| n]; [done | intros _].
  rewrite <- Pos.of_nat_succ. lia.
Qed.

Lemma valid_scores_kept (leads : list lead_row) :
  Forall (λ lead, is_Some (numeric (row_score lead))) leads →
  keep_if (λ lead, py_ge (row_score lead) 0) leads
  = Ok (filter (λ lead, 0 <=? score_number lead) leads).
Proof.
  intros Hall. apply keep_if_Ok_filter.
  eapply Forall_impl; [exact Hall |]. intros lead [n Hn].
  unfold py_ge. by rewrite Hn.
Qed.

(** X14. When every score is a number that is at most 100 and every deal
    size is a number, the metrics are computed: the total is the number
    of leads, the count of high-priority leads lies between 0 and the
    total, and the average score, taken over the scores that are not
    negative, lies between 0 and 100. *)
Theorem view_metrics_bounds (leads : list lead_row) :
  Forall (λ lead, ∃ n, numeric (row_score lead) = Some n ∧ n ≤ 100) leads →
  Forall (λ lead, is_Some (numeric (row_deal_size lead))) leads →
  ∃ m, view_metrics leads = Ok m
    ∧ total_leads m = Z.of_nat (length leads)
    ∧ 0 ≤ high_priority m ≤ total_leads m
    ∧ (0 <= avg_score m)%Q ∧ (avg_score m <= 100)%Q.
Proof.
  intros Hscores Hdeals. unfold view_metrics.
  rewrite valid_scores_kept
    by (eapply Forall_impl; [exact Hscores |]; by intros lead (n & -> & _)).
  cbn [mbind result_bind].
  set (valid := filter (λ lead, 0 <=? score_number lead) leads).
  assert (Forall (λ v, ∃ n, numeric v = Some n ∧ 0 ≤ n ≤ 100)
            (row_score <$> valid)) as Hvalid.
  { apply Forall_fmap, Forall_forall. intros lead Hin.
    apply list_elem_of_filter in Hin as [Hpos Hin].
    rewrite Forall_forall in Hscores.
    destruct (Hscores _ Hin) as (n & Hn & Hle).
    exists n. rewrite Hn in Hpos. cbn in Hpos.
    split; [done |]. apply Is_true_true, Z.leb_le in Hpos. lia. }
  destruct (sum_values_bounds 0 100 _ Hvalid) as (total & Hsum & Htotal).
  destruct (sum_values_numeric (row_deal_size <$> leads)) as [value Hvalue];
    [by apply Forall_fmap |].
  assert (∃ avg,
            match row_score <$> valid with
            | [] => Ok (inject_Z 0)
            | _ => total ← sum_values (row_score <$> valid);
                   Ok (total # Pos.of_nat (length (row_score <$> valid)))
            end = Ok avg
            ∧ (0 <= avg)%Q ∧ (avg <= 100)%Q) as (avg & -> & Havg).
  { destruct (row_score <$> valid) as [| v scores] eqn:Hvs.
    - exists (inject_Z 0). split; [done |]. split; unfold Qle; cbn; lia.
    - rewrite Hsum. cbn [mbind result_bind].
      eexists. split; [done |].
      unfold Qle. cbn [Qnum Qden].
      rewrite Zpos_of_nat by done. split; lia. }
  rewrite Hvalue. cbn [mbind result_bind].
  eexists. split; [done |]. cbn [total_leads high_priority avg_score].
  split; [done |]. split; [| exact Havg].
  pose proof (length_filter (λ lead : lead_row, row_flag lead) leads). lia.
Qed.

Lemma view_metrics_bounds_witness :
  ∃ m, view_metrics example_rows = Ok m
    ∧ total_leads m = Z.of_nat (length example_rows)
    ∧ 0 ≤ high_priority m ≤ total_leads m
    ∧ (0 <= avg_score m)%Q ∧ (avg_score m <= 100)%Q.
Proof.
  apply (view_metrics_bounds example_rows).
  - repeat constructor.
    + exists 41. split; [by_computation | lia].
    + exists 41. split; [by_computation | lia].
    + exists 0. split; [by_computation | lia].
  - repeat constructor; by_evaluation.
Defined.

(** X15. The metrics fail, with a [TypeError], exactly when the score or
    the deal size of some lead is not a number ([None] or a string): one
    such lead is enough to lose the whole dashboard. *)
Theorem view_metrics_type_error (leads : list lead_row) :
  view_metrics leads = Raise TypeError
  ↔ Exists (λ lead, numeric (row_score lead) = None
                    ∨ numeric (row_deal_size lead) = None) leads.
Proof.
  split.
  - intros Hraise.
    destruct (decide (Exists (λ lead, numeric (row_score lead) = None
                        ∨ numeric (row_deal_size lead) = None) leads))
      as [| Hnone]; [done | exfalso].
    apply not_Exists_Forall in Hnone; [| intros lead; apply _].
    assert (Forall (λ lead, is_Some (numeric (row_score lead))) leads)
      as Hscores.
    { eapply Forall_impl; [exact Hnone |]. intros lead Hlead. cbn in Hlead.
      destruct (numeric (row_score lead)); [done | tauto]. }
    assert (Forall (λ lead, is_Some (numeric (row_deal_size lead))) leads)
      as Hdeals.
    { eapply Forall_impl; [exact Hnone |]. intros lead Hlead. cbn in Hlead.
      destruct (numeric (row_deal_size lead)); [done | tauto]. }
    unfold view_metrics in Hraise.
    rewrite valid_scores_kept in Hraise by done.
    cbn [mbind result_bind] in Hraise.
    destruct (sum_values_numeric (row_deal_size <$> leads)) as [value Hvalue];
      [by apply Forall_fmap |].
    set (valid := filter (λ lead, 0 <=? score_number lead) leads) in Hraise.
    destruct (sum_values_numeric (row_score <$> valid)) as [total Htotal].
    { apply Forall_fmap, Forall_forall. intros lead Hin.
      apply list_elem_of_filter in Hin as [_ Hin].
      rewrite Forall_forall in Hscores. by apply Hscores. }
    rewrite Hvalue in Hraise.
    destruct (row_score <$> valid); [done |].
    by rewrite Htotal in Hraise.
  - intros Hex. unfold view_metrics.
    destruct (decide (Exists (λ lead, numeric (row_score lead) = None) leads))
      as [Hscore | Hscores].
    + rewrite (keep_if_raise _ _ TypeError); [done | |].
      * apply Forall_forall. intros lead _. unfold py_ge.
        destruct (numeric (row_score lead)); eauto.
      * eapply Exists_impl; [exact Hscore |]. intros lead Hlead.
        unfold py_ge. by rewrite Hlead.
    + apply not_Exists_Forall in Hscores; [| intros lead; apply _].
      assert (Forall (λ lead, is_Some (numeric (row_score lead))) leads)
        as Hnum.
      { eapply Forall_impl; [exact Hscores |]. intros lead Hlead.
        cbn in Hlead. by destruct (numeric (row_score lead)). }
      rewrite valid_scores_kept by done. cbn [mbind result_bind].
      set (valid := filter (λ lead, 0 <=? score_number lead) leads).
      destruct (sum_values_numeric (row_score <$> valid)) as [total Htotal].
      { apply Forall_fmap, Forall_forall. intros lead Hin.
        apply list_elem_of_filter in Hin as [_ Hin].
        rewrite Forall_forall in Hnum. by apply Hnum. }
      rewrite sum_values_raise.
      * destruct (row_score <$> valid); [done |]. by rewrite Htotal.
      * apply Exists_fmap. rewrite Forall_forall in Hscores.
        apply Exists_exists in Hex as (lead & Hin & [Hs | Hd]).
        -- by destruct (Hscores _ Hin).
        -- apply Exists_exists. eauto.
Qed.

(** ** The order of the leads of the dashboard *)


Lemma filter_fmap_snd {A B} (P : B → Prop) `{!∀ y, Decision (P y)}
    (l : list (A * B)) :
  filter P (l.*2) = (filter (λ x, P x.2) l).*2.
Proof.
  induction l as [| x l IH]; [done |].
  cbn [fmap list_fmap]. rewrite !filter_cons, IH.
  by destruct (decide (P x.2)).
Qed.

Lemma filter_ext_Forall {A} (P Q : A → Prop) `{!∀ x, Decision (P x)}
    `{!∀ x, Decision (Q x)} (l : list A) :
  Forall (λ x, P x ↔ Q x) l → filter P l = filter Q l.
Proof.
  induction 1 as [| x l Hx _ IH]; [done |].
  rewrite !filter_cons, IH. repeat case_decide; tauto.
Qed.

Lemma insert_descending_numeric (x : value * lead_row) sorted :
  is_Some (numeric x.1) →
  Forall (λ y, is_Some (numeric y.1)) sorted →
  ∃ sorted',
    insert_descending x sorted = Ok sorted'
    ∧ sorted' ≡ₚ x :: sorted
    ∧ (StronglySorted (λ a b, key_number b ≤ key_number a) sorted →
       StronglySorted (λ a b, key_number b ≤ key_number a) sorted')
    ∧ ∀ n, filter (λ y, key_number y = n) sorted'
           = filter (λ y, key_number y = n) (x :: sorted).
Proof.
  intros [m Hm]. induction 1 as [| y rest [n Hn] Hrest IH].
  - exists [x]. split; [done |]. split; [done |]. split; [| done].
    intros _. by repeat constructor.
  - destruct IH as (rest' & Hrun & Hperm & Hsorted & Hstable).
    cbn [insert_descending]. unfold py_lt_values. rewrite Hm, Hn.
    cbn [mbind result_bind].
    destruct (m <? n) eqn:Hlt.
    + apply Z.ltb_lt in Hlt. rewrite Hrun. cbn [mbind result_bind].
      exists (y :: rest'). split; [done |]. split; [| split].
      * rewrite Hperm. apply perm_swap.
      * intros Hs. apply StronglySorted_inv in Hs as [Hs Hy].
        constructor; [by apply Hsorted |].
        rewrite Hperm. constructor; [| done].
        rewrite Hm, Hn. cbn. lia.
      * intros k. rewrite filter_cons, Hstable, !filter_cons.
        rewrite Hm, Hn.
        repeat case_decide; cbn in *; try done; lia.
    + apply Z.ltb_ge in Hlt.
      exists (x :: y :: rest). split; [done |]. split; [done |].
      split; [| done].
      intros Hs. constructor; [done |].
      pose proof Hs as [_ Hy]%StronglySorted_inv.
      constructor; [rewrite Hm, Hn; cbn; lia |].
      eapply Forall_impl; [exact Hy |]. intros z Hz.
      rewrite Hm. rewrite Hn in Hz. cbn in *. lia.
Qed.

Lemma sorted_descending_numeric (keyed : list (value * lead_row)) :
  Forall (λ y, is_Some (numeric y.1)) keyed →
  ∃ sorted,
    sorted_descending keyed = Ok sorted
    ∧ sorted ≡ₚ keyed
    ∧ StronglySorted (λ a b, key_number b ≤ key_number a) sorted
    ∧ ∀ n, filter (λ y, key_number y = n) sorted
           = filter (λ y, key_number y = n) keyed.
Proof.
  induction 1 as [| x keyed Hx Hkeyed IH].
  - exists []. repeat split; constructor.
  - destruct IH as (sorted & Hrun & Hperm & Hsorted & Hstable).
    destruct (insert_descending_numeric x sorted Hx)
      as (sorted' & Hrun' & Hperm' & Hsorted' & Hstable').
    { by rewrite Hperm. }
    exists sorted'. cbn [sorted_descending]. rewrite Hrun.
    cbn [mbind result_bind]. split; [done |]. split; [| split].
    + by rewrite Hperm', Hperm.
    + by apply Hsorted'.
    + intros n. rewrite Hstable', !filter_cons, Hstable. done.
Qed.

Lemma keyed_leads_numeric (leads : list lead_row) :
  Forall has_numeric_score leads →
  ∃ keyed,
    keyed_leads leads = Ok keyed
    ∧ keyed.*2 = leads
    ∧ Forall (λ y, is_Some (numeric y.1) ∧ y.1 = row_score y.2) keyed.
Proof.
  induction 1 as [| lead leads (score & n & Hkey & Hn) _
                    (keyed & Hrun & Hleads & Hkeyed)].
  - by exists [].
  - exists ((score, lead) :: keyed). cbn [keyed_leads].
    rewrite Hkey, Hrun. cbn [mbind result_bind].
    split; [done |]. split; [by rewrite fmap_cons, Hleads |].
    constructor; [| done]. cbn [fst snd]. split; [by rewrite Hn |].
    unfold lead_score_key in Hkey. unfold row_score, row_sales_lead.
    destruct (sales_lead lead.2) as [fields |]; cbn in Hkey |- *;
      [| discriminate].
    destruct (fields !! "lead_score"); cbn in Hkey |- *; [| discriminate].
    by injection Hkey as ->.
Qed.

(** What [get_all_sales_leads] gives on leads whose scores are
    numbers. *)
Lemma get_all_sales_leads_numeric (rows : list lead_row) :
  Forall has_numeric_score rows →
  ∃ leads,
    get_all_sales_leads (Some rows) = Ok leads
    ∧ leads ≡ₚ rows
    ∧ StronglySorted (λ a b, score_number b ≤ score_number a) leads
    ∧ ∀ n, filter (λ lead, score_number lead = n) leads
           = filter (λ lead, score_number lead = n) rows.
Proof.
  intros Hrows.
  destruct (keyed_leads_numeric rows Hrows) as (keyed & Hkeyed & <- & Hkeys).
  destruct (sorted_descending_numeric keyed)
    as (sorted & Hrun & Hperm & Hsorted & Hstable).
  { eapply Forall_impl; [exact Hkeys |]. by intros y [? _]. }
  exists (sorted.*2). unfold get_all_sales_leads. rewrite Hkeyed.
  cbn [mbind result_bind]. rewrite Hrun. cbn [mbind result_bind].
  split; [done |].
  assert (Forall (λ y : value * lead_row, y.1 = row_score y.2) sorted)
    as Hsame.
  { rewrite Hperm. eapply Forall_impl; [exact Hkeys |]. by intros y [_ ?]. }
  assert (Forall (λ y : value * lead_row, y.1 = row_score y.2) keyed)
    as Hsame' by (eapply Forall_impl; [exact Hkeys |]; by intros y [_ ?]).
  split; [by rewrite Hperm |]. split.
  - clear Hperm Hstable Hrun. induction Hsorted as [| y sorted Hs IH Hy].
    + constructor.
    + apply Forall_cons in Hsame as [Hy1 Hsame].
      rewrite fmap_cons. constructor; [by apply IH |].
      apply Forall_fmap. rewrite Forall_forall in Hy, Hsame.
      apply Forall_forall. intros z Hz. cbn.
      rewrite <- Hy1, <- (Hsame z Hz). by apply Hy.
  - intros n. rewrite !filter_fmap_snd. f_equal.
    rewrite <- (filter_ext_Forall (λ y, key_number y = n) _ sorted),
      <- (filter_ext_Forall (λ y, key_number y = n) _ keyed);
      [apply Hstable | |].
    + eapply Forall_impl; [exact Hsame' |]. intros y Hy. by rewrite Hy.
    + eapply Forall_impl; [exact Hsame |]. intros y Hy. by rewrite Hy.
Qed.

(** X16. When the score of every lead is a number, the dashboard gets
    the leads of the query, each once, with the highest score first, and
    leads with the same score in the order the query gave them. *)
Theorem get_all_sales_leads_sorted (rows : list lead_row) :
  Forall has_numeric_score rows →
  ∃ leads,
    get_all_sales_leads (Some rows) = Ok leads
    ∧ leads ≡ₚ rows
    ∧ StronglySorted (λ a b, score_number b ≤ score_number a) leads
    ∧ ∀ n, filter (λ lead, score_number lead = n) leads
           = filter (λ lead, score_number lead = n) rows.
Proof. apply get_all_sales_leads_numeric. Qed.

Lemma get_all_sales_leads_sorted_witness :
  ∃ leads,
    get_all_sales_leads (Some example_query) = Ok leads
    ∧ leads ≡ₚ example_query
    ∧ StronglySorted (λ a b, score_number b ≤ score_number a) leads
    ∧ ∀ n, filter (λ lead, score_number lead = n) leads
           = filter (λ lead, score_number lead = n) example_query.
Proof.
  apply (get_all_sales_leads_sorted example_query).
  repeat constructor.
  - exists (VInt 41), 41. split; by_computation.
  - exists (VInt 86), 86. split; by_computation.
  - exists (VInt 41), 41. split; by_computation.
Defined.

(** The sort raises nothing but what the comparison of two keys
    raises. *)
Lemma insert_descending_raise x sorted e :
  insert_descending x sorted = Raise e → e = TypeError.
Proof.
  induction sorted as [| y rest IH]; [done |]. cbn [insert_descending].
  destruct (py_lt_values x.1 y.1) as [[] | e'] eqn:Hlt;
    cbn [mbind result_bind].
  - destruct (insert_descending x rest); [done |].
    cbn [mbind result_bind]. intros [= <-]. by apply IH.
  - done.
  - intros [= <-]. unfold py_lt_values in Hlt.
    destruct (numeric x.1), (numeric y.1), x.1, y.1; congruence.
Qed.

Lemma sorted_descending_raise keyed e :
  sorted_descending keyed = Raise e → e = TypeError.
Proof.
  induction keyed as [| x keyed IH]; [done |]. cbn [sorted_descending].
  destruct (sorted_descending keyed) as [sorted | e']; cbn [mbind result_bind].
  - apply insert_descending_raise.
  - intros [= <-]. by apply IH.
Qed.

Lemma insert_descending_length x sorted sorted' :
  insert_descending x sorted = Ok sorted' →
  length sorted' = S (length sorted).
Proof.
  revert sorted'. induction sorted as [| y rest IH]; intros sorted'.
  - by intros [= <-].
  - cbn [insert_descending].
    destruct (py_lt_values x.1 y.1) as [[] | e']; cbn [mbind result_bind];
      [| by intros [= <-] | done].
    destruct (insert_descending x rest) as [rest' |]; [| done].
    cbn [mbind result_bind]. intros [= <-].
    cbn [length]. by rewrite (IH rest').
Qed.

Lemma sorted_descending_length keyed sorted :
  sorted_descending keyed = Ok sorted → length sorted = length keyed.
Proof.
  revert sorted. induction keyed as [| x keyed IH]; intros sorted.
  - by intros [= <-].
  - cbn [sorted_descending].
    destruct (sorted_descending keyed) as [sorted0 |]; [| done].
    cbn [mbind result_bind]. intros ->%insert_descending_length.
    cbn [length]. by rewrite (IH sorted0).
Qed.

Lemma keyed_leads_spec (leads : list lead_row) :
  match keyed_leads leads with
  | Ok keyed =>
    keyed.*2 = leads
    ∧ Forall (λ y : value * lead_row, lead_score_key y.2 = Ok y.1) keyed
  | Raise e =>
    (∃ k, e = KeyError k)
    ∧ Exists (λ lead, sales_lead lead.2 ≫= (.!! "lead_score") = None) leads
  end.
Proof.
  induction leads as [| lead leads IH]; [done |]. cbn [keyed_leads].
  destruct (lead_score_key lead) as [key | e] eqn:Hkey;
    cbn [mbind result_bind].
  - destruct (keyed_leads leads) as [keyed | e]; cbn [mbind result_bind].
    + destruct IH as [<- Hkeys]. split; [done |]. by constructor.
    + destruct IH as [Hk Hex]. split; [done |]. by apply Exists_cons_tl.
  - unfold lead_score_key in Hkey.
    destruct (sales_lead lead.2) as [fields |] eqn:Hlead.
    + destruct (fields !! "lead_score") eqn:Hscore; [done |].
      injection Hkey as <-. split; [by eexists |].
      apply Exists_cons_hd. by rewrite Hlead.
    + injection Hkey as <-. split; [by eexists |].
      apply Exists_cons_hd. by rewrite Hlead.
Qed.

(** X17. The list of all leads fails with a [KeyError] exactly when
    some lead of the query has no [sales_lead] or no [lead_score] in it:
    one such document is enough, and the dashboard shows nothing. *)
Theorem get_all_sales_leads_key_error (rows : list lead_row) :
  (∃ k, get_all_sales_leads (Some rows) = Raise (KeyError k))
  ↔ Exists (λ lead, sales_lead lead.2 ≫= (.!! "lead_score") = None) rows.
Proof.
  unfold get_all_sales_leads. pose proof (keyed_leads_spec rows) as Hspec.
  destruct (keyed_leads rows) as [keyed | e]; cbn [mbind result_bind].
  - destruct Hspec as [<- Hkeys]. split.
    + intros [k Hrun].
      destruct (sorted_descending keyed) as [sorted | e] eqn:Hsort;
        [done |].
      apply sorted_descending_raise in Hsort as ->. done.
    + intros Hex. exfalso.
      apply Exists_fmap, Exists_exists in Hex as (y & Hin & Hnone).
      rewrite Forall_forall in Hkeys. specialize (Hkeys y Hin).
      unfold lead_score_key in Hkeys. cbn in Hnone.
      destruct (sales_lead y.2.2) as [fields |]; [| done].
      cbn in Hnone. by rewrite Hnone in Hkeys.
  - destruct Hspec as [[k ->] Hex]. split; [done | by exists k].
Qed.

(** X18. With two leads or more, of which each has a score, a score
    that is [None] makes the list of all leads fail with a
    [TypeError]. *)
Theorem get_all_sales_leads_none_score (rows : list lead_row) :
  (2 ≤ length rows)%nat →
  Forall (λ lead, is_Some (sales_lead lead.2 ≫= (.!! "lead_score"))) rows →
  Exists (λ lead, lead_score_key lead = Ok VNone) rows →
  get_all_sales_leads (Some rows) = Raise TypeError.
Proof.
  intros Hlen Hkeys Hnone. unfold get_all_sales_leads.
  pose proof (keyed_leads_spec rows) as Hspec.
  destruct (keyed_leads rows) as [keyed | e]; cbn [mbind result_bind].
  - destruct Hspec as [<- Hspec].
    assert (Exists (λ y : value * lead_row, y.1 = VNone) keyed) as Hex.
    { apply Exists_fmap in Hnone.
      apply Exists_exists in Hnone as (y & Hin & Hy).
      apply Exists_exists. exists y. split; [done |].
      rewrite Forall_forall in Hspec. specialize (Hspec y Hin).
      cbn in Hy. congruence. }
    rewrite length_fmap in Hlen. clear Hkeys Hnone Hspec.
    assert (sorted_descending keyed = Raise TypeError) as ->; [| done].
    induction keyed as [| x keyed IH]; [cbn in Hlen; lia |].
    cbn [sorted_descending].
    destruct (sorted_descending keyed) as [sorted | e] eqn:Hsort;
      cbn [mbind result_bind];
      [| by apply sorted_descending_raise in Hsort as ->].
    pose proof (sorted_descending_length _ _ Hsort) as Hsorted.
    destruct sorted as [| y rest];
      [cbn in Hlen, Hsorted; lia |].
    apply Exists_cons in Hex as [Hx | Hex].
    + cbn [insert_descending]. unfold py_lt_values. rewrite Hx. cbn.
      by destruct (numeric y.1), y.1.
    + destruct keyed as [| x' [| x'' keyed]].
      * by apply Exists_nil in Hex.
      * cbn in Hsort. injection Hsort as <- <-.
        apply Exists_cons in Hex as [Hy | Hex];
          [| by apply Exists_nil in Hex].
        cbn [insert_descending]. unfold py_lt_values. rewrite Hy.
        by destruct (numeric x.1), x.1.
      * discriminate IH; [cbn; lia | exact Hex].
  - exfalso. destruct Hspec as [_ Hex].
    apply Exists_exists in Hex as (lead & Hin & Hlead).
    rewrite Forall_forall in Hkeys. destruct (Hkeys lead Hin) as [v Hv].
    congruence.
Qed.

Lemma get_all_sales_leads_none_score_witness :
  get_all_sales_leads
    (Some [ ("lead::7f0c", lead_a); ("lead::55e0", lead_a_null) ])
  = Raise TypeError.
Proof.
  apply (get_all_sales_leads_none_score
           [ ("lead::7f0c", lead_a); ("lead::55e0", lead_a_null) ]).
  - cbn. lia.
  - repeat constructor.
    + exists (VInt 41). by_computation.
    + exists VNone. by_computation.
  - apply Exists_cons_tl, Exists_cons_hd. by_computation.
Defined.

Lemma StronglySorted_of_sublist {A} (R : relation A) (l k : list A) :
  k `sublist_of` l → StronglySorted R l → StronglySorted R k.
Proof.
  induction 1 as [| x k l Hsub IH | x k l _ IH]; intros Hl.
  - constructor.
  - apply StronglySorted_inv in Hl as [Hl Hx].
    constructor; [by apply IH |]. by eapply Forall_of_sublist.
  - apply StronglySorted_inv in Hl as [Hl _]. by apply IH.
Qed.

(** X19. The page as a whole: when the score of every lead of the
    query is a number, the leads shown under any search term and filters
    are leads of the query, no more of them than the query gave, and
    they appear with the highest score first. *)
Theorem shown_leads_descending (lower : string → string)
    (search_term status_filter priority_filter : string)
    (rows leads shown : list lead_row) :
  Forall has_numeric_score rows →
  get_all_sales_leads (Some rows) = Ok leads →
  view_filters lower search_term status_filter priority_filter leads
    = Shown shown →
  StronglySorted (λ a b, score_number b ≤ score_number a) shown
  ∧ shown ⊆ rows
  ∧ (length shown ≤ length rows)%nat.
Proof.
  intros Hrows Hleads Hshown.
  destruct (get_all_sales_leads_numeric rows Hrows)
    as (leads' & Hleads' & Hperm & Hsorted & _).
  assert (leads' = leads) as -> by congruence.
  apply view_filters_shown_sublist in Hshown.
  split; [by eapply StronglySorted_of_sublist |]. split.
  - intros lead Hin. rewrite <- Hperm. by eapply sublist_subseteq.
  - rewrite <- Hperm. by apply sublist_length.
Qed.

Lemma shown_leads_descending_witness :
  StronglySorted (λ a b, score_number b ≤ score_number a)
    [ ("lead::03b1", lead_r_flagged); ("lead::7f0c", lead_a) ]
  ∧ [ ("lead::03b1", lead_r_flagged); ("lead::7f0c", lead_a) ]
    ⊆ example_query
  ∧ (length [ ("lead::03b1", lead_r_flagged); ("lead::7f0c", lead_a) ]
     ≤ length example_query)%nat.
Proof.
  apply (shown_leads_descending (λ s, s) "" "All" "Low Priority"
           example_query
           [ ("lead::a2d9", lead_a_high); ("lead::03b1", lead_r_flagged);
             ("lead::7f0c", lead_a) ]).
  - repeat constructor.
    + exists (VInt 41), 41. split; by_computation.
    + exists (VInt 86), 86. split; by_computation.
    + exists (VInt 41), 41. split; by_computation.
  - by_computation.
  - by_computation.
Defined.

Lemma keep_if_kept {A} (keep : A → result bool) (l kept : list A) :
  keep_if keep l = Ok kept → Forall (λ x, keep x = Ok true) kept.
Proof.
  revert kept. induction l as [| x l IH]; intros kept Hrun.
  - injection Hrun as <-. constructor.
  - cbn [keep_if] in Hrun.
    apply bind_Ok in Hrun as (b & Hb & Hrun).
    apply bind_Ok in Hrun as (kept' & Hkept & Hrun).
    injection Hrun as <-.
    destruct b; [constructor; [done |] |]; by apply IH.
Qed.

(** X20. The priority filter and the badge of the cards agree: under
    Medium Priority, Low Priority and Closed Leads every card shown
    carries the badge MEDIUM, LOW and CLOSED, whatever the flags of the
    leads; and under High Priority the badge HIGH, as long as the leads
    that are flagged have a score of 80 or more. *)
Theorem shown_leads_carry_priority (lower : string → string)
    (search_term status_filter priority_filter text : string)
    (leads shown : list lead_row) :
  (priority_filter, text)
    ∈ [ ("High Priority", "HIGH"); ("Medium Priority", "MEDIUM");
        ("Low Priority", "LOW"); ("Closed Leads", "CLOSED") ] →
  (priority_filter = "High Priority" →
   Forall (λ lead, row_flag lead = true →
                   ∃ n, numeric (row_score lead) = Some n ∧ 80 ≤ n) leads) →
  view_filters lower search_term status_filter priority_filter leads
    = Shown shown →
  Forall (λ lead, get_priority_text (row_score lead) = Ok text) shown.
Proof.
  intros Hfilter Hflags Hshown.
  pose proof (view_filters_shown_sublist _ _ _ _ _ _ Hshown) as Hsub.
  apply view_filters_stages in Hshown as (searched & _ & Hprio).
  match type of Hprio with
  | priority_leads _ ?l = _ => generalize dependent l; intros filtered
  end.
  unfold priority_leads.
  cases_of_membership Hfilter; injection Hfilter as -> ->;
    evaluate_decisions; intros Hprio.
  - injection Hprio as <-.
    pose proof (Forall_of_sublist _ _ _ Hsub (Hflags eq_refl)) as Hshown.
    apply Forall_forall. intros lead Hin.
    pose proof Hin as [Hflag _]%list_elem_of_filter.
    rewrite Forall_forall in Hshown.
    destruct (Hshown lead Hin) as (n & Hn & Hle);
      [by apply Is_true_true |].
    rewrite (get_priority_text_numeric _ _ Hn).
    destruct (n <? 0) eqn:H0, (80 <=? n) eqn:H80; try done; lia.
  - apply keep_if_kept in Hprio.
    eapply Forall_impl; [exact Hprio |]. intros lead Hlead.
    unfold py_between in Hlead.
    destruct (numeric (row_score lead)) as [n |] eqn:Hn; [| done].
    rewrite (get_priority_text_numeric _ _ Hn).
    destruct (n <? 0) eqn:H0, (80 <=? n) eqn:H80, (50 <=? n) eqn:H50,
      (n <? 80) eqn:Hlt; try done; lia.
  - apply keep_if_kept in Hprio.
    eapply Forall_impl; [exact Hprio |]. intros lead Hlead.
    unfold py_between in Hlead.
    destruct (numeric (row_score lead)) as [n |] eqn:Hn; [| done].
    rewrite (get_priority_text_numeric _ _ Hn).
    destruct (n <? 0) eqn:H0, (80 <=? n) eqn:H80, (50 <=? n) eqn:H50,
      (0 <=? n) eqn:Hpos, (n <? 50) eqn:Hlt; try done; lia.
  - apply keep_if_kept in Hprio.
    eapply Forall_impl; [exact Hprio |]. intros lead Hlead.
    unfold py_lt in Hlead.
    destruct (numeric (row_score lead)) as [n |] eqn:Hn; [| done].
    rewrite (get_priority_text_numeric _ _ Hn).
    injection Hlead as ->. done.
Qed.

Lemma shown_leads_carry_priority_witness :
  Forall (λ lead, get_priority_text (row_score lead) = Ok "HIGH")
    [ ("lead::a2d9", lead_a_high) ].
Proof.
  apply (shown_leads_carry_priority (λ s, s) "" "All" "High Priority" "HIGH"
           [ ("lead::a2d9", lead_a_high); ("lead::03b1", lead_r_flagged);
             ("lead::7f0c", lead_a) ]).
  - set_solver.
  - intros _.
    constructor; [| constructor; [| constructor; [| constructor]]].
    + intros _. exists 86. split; [by_computation | lia].
    + intros Hflag. vm_compute in Hflag. discriminate.
    + intros Hflag. vm_compute in Hflag. discriminate.
  - by_computation.
Defined.

(** ** The seeding script *)

Lemma get_quarter_dates_range quarter :
  get_quarter_dates quarter ∈ quarter_ranges.
Proof.
  destruct (decide (quarter = "Q1 2025")) as [-> | H1]; [by_evaluation |].
  destruct (decide (quarter = "Q2 2025")) as [-> | H2]; [by_evaluation |].
  destruct (decide (quarter = "Q3 2025")) as [-> | H3]; [by_evaluation |].
  destruct (decide (quarter = "Q4 2025")) as [-> | H4]; [by_evaluation |].
  unfold get_quarter_dates, quarter_dates. cbn [list_to_map foldr uncurry].
  rewrite !lookup_insert_ne, lookup_empty by done. by_evaluation.
Qed.

(** Every draw of every quarter, by evaluation. *)
Lemma quarter_ranges_dates :
  Forall (λ range : datetime * datetime,
            Forall (λ k, date_in_months range.1 range.2 k
                           (add_days range.1 k))
              (seqZ 0 (days_between range.1 range.2 + 1)))
    quarter_ranges.
Proof. by_evaluation. Qed.

Lemma random_date_in_range (quarter : string) (k : Z) :
  0 ≤ k ≤ days_between (get_quarter_dates quarter).1
            (get_quarter_dates quarter).2 →
  ∃ d,
    random_date (get_quarter_dates quarter).1 (get_quarter_dates quarter).2 k
    = strftime_ymd d
    ∧ date_in_months (get_quarter_dates quarter).1
        (get_quarter_dates quarter).2 k d.
Proof.
  intros Hk. exists (add_days (get_quarter_dates quarter).1 k).
  split; [reflexivity |].
  pose proof (get_quarter_dates_range quarter) as Hrange.
  pose proof quarter_ranges_dates as Hall.
  rewrite Forall_forall in Hall. specialize (Hall _ Hrange).
  rewrite Forall_forall in Hall. apply Hall.
  apply elem_of_seqZ. lia.
Qed.

(** X21. Whatever the quarter asked for, known or not, a date drawn
    between the two dates [get_quarter_dates] gives is a date of 2025
    within the months of that range, as many days after the first date as
    the draw says, and it is printed in the ten characters of
    YYYY-MM-DD. *)
Theorem random_date_within_quarter (quarter : string) (k : Z) :
  0 ≤ k ≤ days_between (get_quarter_dates quarter).1
            (get_quarter_dates quarter).2 →
  ∃ d,
    random_date (get_quarter_dates quarter).1 (get_quarter_dates quarter).2 k
    = strftime_ymd d
    ∧ date_in_months (get_quarter_dates quarter).1
        (get_quarter_dates quarter).2 k d.
Proof. apply random_date_in_range. Qed.

Lemma random_date_within_quarter_witness :
  ∃ d,
    random_date (get_quarter_dates "Q2 2025").1
      (get_quarter_dates "Q2 2025").2 45
    = strftime_ymd d
    ∧ date_in_months (get_quarter_dates "Q2 2025").1
        (get_quarter_dates "Q2 2025").2 45 d.
Proof.
  apply (random_date_within_quarter "Q2 2025" 45).
  vm_compute. split; discriminate.
Defined.

Lemma all_choices_mapping status stage :
  (status, stage) ∈ all_choices →
  stage ∈ default [] (STATUS_PIPELINE_MAPPING !! status).
Proof.
  intros Hin. unfold all_choices in Hin.
  cases_of_membership Hin; injection Hin as -> ->; by_evaluation.
Qed.

Lemma random_choice_in_range {A} (l : list A) (k : nat) :
  (k < length l)%nat → ∃ a, l !! k = Some a ∧ random_choice l k = Ok a.
Proof.
  intros [a Ha]%lookup_lt_is_Some_2. exists a. unfold random_choice.
  by rewrite Ha.
Qed.

(** The record drawn, when every draw is one [random] can make. *)
Lemma generate_random_record_in_range (r : record_draws) :
  draws_in_range r →
  ∃ quarter status stage crm suffix region source,
    quarters !! quarter_draw r = Some quarter
    ∧ all_choices !! status_stage_draw r = Some (status, stage)
    ∧ generate_random_record r
      = Ok (Document
              (Some
                 (random_sales_lead r (company_draw r +:+ " " +:+ suffix)
                    quarter region
                    (random_date (get_quarter_dates quarter).1
                       (get_quarter_dates quarter).2 (date_draw r))
                    status stage source crm
                    (lead_score_weighted (score_draw r) (deal_size_draw r)
                       (VStr status) (VStr stage) (VBool crm))))
              None {[ "lead_id" := VStr (uuid_draw r) ]}).
Proof.
  intros (_ & Hq & _ & Hp & Hc & _ & Hs & _ & _ & _ & Hr & Hl).
  destruct (random_choice_in_range quarters _ Hq) as (quarter & Hq1 & Hq2).
  destruct (random_choice_in_range all_choices _ Hp) as ([st sg] & Hp1 & _).
  destruct (random_choice_in_range [true; false] _ Hc) as (crm & _ & Hc2).
  destruct (random_choice_in_range company_suffixes _ Hs)
    as (suffix & _ & Hs2).
  destruct (random_choice_in_range MARKET_REGIONS _ Hr) as (region & _ & Hr2).
  destruct (random_choice_in_range LEAD_SOURCES _ Hl) as (source & _ & Hl2).
  exists quarter, st, sg, crm, suffix, region, source.
  split; [done |]. split; [done |].
  unfold generate_random_record, generate_company_name.
  rewrite Hq2, (proj2 (random_pair_lookup _ _) Hp1), Hc2, Hs2, Hr2, Hl2.
  reflexivity.
Qed.

(** The fields of a generated record the properties below read. *)
Lemma random_sales_lead_fields r company quarter region date status stage
    source crm score :
  let sl :=
    random_sales_lead r company quarter region date status stage source
      crm score in
  sl !! "quarter" = Some (VStr quarter)
  ∧ sl !! "date_of_last_contact" = Some (VStr date)
  ∧ sl !! "lead_status" = Some (VStr status)
  ∧ sl !! "pipeline_stage" = Some (VStr stage)
  ∧ sl !! "lead_score" = Some (VInt score)
  ∧ sl !! "high_priority_flag" = Some (VBool (80 <=? score))
  ∧ sl !! "last_deal_size_usd" = Some (VInt (deal_size_draw r)).
Proof. repeat split; by_computation. Qed.

(** X22. With draws that [random] can make, [generate_random_record]
    returns a record with its id, no history, one of the four quarters
    and a date of last contact within that quarter, a status with a stage
    the mapping allows for it, a score between 0 and 100 that is 0
    exactly for Won and Lost, and the flag that score calls for. *)
Theorem generated_record_well_formed (r : record_draws) :
  draws_in_range r →
  ∃ doc quarter status stage d n,
    generate_random_record r = Ok doc
    ∧ old_data doc = None
    ∧ other_keys doc = {[ "lead_id" := VStr (uuid_draw r) ]}
    ∧ field doc "quarter" = VStr quarter ∧ quarter ∈ quarters
    ∧ field doc "date_of_last_contact" = VStr (strftime_ymd d)
    ∧ date_in_months (get_quarter_dates quarter).1
        (get_quarter_dates quarter).2 (date_draw r) d
    ∧ field doc "lead_status" = VStr status
    ∧ field doc "pipeline_stage" = VStr stage
    ∧ stage ∈ default [] (STATUS_PIPELINE_MAPPING !! status)
    ∧ field doc "lead_score" = VInt n ∧ (0 ≤ n ≤ 100)
    ∧ field doc "high_priority_flag" = VBool (80 <=? n)
    ∧ (status = "Won" ∨ status = "Lost" ↔ n = 0).
Proof.
  intros Hr.
  destruct (generate_random_record_in_range r Hr)
    as (quarter & status & stage & crm & suffix & region & source
        & Hquarter & Hpair & ->).
  destruct Hr as (Hdeal & _ & Hdate & _ & _ & Hbase & _).
  destruct (random_date_in_range quarter (date_draw r) (Hdate _ Hquarter))
    as (d & Hd & Hmonths).
  exists (Document
            (Some
               (random_sales_lead r (company_draw r +:+ " " +:+ suffix)
                  quarter region
                  (random_date (get_quarter_dates quarter).1
                     (get_quarter_dates quarter).2 (date_draw r))
                  status stage source crm
                  (lead_score_weighted (score_draw r) (deal_size_draw r)
                     (VStr status) (VStr stage) (VBool crm))))
            None {[ "lead_id" := VStr (uuid_draw r) ]}),
    quarter, status, stage, d,
    (lead_score_weighted (score_draw r) (deal_size_draw r) (VStr status)
       (VStr stage) (VBool crm)).
  unfold field, py_get. cbn [sales_lead old_data other_keys from_option id].
  rewrite <- Hd.
  destruct (random_sales_lead_fields r (company_draw r +:+ " " +:+ suffix)
              quarter region
              (random_date (get_quarter_dates quarter).1
                 (get_quarter_dates quarter).2 (date_draw r))
              status stage source crm
              (lead_score_weighted (score_draw r) (deal_size_draw r)
                 (VStr status) (VStr stage) (VBool crm)))
    as (-> & -> & -> & -> & -> & -> & _).
  cbn [from_option id].
  split; [done |]. split; [done |]. split; [done |].
  split; [done |].
  split; [by eapply list_elem_of_lookup_2 |].
  split; [done |]. split; [done |].
  split; [done |]. split; [done |].
  split; [by eapply all_choices_mapping, list_elem_of_lookup_2 |].
  split; [done |].
  split; [apply lead_score_weighted_range |].
  split; [done |].
  split.
  - intros Hclosed. rewrite lead_score_weighted_closed_form.
    by rewrite (proj2 (is_won_or_lost_spec (VStr status)))
      by (destruct Hclosed as [-> | ->]; eauto).
  - intros Hzero.
    destruct (is_won_or_lost (VStr status)) eqn:Hnt.
    + apply is_won_or_lost_spec in Hnt as [[= ->] | [= ->]]; eauto.
    + assert (0 ≤ deal_size_draw r) as Hpos by lia.
      pose proof (active_score_positive (score_draw r) (deal_size_draw r)
                    (VStr status) (VStr stage) (VBool crm) (proj1 Hbase)
                    Hpos Hnt). lia.
Qed.

Lemma generated_record_well_formed_witness :
  ∃ doc quarter status stage d n,
    generate_random_record example_draws = Ok doc
    ∧ old_data doc = None
    ∧ other_keys doc = {[ "lead_id" := VStr (uuid_draw example_draws) ]}
    ∧ field doc "quarter" = VStr quarter ∧ quarter ∈ quarters
    ∧ field doc "date_of_last_contact" = VStr (strftime_ymd d)
    ∧ date_in_months (get_quarter_dates quarter).1
        (get_quarter_dates quarter).2 (date_draw example_draws) d
    ∧ field doc "lead_status" = VStr status
    ∧ field doc "pipeline_stage" = VStr stage
    ∧ stage ∈ default [] (STATUS_PIPELINE_MAPPING !! status)
    ∧ field doc "lead_score" = VInt n ∧ (0 ≤ n ≤ 100)
    ∧ field doc "high_priority_flag" = VBool (80 <=? n)
    ∧ (status = "Won" ∨ status = "Lost" ↔ n = 0).
Proof.
  apply (generated_record_well_formed example_draws).
  unfold draws_in_range, example_draws.
  cbn [deal_size_draw quarter_draw date_draw status_stage_draw crm_draw
       score_draw suffix_draw market_cap_draw annual_sales_draw
       customers_draw region_draw source_draw].
  split; [lia |]. split; [lia |]. split; [| repeat split; lia].
  intros quarter [= <-]. vm_compute. split; discriminate.
Defined.

(** [update_document] returns on a lead that has a score and a deal
    size that is a number. *)
Lemma update_document_returns rnd now doc sl st sg note deal :
  sales_lead doc = Some sl →
  random_lead_status_and_pipeline_stage (pair_draw rnd) = Ok (st, sg) →
  random_notes (notes_draw rnd) = Ok note →
  numeric (default (VInt 0) (sl !! "last_deal_size_usd")) = Some deal →
  is_Some (sl !! "lead_score") →
  ∃ d changed, update_document rnd now doc = Ok (d, changed).
Proof.
  intros Hsl Hpair Hnote Hdeal [v0 Hv0].
  rewrite (update_document_unfold _ now _ _ _ _ _ _ Hsl Hpair Hnote Hdeal).
  unfold dict_index.
  match goal with
  | |- context [match ?m !! "lead_score" with _ => _ end] =>
      destruct (m !! "lead_score") as [v |] eqn:Hlook
  end.
  - cbn [mbind result_bind].
    assert (numeric v
            = Some (lead_score_weighted (base_draw rnd) deal (VStr st)
                      (VStr sg)
                      (default (VBool false) (sl !! "crm_activity_flag"))))
      as Hnum.
    { revert Hlook. rewrite lookup_insert_if. evaluate_decisions.
      rewrite andb_true_r.
      destruct (py_neb _ (default (VInt 0) (sl !! "lead_score"))) eqn:Hsd.
      - by intros [= <-].
      - rewrite !lookup_insert_if. evaluate_decisions.
        rewrite !andb_false_r. intros Hv.
        apply py_neb_false, py_eqb_VInt in Hsd. by rewrite Hv in Hsd. }
    unfold py_ge. rewrite Hnum. cbn [mbind result_bind].
    match goal with
    | |- context [if ?b then Ok _ else Ok _] => destruct b
    end; eauto.
  - apply final_score_missing in Hlook as [Hnone _]. congruence.
Qed.

(** X23. The two scripts together: a record of the seeding script,
    drawn with draws [random] can make, is one the refresh job can
    always process.  [update_document] returns on it, whatever it draws,
    the document it returns has a score that is a number with the flag
    that score calls for, and it keeps the id of the record. *)
Theorem generated_record_refreshes (r : record_draws) (rnd : draws)
    (now st sg note : string) :
  draws_in_range r →
  random_lead_status_and_pipeline_stage (pair_draw rnd) = Ok (st, sg) →
  random_notes (notes_draw rnd) = Ok note →
  ∃ doc d changed,
    generate_random_record r = Ok doc
    ∧ update_document rnd now doc = Ok (d, changed)
    ∧ flag_invariant d
    ∧ other_keys d = {[ "lead_id" := VStr (uuid_draw r) ]}.
Proof.
  intros Hr Hpair Hnote.
  destruct (generate_random_record_in_range r Hr)
    as (quarter & status & stage & crm & suffix & region & source
        & _ & _ & Hgen).
  set (sl := random_sales_lead r (company_draw r +:+ " " +:+ suffix)
               quarter region
               (random_date (get_quarter_dates quarter).1
                  (get_quarter_dates quarter).2 (date_draw r))
               status stage source crm
               (lead_score_weighted (score_draw r) (deal_size_draw r)
                  (VStr status) (VStr stage) (VBool crm))) in Hgen.
  set (doc := Document (Some sl) None {[ "lead_id" := VStr (uuid_draw r) ]})
    in Hgen.
  assert (sales_lead doc = Some sl) as Hsl by reflexivity.
  destruct (random_sales_lead_fields r (company_draw r +:+ " " +:+ suffix)
              quarter region
              (random_date (get_quarter_dates quarter).1
                 (get_quarter_dates quarter).2 (date_draw r))
              status stage source crm
              (lead_score_weighted (score_draw r) (deal_size_draw r)
                 (VStr status) (VStr stage) (VBool crm)))
    as (_ & _ & _ & _ & Hlook & _ & Hsize).
  fold sl in Hlook, Hsize.
  assert (numeric (default (VInt 0) (sl !! "last_deal_size_usd"))
          = Some (deal_size_draw r)) as Hdeal by (by rewrite Hsize).
  assert (is_Some (sl !! "lead_score")) as Hscore by (by rewrite Hlook).
  destruct (update_document_returns rnd now doc sl st sg note _
              Hsl Hpair Hnote Hdeal Hscore) as (d & changed & Hrun).
  exists doc, d, changed. split; [exact Hgen |]. split; [exact Hrun |].
  split.
  - apply produced_flag_invariant.
    by apply (produced_by_update_document rnd now doc d changed).
  - by destruct (update_document_result _ now _ _ _ _ _ _ Hsl Hpair Hnote
                   Hdeal _ _ Hrun) as (_ & _ & -> & _).
Qed.

Lemma generated_record_refreshes_witness :
  ∃ doc d changed,
    generate_random_record example_draws = Ok doc
    ∧ update_document (Draws 4 0 20) "2025-06-01T09:30:00Z" doc
      = Ok (d, changed)
    ∧ flag_invariant d
    ∧ other_keys d = {[ "lead_id" := VStr (uuid_draw example_draws) ]}.
Proof.
  apply (generated_record_refreshes example_draws (Draws 4 0 20)
           "2025-06-01T09:30:00Z" "Qualified" "Discovery"
           "Contacted client, awaiting response.").
  - unfold draws_in_range, example_draws.
    cbn [deal_size_draw quarter_draw date_draw status_stage_draw crm_draw
         score_draw suffix_draw market_cap_draw annual_sales_draw
         customers_draw region_draw source_draw].
    split; [lia |]. split; [lia |]. split; [| repeat split; lia].
    intros quarter [= <-]. vm_compute. split; discriminate.
  - by_computation.
  - by_computation.
Defined.

(** One turn of the loop of the seeding script. *)
Lemma insert_record_in_range st r :
  draws_in_range r →
  ∃ doc,
    generate_random_record r = Ok doc
    ∧ insert_record st r
      = Ok (match inserted_into st !! ("lead::" +:+ uuid_draw r) with
            | None =>
              InsertState
                (<["lead::" +:+ uuid_draw r := doc]> (inserted_into st))
                (success_count st + 1) (error_count st)
            | Some _ =>
              InsertState (inserted_into st) (success_count st)
                (error_count st + 1)
            end).
Proof.
  intros Hr.
  destruct (generate_random_record_in_range r Hr)
    as (quarter & status & stage & crm & suffix & region & source
        & _ & _ & Hgen).
  eexists. split; [exact Hgen |].
  unfold insert_record. rewrite Hgen.
  cbn [mbind result_bind other_keys]. unfold dict_index.
  rewrite lookup_singleton_eq. cbn [mbind result_bind py_str].
  by destruct (inserted_into st !! ("lead::" +:+ uuid_draw r)).
Qed.

Lemma insert_fold_spec (draw : nat → record_draws) (turns : list nat) st :
  Forall (λ i, draws_in_range (draw i)) turns →
  ∃ st',
    foldl (λ acc i, st ← acc; insert_record st (draw i)) (Ok st) turns
    = Ok st'
    ∧ success_count st' + error_count st'
      = success_count st + error_count st + Z.of_nat (length turns)
    ∧ success_count st ≤ success_count st'
    ∧ error_count st ≤ error_count st'
    ∧ inserted_into st ⊆ inserted_into st'
    ∧ Z.of_nat (size (inserted_into st'))
      = Z.of_nat (size (inserted_into st))
        + (success_count st' - success_count st)
    ∧ (∀ k d, inserted_into st' !! k = Some d →
         inserted_into st !! k = Some d
         ∨ ∃ i, i ∈ turns
              ∧ k = "lead::" +:+ uuid_draw (draw i)
              ∧ generate_random_record (draw i) = Ok d).
Proof.
  intros Hall. revert st.
  induction Hall as [| i turns Hi _ IH]; intros st.
  - exists st. cbn. split; [done |]. split; [lia |]. split; [lia |].
    split; [lia |]. split; [done |]. split; [lia |]. by left.
  - destruct (insert_record_in_range st (draw i) Hi) as (doc & Hgen & Hrun).
    cbn [foldl mbind result_bind]. rewrite Hrun.
    destruct (inserted_into st !! ("lead::" +:+ uuid_draw (draw i)))
      as [held |] eqn:Hheld.
    + destruct (IH (InsertState (inserted_into st) (success_count st)
                      (error_count st + 1)))
        as (st' & Hfold & Hsum & Hsucc & Herr & Hsub & Hsize & Hdocs).
      cbn [inserted_into success_count error_count] in *.
      exists st'. split; [exact Hfold |]. rewrite length_cons.
      split; [lia |]. split; [lia |]. split; [lia |]. split; [done |].
      split; [lia |].
      intros k d Hk. destruct (Hdocs k d Hk) as [? | (j & Hj & ? & ?)];
        [by left | right].
      exists j. split; [by apply list_elem_of_further | done].
    + destruct (IH (InsertState
                      (<["lead::" +:+ uuid_draw (draw i) := doc]>
                         (inserted_into st))
                      (success_count st + 1) (error_count st)))
        as (st' & Hfold & Hsum & Hsucc & Herr & Hsub & Hsize & Hdocs).
      cbn [inserted_into success_count error_count] in *.
      exists st'. split; [exact Hfold |]. rewrite length_cons.
      split; [lia |]. split; [lia |]. split; [lia |]. split.
      * etrans; [| exact Hsub]. by apply insert_subseteq.
      * split.
        -- rewrite map_size_insert_None in Hsize by done. lia.
        -- intros k d Hk.
           destruct (Hdocs k d Hk) as [Hold | (j & Hj & ? & ?)].
           ++ apply lookup_insert_Some in Hold as [[<- <-] | [_ Hold]].
              ** right. exists i. split; [by apply list_elem_of_here | done].
              ** by left.
           ++ right. exists j. split; [by apply list_elem_of_further | done].
Qed.

(** X24. The seeding script, with draws [random] can make, ends after
    its five turns with [success_count + error_count = 5]; a record
    whose key the collection holds is counted as an error and written
    nowhere, so that every document held before is held unchanged, the
    collection has grown by [success_count] documents, and each new
    document is a generated record under ["lead::"] and its id. *)
Theorem insert_main_counts (stored : gmap string document)
    (draw : nat → record_draws) :
  (∀ i, (i < num_records)%nat → draws_in_range (draw i)) →
  ∃ st,
    insert_main stored draw = Ok st
    ∧ success_count st + error_count st = 5
    ∧ 0 ≤ success_count st ∧ 0 ≤ error_count st
    ∧ stored ⊆ inserted_into st
    ∧ Z.of_nat (size (inserted_into st))
      = Z.of_nat (size stored) + success_count st
    ∧ (∀ k d, inserted_into st !! k = Some d →
         stored !! k = Some d
         ∨ ∃ i, (i < num_records)%nat
              ∧ k = "lead::" +:+ uuid_draw (draw i)
              ∧ generate_random_record (draw i) = Ok d).
Proof.
  intros Hdraws.
  destruct (insert_fold_spec draw (seq 0 num_records)
              (InsertState stored 0 0))
    as (st & Hfold & Hsum & Hsucc & Herr & Hsub & Hsize & Hdocs).
  { apply Forall_forall. intros i Hi. apply Hdraws.
    apply elem_of_seq in Hi. lia. }
  cbn [inserted_into success_count error_count] in *.
  exists st. split; [exact Hfold |].
  rewrite length_seq in Hsum. unfold num_records in Hsum.
  split; [lia |]. split; [lia |]. split; [lia |]. split; [done |].
  split; [lia |].
  intros k d Hk. destruct (Hdocs k d Hk) as [? | (i & Hi & ? & ?)];
    [by left | right].
  exists i. split; [| done]. apply elem_of_seq in Hi. lia.
Qed.

Lemma insert_main_counts_witness :
  ∃ st,
    insert_main ∅
      (λ i, if bool_decide (i = 0%nat) then example_draws
            else example_draws_again)
    = Ok st
    ∧ success_count st + error_count st = 5
    ∧ 0 ≤ success_count st ∧ 0 ≤ error_count st
    ∧ ∅ ⊆ inserted_into st
    ∧ Z.of_nat (size (inserted_into st))
      = Z.of_nat (size (∅ : gmap string document)) + success_count st
    ∧ (∀ k d, inserted_into st !! k = Some d →
         (∅ : gmap string document) !! k = Some d
         ∨ ∃ i, (i < num_records)%nat
              ∧ k = "lead::"
                    +:+ uuid_draw
                          (if bool_decide (i = 0%nat) then example_draws
                           else example_draws_again)
              ∧ generate_random_record
                  (if bool_decide (i = 0%nat) then example_draws
                   else example_draws_again)
                = Ok d).
Proof.
  apply (insert_main_counts ∅
           (λ i, if bool_decide (i = 0%nat) then example_draws
                 else example_draws_again)).
  intros i _. case_bool_decide.
  - unfold draws_in_range, example_draws.
    cbn [deal_size_draw quarter_draw date_draw status_stage_draw crm_draw
         score_draw suffix_draw market_cap_draw annual_sales_draw
         customers_draw region_draw source_draw].
    split; [lia |]. split; [lia |]. split; [| repeat split; lia].
    intros quarter [= <-]. vm_compute. split; discriminate.
  - unfold draws_in_range, example_draws_again.
    cbn [deal_size_draw quarter_draw date_draw status_stage_draw crm_draw
         score_draw suffix_draw market_cap_draw annual_sales_draw
         customers_draw region_draw source_draw].
    split; [lia |]. split; [lia |]. split; [| repeat split; lia].
    intros quarter [= <-]. vm_compute. split; discriminate.
Defined.

(** ** The lead the edit page opens *)

Lemma selected_lead_found (leads : list lead_row) (lead : lead_row) :
  NoDup (leads.*1) → lead ∈ leads → selected_lead lead.1 leads = Some lead.
Proof.
  induction leads as [| x leads IH]; intros Hnodup Hin.
  - by apply elem_of_nil in Hin.
  - rewrite fmap_cons in Hnodup. apply NoDup_cons in Hnodup as [Hx Hnodup].
    cbn [selected_lead]. apply elem_of_cons in Hin as [-> | Hin].
    + by rewrite bool_decide_eq_true_2.
    + rewrite bool_decide_eq_false_2; [by apply IH |].
      intros Heq. apply Hx. rewrite Heq.
      apply list_elem_of_fmap. by exists lead.
Qed.

Lemma selected_lead_none (leads : list lead_row) (id : string) :
  selected_lead id leads = None ↔ id ∉ leads.*1.
Proof.
  induction leads as [| x leads IH]; cbn [selected_lead].
  - split; [intros _; apply not_elem_of_nil | done].
  - rewrite fmap_cons, not_elem_of_cons. case_bool_decide as Hx.
    + split; [done | intros [Hne _]; by destruct Hne].
    + rewrite IH. split; [by split | by intros [_ ?]].
Qed.

(** X25. The Edit button of a card stores the id of its lead, and the
    edit page looks for that id among the leads: when the ids are those
    of distinct documents, the lead it opens is the very lead whose
    card was shown, under any search term and filters; and it reports
    that no lead is found exactly for an id no lead has. *)
Theorem edit_opens_clicked_lead (lower : string → string)
    (search_term status_filter priority_filter : string)
    (leads shown : list lead_row) :
  NoDup (leads.*1) →
  view_filters lower search_term status_filter priority_filter leads
    = Shown shown →
  (∀ lead, lead ∈ shown → selected_lead lead.1 leads = Some lead)
  ∧ (∀ id, selected_lead id leads = None ↔ id ∉ leads.*1).
Proof.
  intros Hnodup Hshown. split; [| apply selected_lead_none].
  intros lead Hin. apply selected_lead_found; [done |].
  apply view_filters_shown_sublist in Hshown.
  by eapply sublist_subseteq.
Qed.

Lemma edit_opens_clicked_lead_witness :
  (∀ lead, lead ∈ [ ("lead::7f0c", lead_a) ] →
           selected_lead lead.1 example_rows = Some lead)
  ∧ (∀ id, selected_lead id example_rows = None ↔ id ∉ example_rows.*1).
Proof.
  apply (edit_opens_clicked_lead (λ s, s) "Acme" "Prospect" "Low Priority").
  - by_evaluation.
  - by_computation.
Defined.
